(** * Z180 CPU core (src/devices/cpu/z180/z180.cpp): shallow embedding

    The device class [z180_device] is embedded as a record of its member
    variables, the member functions as pure state-passing functions.
    C integers are [Z]; a store into a narrower member is written with its
    wrap-around ([u8], [u16], [u32]) wherever the stored expression can
    leave the member's range.  C arrays are total functions from the index
    ([array]), updated pointwise. *)

From Stdlib Require Import ZArith List Lia Bool.
Import ListNotations.
Open Scope Z_scope.

Module Z180.

(** ** Machine integers *)

Definition u8 (x : Z) : Z := x mod 256.
Definition u16 (x : Z) : Z := x mod 65536.
Definition u32 (x : Z) : Z := x mod 4294967296.

(** C truth value of an integer expression. *)
Definition nz (x : Z) : bool := negb (x =? 0).

(** ** Arrays *)

Definition array := Z -> Z.

Definition upd (a : array) (i v : Z) : array :=
  fun j => if j =? i then v else a j.

Definition zeros : array := fun _ => 0.

(** [for (i = lo; i < lo + n; i++) body] *)
Fixpoint for_range {A : Type} (n : nat) (i : Z) (body : Z -> A -> A) (a : A) : A :=
  match n with
  | O => a
  | S n' => for_range n' (i + 1) body (body i a)
  end.

(** ** The [PAIR] and [PAIR16] register unions (little endian)

    A [PAIR] is kept as its 32-bit [d] member; [w.l], [b.l], [b.h] and
    [b.h2] are views of it.  A [PAIR16] is kept as its 16-bit [w]. *)

Definition pair_w_l (d : Z) : Z := Z.land d 0xffff.
Definition pair_b_l (d : Z) : Z := Z.land d 0xff.
Definition pair_b_h (d : Z) : Z := Z.land (Z.shiftr d 8) 0xff.
Definition pair_b_h2 (d : Z) : Z := Z.land (Z.shiftr d 16) 0xff.

Definition pair_set_w_l (v d : Z) : Z :=
  Z.lor (Z.land d 0xffff0000) (u16 v).
Definition pair_set_b_l (v d : Z) : Z :=
  Z.lor (Z.land d (Z.lnot 0xff)) (u8 v).
Definition pair_set_b_h (v d : Z) : Z :=
  Z.lor (Z.land d (Z.lnot 0xff00)) (Z.shiftl (u8 v) 8).
Definition pair_set_b_h2 (v d : Z) : Z :=
  Z.lor (Z.land d (Z.lnot 0xff0000)) (Z.shiftl (u8 v) 16).

(** ** Constants of z180.cpp *)

(** interrupt priorities *)
Definition Z180_INT_TRAP : Z := 0.
Definition Z180_INT_NMI : Z := 1.
Definition Z180_INT_IRQ0 : Z := 2.
Definition Z180_INT_IRQ1 : Z := 3.
Definition Z180_INT_IRQ2 : Z := 4.
Definition Z180_INT_PRT0 : Z := 5.
Definition Z180_INT_PRT1 : Z := 6.
Definition Z180_INT_DMA0 : Z := 7.
Definition Z180_INT_DMA1 : Z := 8.
Definition Z180_INT_CSIO : Z := 9.
Definition Z180_INT_ASCI0 : Z := 10.
Definition Z180_INT_ASCI1 : Z := 11.
Definition Z180_INT_MAX : Z := Z180_INT_ASCI1.

(** flag bits of F *)
Definition CF : Z := 0x01.
Definition NF : Z := 0x02.
Definition PF : Z := 0x04.
Definition VF : Z := PF.
Definition XF : Z := 0x08.
Definition HF : Z := 0x10.
Definition YF : Z := 0x20.
Definition ZF : Z := 0x40.
Definition SF : Z := 0x80.

(** I/O line status flags *)
Definition Z180_CKA0 : Z := 0x00000001.
Definition Z180_CKA1 : Z := 0x00000002.
Definition Z180_CKS : Z := 0x00000004.
Definition Z180_CTS0 : Z := 0x00000100.
Definition Z180_CTS1 : Z := 0x00000200.
Definition Z180_DCD0 : Z := 0x00000400.
Definition Z180_DREQ0 : Z := 0x00000800.
Definition Z180_DREQ1 : Z := 0x00001000.
Definition Z180_RXA0 : Z := 0x00002000.
Definition Z180_RXA1 : Z := 0x00004000.
Definition Z180_RXS : Z := 0x00008000.
Definition Z180_RTS0 : Z := 0x00010000.
Definition Z180_TEND0 : Z := 0x00020000.
Definition Z180_TEND1 : Z := 0x00040000.
Definition Z180_A18_TOUT : Z := 0x00080000.
Definition Z180_TXA0 : Z := 0x00100000.
Definition Z180_TXA1 : Z := 0x00200000.
Definition Z180_TXS : Z := 0x00400000.

(** internal I/O register bits and masks *)
Definition Z180_CNTLA0_RTS0 : Z := 0x10.
Definition Z180_CNTLA0_MPBR_EFR : Z := 0x08.
Definition Z180_CNTLA1_CKA1D : Z := 0x10.
Definition Z180_CNTLA1_MPBR_EFR : Z := 0x08.
Definition Z180_CNTLB0_MPBT : Z := 0x80.
Definition Z180_CNTLB0_CTS_PS : Z := 0x20.
Definition Z180_CNTLB1_MPBT : Z := 0x80.
Definition Z180_STAT0_RIE : Z := 0x08.
Definition Z180_STAT0_DCD0 : Z := 0x04.
Definition Z180_STAT0_TDRE : Z := 0x02.
Definition Z180_STAT0_TIE : Z := 0x01.
Definition Z180_STAT1_RIE : Z := 0x08.
Definition Z180_STAT1_CTS1E : Z := 0x04.
Definition Z180_STAT1_TDRE : Z := 0x02.
Definition Z180_STAT1_TIE : Z := 0x01.
Definition Z180_CNTR_EF : Z := 0x80.
Definition Z180_CNTR_RE : Z := 0x20.
Definition Z180_CNTR_TE : Z := 0x10.
Definition Z180_CNTR_MASK : Z := 0xf7.
Definition Z180_TCR_TIF1 : Z := 0x80.
Definition Z180_TCR_TIF0 : Z := 0x40.
Definition Z180_TCR_TIE1 : Z := 0x20.
Definition Z180_TCR_TIE0 : Z := 0x10.
Definition Z180_TCR_TDE1 : Z := 0x02.
Definition Z180_TCR_TDE0 : Z := 0x01.
Definition Z180_ASEXT0_BRK_DET : Z := 0x02.
Definition Z180_ASEXT0_MASK : Z := 0x7f.
Definition Z180_ASEXT1_BRK_DET : Z := 0x02.
Definition Z180_ASEXT1_MASK : Z := 0x1f.
Definition Z180_CMR_MASK : Z := 0xc0.
Definition Z180_SAR0_MASK : Z := 0x0fffff.
Definition Z180_DAR0_MASK : Z := 0x0fffff.
Definition Z180_MAR1_MASK : Z := 0x0fffff.
Definition Z180_IAR1_MASK : Z := 0xcfffff.
Definition Z180_DSTAT_DE1 : Z := 0x80.
Definition Z180_DSTAT_DE0 : Z := 0x40.
Definition Z180_DSTAT_DWE1 : Z := 0x20.
Definition Z180_DSTAT_DWE0 : Z := 0x10.
Definition Z180_DSTAT_DIE1 : Z := 0x08.
Definition Z180_DSTAT_DIE0 : Z := 0x04.
Definition Z180_DSTAT_DME : Z := 0x01.
Definition Z180_DSTAT_MASK : Z := 0xfd.
Definition Z180_DMODE_DM : Z := 0x30.
Definition Z180_DMODE_SM : Z := 0x0c.
Definition Z180_DMODE_MMOD : Z := 0x02.
Definition Z180_DMODE_MASK : Z := 0x3e.
Definition Z180_DCNTL_DMS0 : Z := 0x04.
Definition Z180_DCNTL_DIM1 : Z := 0x02.
Definition Z180_DCNTL_DIM0 : Z := 0x01.
Definition Z180_IL_IL : Z := 0xe0.
Definition Z180_IL_MASK : Z := 0xe0.
Definition Z180_ITC_UFO : Z := 0x40.
Definition Z180_ITC_ITE2 : Z := 0x04.
Definition Z180_ITC_ITE1 : Z := 0x02.
Definition Z180_ITC_ITE0 : Z := 0x01.
Definition Z180_ITC_MASK : Z := 0xc7.
Definition Z180_RCR_REFE : Z := 0x80.
Definition Z180_RCR_REFW : Z := 0x40.
Definition Z180_RCR_MASK : Z := 0xc3.
Definition Z180_CBAR_CA : Z := 0xf0.
Definition Z180_CBAR_BA : Z := 0x0f.
Definition Z180_OMCR_M1E : Z := 0x80.
Definition Z180_OMCR_M1TE : Z := 0x40.
Definition Z180_OMCR_IOC : Z := 0x20.
Definition Z180_OMCR_MASK : Z := 0xe0.
Definition Z180_IOCR_MASK : Z := 0xe0.

(** line states of the device interface (declared by the emulator core,
    which is not among the sources; the statements below use the names
    only) *)
Definition CLEAR_LINE : Z := 0.
Definition ASSERT_LINE : Z := 1.

(** ** Flag tables built by [device_start] *)

Module FlagTables.

Record flag_tables := mk_flag_tables {
  SZ : array;
  SZ_BIT : array;
  SZP : array;
  SZHV_inc : array;
  SZHV_dec : array;
  SZHVC_add : array;
  SZHVC_sub : array
}.

(** sign, zero and the undocumented bits of [newval]: the first two
    statements of each of the four entries *)
Definition szyx (newval : Z) : Z :=
  let f := if nz newval then (if nz (Z.land newval 0x80) then SF else 0) else ZF in
  Z.lor f (Z.land newval (Z.lor YF XF)).

Definition set_if (c : bool) (flag f : Z) : Z := if c then Z.lor f flag else f.

(** add or adc w/o carry set *)
Definition padd_entry (oldval newval : Z) : Z :=
  let val := newval - oldval in
  let f := szyx newval in
  let f := set_if (Z.land newval 0x0f <? Z.land oldval 0x0f) HF f in
  let f := set_if (newval <? oldval) CF f in
  set_if (nz (Z.land (Z.land (Z.lxor (Z.lxor val oldval) 0x80) (Z.lxor val newval)) 0x80)) VF f.

(** adc with carry set *)
Definition padc_entry (oldval newval : Z) : Z :=
  let val := newval - oldval - 1 in
  let f := szyx newval in
  let f := set_if (Z.land newval 0x0f <=? Z.land oldval 0x0f) HF f in
  let f := set_if (newval <=? oldval) CF f in
  set_if (nz (Z.land (Z.land (Z.lxor (Z.lxor val oldval) 0x80) (Z.lxor val newval)) 0x80)) VF f.

(** cp, sub or sbc w/o carry set *)
Definition psub_entry (oldval newval : Z) : Z :=
  let val := oldval - newval in
  let f := Z.lor NF (if nz newval then (if nz (Z.land newval 0x80) then SF else 0) else ZF) in
  let f := Z.lor f (Z.land newval (Z.lor YF XF)) in
  let f := set_if (Z.land newval 0x0f >? Z.land oldval 0x0f) HF f in
  let f := set_if (newval >? oldval) CF f in
  set_if (nz (Z.land (Z.land (Z.lxor val oldval) (Z.lxor oldval newval)) 0x80)) VF f.

(** sbc with carry set *)
Definition psbc_entry (oldval newval : Z) : Z :=
  let val := oldval - newval - 1 in
  let f := Z.lor NF (if nz newval then (if nz (Z.land newval 0x80) then SF else 0) else ZF) in
  let f := Z.lor f (Z.land newval (Z.lor YF XF)) in
  let f := set_if (Z.land newval 0x0f >=? Z.land oldval 0x0f) HF f in
  let f := set_if (newval >=? oldval) CF f in
  set_if (nz (Z.land (Z.land (Z.lxor val oldval) (Z.lxor oldval newval)) 0x80)) VF f.

(** The four write pointers and the two big arrays while the nested loop
    runs. *)
Record fill_state := mk_fill {
  padd : Z;
  padc : Z;
  psub : Z;
  psbc : Z;
  arr_add : array;
  arr_sub : array
}.

(** body of the inner loop: four stores, four pointer increments *)
Definition fill_body (oldval newval : Z) (st : fill_state) : fill_state :=
  let a := upd (arr_add st) (padd st) (padd_entry oldval newval) in
  let a := upd a (padc st) (padc_entry oldval newval) in
  let b := upd (arr_sub st) (psub st) (psub_entry oldval newval) in
  let b := upd b (psbc st) (psbc_entry oldval newval) in
  mk_fill (padd st + 1) (padc st + 1) (psub st + 1) (psbc st + 1) a b.

Definition fill_start : fill_state :=
  mk_fill (0 * 256) (256 * 256) (0 * 256) (256 * 256) zeros zeros.

Definition fill_szhvc : fill_state :=
  for_range 256 0 (fun oldval => for_range 256 0 (fun newval => fill_body oldval newval))
    fill_start.

(** the five 256-entry tables, one loop iteration *)
Definition parity_count (i : Z) : Z :=
  let p := 0 in
  let p := if nz (Z.land i 0x01) then p + 1 else p in
  let p := if nz (Z.land i 0x02) then p + 1 else p in
  let p := if nz (Z.land i 0x04) then p + 1 else p in
  let p := if nz (Z.land i 0x08) then p + 1 else p in
  let p := if nz (Z.land i 0x10) then p + 1 else p in
  let p := if nz (Z.land i 0x20) then p + 1 else p in
  let p := if nz (Z.land i 0x40) then p + 1 else p in
  if nz (Z.land i 0x80) then p + 1 else p.

Definition small_body (i : Z) (t : flag_tables) : flag_tables :=
  let p := parity_count i in
  let sz := if nz i then Z.land i SF else ZF in
  let sz := Z.lor sz (Z.land i (Z.lor YF XF)) in
  let szbit := if nz i then Z.land i SF else Z.lor ZF PF in
  let szbit := Z.lor szbit (Z.land i (Z.lor YF XF)) in
  let szp := Z.lor sz (if nz (Z.land p 1) then 0 else PF) in
  let inc := sz in
  let inc := if i =? 0x80 then Z.lor inc VF else inc in
  let inc := if Z.land i 0x0f =? 0x00 then Z.lor inc HF else inc in
  let dec := Z.lor sz NF in
  let dec := if i =? 0x7f then Z.lor dec VF else dec in
  let dec := if Z.land i 0x0f =? 0x0f then Z.lor dec HF else dec in
  mk_flag_tables (upd (SZ t) i sz) (upd (SZ_BIT t) i szbit) (upd (SZP t) i szp)
    (upd (SZHV_inc t) i inc) (upd (SZHV_dec t) i dec) (SZHVC_add t) (SZHVC_sub t).

(** the table part of [z180_device::device_start] *)
Definition device_start_tables : flag_tables :=
  let st := fill_szhvc in
  for_range 256 0 small_body
    (mk_flag_tables zeros zeros zeros zeros zeros (arr_add st) (arr_sub st)).

(** Index of an entry of the big tables: the half chosen by the incoming
    carry ([padc = &SZHVC_add[256*256]]), then operand before, then
    result. *)
Definition szhvc_index (carry oldval newval : Z) : Z :=
  carry * 65536 + oldval * 256 + newval.

(** *** Direct recomputation of the flags from the two operands

    Written from the specification's words: sign, zero, half-carry,
    overflow and carry of the 8-bit operation on [a] and [b] with incoming
    carry [c], bits 3 and 5 copied from the result, N set for a
    subtraction. *)

Definition flag_bit (b : bool) (flag : Z) : Z := if b then flag else 0.

Definition direct_add_flags (a b c : Z) : Z :=
  let r := (a + b + c) mod 256 in
  flag_bit (Z.testbit r 7) SF +
  flag_bit (r =? 0) ZF +
  flag_bit (Z.testbit r 5) YF +
  flag_bit (16 <=? a mod 16 + b mod 16 + c) HF +
  flag_bit (Z.testbit r 3) XF +
  flag_bit (Bool.eqb (Z.testbit a 7) (Z.testbit b 7) &&
            negb (Bool.eqb (Z.testbit a 7) (Z.testbit r 7))) VF +
  flag_bit (256 <=? a + b + c) CF.

Definition direct_sub_flags (a b c : Z) : Z :=
  let r := (a - b - c) mod 256 in
  flag_bit (Z.testbit r 7) SF +
  flag_bit (r =? 0) ZF +
  flag_bit (Z.testbit r 5) YF +
  flag_bit (a mod 16 <? b mod 16 + c) HF +
  flag_bit (Z.testbit r 3) XF +
  flag_bit (negb (Bool.eqb (Z.testbit a 7) (Z.testbit b 7)) &&
            negb (Bool.eqb (Z.testbit a 7) (Z.testbit r 7))) VF +
  NF +
  flag_bit (a <? b + c) CF.

End FlagTables.

(** ** The device state *)

(** One access to the external I/O space, as its handlers see it. *)
Inductive io_access :=
| IoRead (port : Z)
| IoWrite (port data : Z).

Record z180_device := mk_z180 {
  m_PREPC : Z;  (* PAIR *)
  m_PC : Z;  (* PAIR *)
  m_SP : Z;  (* PAIR *)
  m_AF : Z;  (* PAIR *)
  m_BC : Z;  (* PAIR *)
  m_DE : Z;  (* PAIR *)
  m_HL : Z;  (* PAIR *)
  m_IX : Z;  (* PAIR *)
  m_IY : Z;  (* PAIR *)
  m_AF2 : Z;  (* PAIR *)
  m_BC2 : Z;  (* PAIR *)
  m_DE2 : Z;  (* PAIR *)
  m_HL2 : Z;  (* PAIR *)
  m_R : Z;
  m_R2 : Z;
  m_IFF1 : Z;
  m_IFF2 : Z;
  m_HALT : Z;
  m_IM : Z;
  m_I : Z;
  m_tmdr_latch : Z;  (* flag latched TMDR0 and/or TMDR1 values *)
  m_read_tcr_tmdr : array;  (* [2] *)
  m_iol : Z;  (* I/O line status bits *)
  m_mmu : array;  (* [16] *)
  m_tmdrh : array;  (* [2] *)
  m_tmdr_value : array;  (* [2], the 16-bit down counters *)
  m_nmi_state : Z;
  m_nmi_pending : Z;
  m_irq_state : array;  (* [3] *)
  m_int_pending : array;  (* [Z180_INT_MAX + 1] *)
  m_after_EI : Z;
  m_ea : Z;
  m_cc : Z -> array;  (* cycle tables *)
  m_timer_cnt : Z;
  m_dma0_cnt : Z;
  m_dma1_cnt : Z;
  m_asci_cntla : array;  (* [2] *)
  m_asci_cntlb : array;  (* [2] *)
  m_asci_stat : array;  (* [2] *)
  m_asci_tdr : array;  (* [2] *)
  m_asci_rdr : array;  (* [2] *)
  m_asci_ext : array;  (* [2] *)
  m_asci_tc : array;  (* [2] of PAIR16 *)
  m_csio_cntr : Z;
  m_csio_trdr : Z;
  m_tmdr : array;  (* [2] of PAIR16 *)
  m_rldr : array;  (* [2] of PAIR16 *)
  m_tcr : Z;
  m_frc : Z;
  m_cmr : Z;
  m_ccr : Z;
  m_dma_sar0 : Z;  (* PAIR *)
  m_dma_dar0 : Z;  (* PAIR *)
  m_dma_bcr : array;  (* [2] of PAIR16 *)
  m_dma_mar1 : Z;  (* PAIR *)
  m_dma_iar1 : Z;  (* PAIR *)
  m_dstat : Z;
  m_dmode : Z;
  m_dcntl : Z;
  m_il : Z;
  m_itc : Z;
  m_rcr : Z;
  m_mmu_cbr : Z;
  m_mmu_bbr : Z;
  m_mmu_cbar : Z;
  m_omcr : Z;
  m_iocr : Z;
  m_icount : Z;
  m_extra_cycles : Z;
  m_rtemp : Z;
  m_ioltemp : Z;
  m_program : array;  (* contents of the program space *)
  m_iospace : array;  (* contents of the I/O space *)
  m_io_trace : list io_access  (* ghost: accesses seen by the I/O space, latest first *)
}.

(** Record update [s <| m_f := v |>]: one setter per member, derived from
    the eta expansion of the record. *)

Class Setter {R E : Type} (proj : R -> E) := set : E -> R -> R.
Arguments set {R E} proj {Setter} _ _.

Definition z180_eta (s : z180_device) : z180_device :=
  mk_z180 (m_PREPC s) (m_PC s) (m_SP s) (m_AF s) (m_BC s) (m_DE s) (m_HL s)
    (m_IX s) (m_IY s) (m_AF2 s) (m_BC2 s) (m_DE2 s) (m_HL2 s) (m_R s) (m_R2 s)
    (m_IFF1 s) (m_IFF2 s) (m_HALT s) (m_IM s) (m_I s) (m_tmdr_latch s)
    (m_read_tcr_tmdr s) (m_iol s) (m_mmu s) (m_tmdrh s) (m_tmdr_value s)
    (m_nmi_state s) (m_nmi_pending s) (m_irq_state s) (m_int_pending s)
    (m_after_EI s) (m_ea s) (m_cc s) (m_timer_cnt s) (m_dma0_cnt s)
    (m_dma1_cnt s) (m_asci_cntla s) (m_asci_cntlb s) (m_asci_stat s)
    (m_asci_tdr s) (m_asci_rdr s) (m_asci_ext s) (m_asci_tc s) (m_csio_cntr s)
    (m_csio_trdr s) (m_tmdr s) (m_rldr s) (m_tcr s) (m_frc s) (m_cmr s)
    (m_ccr s) (m_dma_sar0 s) (m_dma_dar0 s) (m_dma_bcr s) (m_dma_mar1 s)
    (m_dma_iar1 s) (m_dstat s) (m_dmode s) (m_dcntl s) (m_il s) (m_itc s)
    (m_rcr s) (m_mmu_cbr s) (m_mmu_bbr s) (m_mmu_cbar s) (m_omcr s) (m_iocr s)
    (m_icount s) (m_extra_cycles s) (m_rtemp s) (m_ioltemp s) (m_program s)
    (m_iospace s) (m_io_trace s).

Ltac mk_setter proj :=
  let body := eval cbv beta delta [z180_eta] in (fun s : z180_device => z180_eta s) in
  match eval pattern proj in body with
  | ?f _ => let r := eval cbv beta in (fun v s => f (fun _ => v) s) in exact r
  end.

#[export] Instance set_m_PREPC : Setter m_PREPC := ltac:(mk_setter m_PREPC).
#[export] Instance set_m_PC : Setter m_PC := ltac:(mk_setter m_PC).
#[export] Instance set_m_SP : Setter m_SP := ltac:(mk_setter m_SP).
#[export] Instance set_m_AF : Setter m_AF := ltac:(mk_setter m_AF).
#[export] Instance set_m_BC : Setter m_BC := ltac:(mk_setter m_BC).
#[export] Instance set_m_DE : Setter m_DE := ltac:(mk_setter m_DE).
#[export] Instance set_m_HL : Setter m_HL := ltac:(mk_setter m_HL).
#[export] Instance set_m_IX : Setter m_IX := ltac:(mk_setter m_IX).
#[export] Instance set_m_IY : Setter m_IY := ltac:(mk_setter m_IY).
#[export] Instance set_m_AF2 : Setter m_AF2 := ltac:(mk_setter m_AF2).
#[export] Instance set_m_BC2 : Setter m_BC2 := ltac:(mk_setter m_BC2).
#[export] Instance set_m_DE2 : Setter m_DE2 := ltac:(mk_setter m_DE2).
#[export] Instance set_m_HL2 : Setter m_HL2 := ltac:(mk_setter m_HL2).
#[export] Instance set_m_R : Setter m_R := ltac:(mk_setter m_R).
#[export] Instance set_m_R2 : Setter m_R2 := ltac:(mk_setter m_R2).
#[export] Instance set_m_IFF1 : Setter m_IFF1 := ltac:(mk_setter m_IFF1).
#[export] Instance set_m_IFF2 : Setter m_IFF2 := ltac:(mk_setter m_IFF2).
#[export] Instance set_m_HALT : Setter m_HALT := ltac:(mk_setter m_HALT).
#[export] Instance set_m_IM : Setter m_IM := ltac:(mk_setter m_IM).
#[export] Instance set_m_I : Setter m_I := ltac:(mk_setter m_I).
#[export] Instance set_m_tmdr_latch : Setter m_tmdr_latch := ltac:(mk_setter m_tmdr_latch).
#[export] Instance set_m_read_tcr_tmdr : Setter m_read_tcr_tmdr := ltac:(mk_setter m_read_tcr_tmdr).
#[export] Instance set_m_iol : Setter m_iol := ltac:(mk_setter m_iol).
#[export] Instance set_m_mmu : Setter m_mmu := ltac:(mk_setter m_mmu).
#[export] Instance set_m_tmdrh : Setter m_tmdrh := ltac:(mk_setter m_tmdrh).
#[export] Instance set_m_tmdr_value : Setter m_tmdr_value := ltac:(mk_setter m_tmdr_value).
#[export] Instance set_m_nmi_state : Setter m_nmi_state := ltac:(mk_setter m_nmi_state).
#[export] Instance set_m_nmi_pending : Setter m_nmi_pending := ltac:(mk_setter m_nmi_pending).
#[export] Instance set_m_irq_state : Setter m_irq_state := ltac:(mk_setter m_irq_state).
#[export] Instance set_m_int_pending : Setter m_int_pending := ltac:(mk_setter m_int_pending).
#[export] Instance set_m_after_EI : Setter m_after_EI := ltac:(mk_setter m_after_EI).
#[export] Instance set_m_ea : Setter m_ea := ltac:(mk_setter m_ea).
#[export] Instance set_m_cc : Setter m_cc := ltac:(mk_setter m_cc).
#[export] Instance set_m_timer_cnt : Setter m_timer_cnt := ltac:(mk_setter m_timer_cnt).
#[export] Instance set_m_dma0_cnt : Setter m_dma0_cnt := ltac:(mk_setter m_dma0_cnt).
#[export] Instance set_m_dma1_cnt : Setter m_dma1_cnt := ltac:(mk_setter m_dma1_cnt).
#[export] Instance set_m_asci_cntla : Setter m_asci_cntla := ltac:(mk_setter m_asci_cntla).
#[export] Instance set_m_asci_cntlb : Setter m_asci_cntlb := ltac:(mk_setter m_asci_cntlb).
#[export] Instance set_m_asci_stat : Setter m_asci_stat := ltac:(mk_setter m_asci_stat).
#[export] Instance set_m_asci_tdr : Setter m_asci_tdr := ltac:(mk_setter m_asci_tdr).
#[export] Instance set_m_asci_rdr : Setter m_asci_rdr := ltac:(mk_setter m_asci_rdr).
#[export] Instance set_m_asci_ext : Setter m_asci_ext := ltac:(mk_setter m_asci_ext).
#[export] Instance set_m_asci_tc : Setter m_asci_tc := ltac:(mk_setter m_asci_tc).
#[export] Instance set_m_csio_cntr : Setter m_csio_cntr := ltac:(mk_setter m_csio_cntr).
#[export] Instance set_m_csio_trdr : Setter m_csio_trdr := ltac:(mk_setter m_csio_trdr).
#[export] Instance set_m_tmdr : Setter m_tmdr := ltac:(mk_setter m_tmdr).
#[export] Instance set_m_rldr : Setter m_rldr := ltac:(mk_setter m_rldr).
#[export] Instance set_m_tcr : Setter m_tcr := ltac:(mk_setter m_tcr).
#[export] Instance set_m_frc : Setter m_frc := ltac:(mk_setter m_frc).
#[export] Instance set_m_cmr : Setter m_cmr := ltac:(mk_setter m_cmr).
#[export] Instance set_m_ccr : Setter m_ccr := ltac:(mk_setter m_ccr).
#[export] Instance set_m_dma_sar0 : Setter m_dma_sar0 := ltac:(mk_setter m_dma_sar0).
#[export] Instance set_m_dma_dar0 : Setter m_dma_dar0 := ltac:(mk_setter m_dma_dar0).
#[export] Instance set_m_dma_bcr : Setter m_dma_bcr := ltac:(mk_setter m_dma_bcr).
#[export] Instance set_m_dma_mar1 : Setter m_dma_mar1 := ltac:(mk_setter m_dma_mar1).
#[export] Instance set_m_dma_iar1 : Setter m_dma_iar1 := ltac:(mk_setter m_dma_iar1).
#[export] Instance set_m_dstat : Setter m_dstat := ltac:(mk_setter m_dstat).
#[export] Instance set_m_dmode : Setter m_dmode := ltac:(mk_setter m_dmode).
#[export] Instance set_m_dcntl : Setter m_dcntl := ltac:(mk_setter m_dcntl).
#[export] Instance set_m_il : Setter m_il := ltac:(mk_setter m_il).
#[export] Instance set_m_itc : Setter m_itc := ltac:(mk_setter m_itc).
#[export] Instance set_m_rcr : Setter m_rcr := ltac:(mk_setter m_rcr).
#[export] Instance set_m_mmu_cbr : Setter m_mmu_cbr := ltac:(mk_setter m_mmu_cbr).
#[export] Instance set_m_mmu_bbr : Setter m_mmu_bbr := ltac:(mk_setter m_mmu_bbr).
#[export] Instance set_m_mmu_cbar : Setter m_mmu_cbar := ltac:(mk_setter m_mmu_cbar).
#[export] Instance set_m_omcr : Setter m_omcr := ltac:(mk_setter m_omcr).
#[export] Instance set_m_iocr : Setter m_iocr := ltac:(mk_setter m_iocr).
#[export] Instance set_m_icount : Setter m_icount := ltac:(mk_setter m_icount).
#[export] Instance set_m_extra_cycles : Setter m_extra_cycles := ltac:(mk_setter m_extra_cycles).
#[export] Instance set_m_rtemp : Setter m_rtemp := ltac:(mk_setter m_rtemp).
#[export] Instance set_m_ioltemp : Setter m_ioltemp := ltac:(mk_setter m_ioltemp).
#[export] Instance set_m_program : Setter m_program := ltac:(mk_setter m_program).
#[export] Instance set_m_iospace : Setter m_iospace := ltac:(mk_setter m_iospace).
#[export] Instance set_m_io_trace : Setter m_io_trace := ltac:(mk_setter m_io_trace).

Notation "s <| f := v |>" := (set f v s)
  (at level 1, left associativity, f at level 9, format "s  <| f  :=  v |>").

(** Reduction of member reads over updates, and nothing else. *)
Ltac z180_cbn :=
  cbn [set
    set_m_PREPC m_PREPC set_m_PC m_PC set_m_SP m_SP set_m_AF m_AF set_m_BC
    m_BC set_m_DE m_DE set_m_HL m_HL set_m_IX m_IX set_m_IY m_IY set_m_AF2
    m_AF2 set_m_BC2 m_BC2 set_m_DE2 m_DE2 set_m_HL2 m_HL2 set_m_R m_R
    set_m_R2 m_R2 set_m_IFF1 m_IFF1 set_m_IFF2 m_IFF2 set_m_HALT m_HALT
    set_m_IM m_IM set_m_I m_I set_m_tmdr_latch m_tmdr_latch
    set_m_read_tcr_tmdr m_read_tcr_tmdr set_m_iol m_iol set_m_mmu m_mmu
    set_m_tmdrh m_tmdrh set_m_tmdr_value m_tmdr_value set_m_nmi_state
    m_nmi_state set_m_nmi_pending m_nmi_pending set_m_irq_state
    m_irq_state set_m_int_pending m_int_pending set_m_after_EI m_after_EI
    set_m_ea m_ea set_m_cc m_cc set_m_timer_cnt m_timer_cnt set_m_dma0_cnt
    m_dma0_cnt set_m_dma1_cnt m_dma1_cnt set_m_asci_cntla m_asci_cntla
    set_m_asci_cntlb m_asci_cntlb set_m_asci_stat m_asci_stat
    set_m_asci_tdr m_asci_tdr set_m_asci_rdr m_asci_rdr set_m_asci_ext
    m_asci_ext set_m_asci_tc m_asci_tc set_m_csio_cntr m_csio_cntr
    set_m_csio_trdr m_csio_trdr set_m_tmdr m_tmdr set_m_rldr m_rldr
    set_m_tcr m_tcr set_m_frc m_frc set_m_cmr m_cmr set_m_ccr m_ccr
    set_m_dma_sar0 m_dma_sar0 set_m_dma_dar0 m_dma_dar0 set_m_dma_bcr
    m_dma_bcr set_m_dma_mar1 m_dma_mar1 set_m_dma_iar1 m_dma_iar1
    set_m_dstat m_dstat set_m_dmode m_dmode set_m_dcntl m_dcntl set_m_il
    m_il set_m_itc m_itc set_m_rcr m_rcr set_m_mmu_cbr m_mmu_cbr
    set_m_mmu_bbr m_mmu_bbr set_m_mmu_cbar m_mmu_cbar set_m_omcr m_omcr
    set_m_iocr m_iocr set_m_icount m_icount set_m_extra_cycles
    m_extra_cycles set_m_rtemp m_rtemp set_m_ioltemp m_ioltemp
    set_m_program m_program set_m_iospace m_iospace set_m_io_trace
    m_io_trace].
Ltac z180_cbn_in H :=
  cbn [set
    set_m_PREPC m_PREPC set_m_PC m_PC set_m_SP m_SP set_m_AF m_AF set_m_BC
    m_BC set_m_DE m_DE set_m_HL m_HL set_m_IX m_IX set_m_IY m_IY set_m_AF2
    m_AF2 set_m_BC2 m_BC2 set_m_DE2 m_DE2 set_m_HL2 m_HL2 set_m_R m_R
    set_m_R2 m_R2 set_m_IFF1 m_IFF1 set_m_IFF2 m_IFF2 set_m_HALT m_HALT
    set_m_IM m_IM set_m_I m_I set_m_tmdr_latch m_tmdr_latch
    set_m_read_tcr_tmdr m_read_tcr_tmdr set_m_iol m_iol set_m_mmu m_mmu
    set_m_tmdrh m_tmdrh set_m_tmdr_value m_tmdr_value set_m_nmi_state
    m_nmi_state set_m_nmi_pending m_nmi_pending set_m_irq_state
    m_irq_state set_m_int_pending m_int_pending set_m_after_EI m_after_EI
    set_m_ea m_ea set_m_cc m_cc set_m_timer_cnt m_timer_cnt set_m_dma0_cnt
    m_dma0_cnt set_m_dma1_cnt m_dma1_cnt set_m_asci_cntla m_asci_cntla
    set_m_asci_cntlb m_asci_cntlb set_m_asci_stat m_asci_stat
    set_m_asci_tdr m_asci_tdr set_m_asci_rdr m_asci_rdr set_m_asci_ext
    m_asci_ext set_m_asci_tc m_asci_tc set_m_csio_cntr m_csio_cntr
    set_m_csio_trdr m_csio_trdr set_m_tmdr m_tmdr set_m_rldr m_rldr
    set_m_tcr m_tcr set_m_frc m_frc set_m_cmr m_cmr set_m_ccr m_ccr
    set_m_dma_sar0 m_dma_sar0 set_m_dma_dar0 m_dma_dar0 set_m_dma_bcr
    m_dma_bcr set_m_dma_mar1 m_dma_mar1 set_m_dma_iar1 m_dma_iar1
    set_m_dstat m_dstat set_m_dmode m_dmode set_m_dcntl m_dcntl set_m_il
    m_il set_m_itc m_itc set_m_rcr m_rcr set_m_mmu_cbr m_mmu_cbr
    set_m_mmu_bbr m_mmu_bbr set_m_mmu_cbar m_mmu_cbar set_m_omcr m_omcr
    set_m_iocr m_iocr set_m_icount m_icount set_m_extra_cycles
    m_extra_cycles set_m_rtemp m_rtemp set_m_ioltemp m_ioltemp
    set_m_program m_program set_m_iospace m_iospace set_m_io_trace
    m_io_trace] in H.

(** 16-bit views of the register pairs ([_PC], [_SP], [_IX], [_IY], [_F]) *)
Definition _PC (s : z180_device) : Z := pair_w_l (m_PC s).
Definition _SP (s : z180_device) : Z := pair_w_l (m_SP s).
Definition _IX (s : z180_device) : Z := pair_w_l (m_IX s).
Definition _IY (s : z180_device) : Z := pair_w_l (m_IY s).
Definition _F (s : z180_device) : Z := pair_b_l (m_AF s).

(** ** Address spaces

    The constructor configures the program space with 20 address bits and
    the I/O space with 16 ([m_program_config], [m_io_config]); both are byte
    stores, and the values written are bytes ([uint8_t]).  Every I/O access
    is also appended to the ghost trace. *)

Definition program_read_byte (a : Z) (s : z180_device) : Z :=
  m_program s (Z.land a 0xfffff).

Definition program_write_byte (a v : Z) (s : z180_device) : z180_device :=
  s <| m_program := upd (m_program s) (Z.land a 0xfffff) v |>.

Definition io_read_byte (port : Z) (s : z180_device) : Z * z180_device :=
  (m_iospace s (Z.land port 0xffff),
   s <| m_io_trace := IoRead port :: m_io_trace s |>).

Definition io_write_byte (port v : Z) (s : z180_device) : z180_device :=
  s <| m_iospace := upd (m_iospace s) (Z.land port 0xffff) v |>
    <| m_io_trace := IoWrite port v :: m_io_trace s |>.

(** ** Parts of z180ops.h, which is not among the sources *)

(** Modelled from the spec: [z180_mmu] of z180ops.h is missing.  The mapping
    is recomputed from the three MMU registers for each of the 16 4KB
    logical pages: pages below the split point (the common-area field
    [Z180_CBAR_CA] of CBAR) go to the bank area, offset by BBR, pages at or
    above it to the common area, offset by CBR; physical addresses have 20
    bits. *)
Definition z180_mmu_page (s : z180_device) (page : Z) : Z :=
  let split := Z.shiftr (Z.land (m_mmu_cbar s) Z180_CBAR_CA) 4 in
  let base := if page <? split then m_mmu_bbr s else m_mmu_cbr s in
  Z.land (Z.shiftl page 12 + Z.shiftl base 12) 0xfffff.

Definition z180_mmu (s : z180_device) : z180_device :=
  s <| m_mmu := for_range 16 0 (fun page a => upd a page (z180_mmu_page s page))
                  (m_mmu s) |>.

(** Modelled from the spec: the macro [MMU_REMAP_ADDR] of z180ops.h is
    missing.  The 4KB page of the 16-bit logical address selects the entry
    of [m_mmu], the offset within the page is kept. *)
Definition MMU_REMAP_ADDR (s : z180_device) (addr : Z) : Z :=
  Z.lor (m_mmu s (Z.land (Z.shiftr addr 12) 15)) (Z.land addr 4095).

(** Modelled from the spec: the macro [LEAVE_HALT] of z180ops.h is missing.
    It forces the processor out of halt: the halt flag is cleared. *)
Definition LEAVE_HALT (s : z180_device) : z180_device :=
  if nz (m_HALT s) then s <| m_HALT := 0 |> else s.

(** Modelled from the spec: the macro [PUSH] of z180ops.h is missing, here
    at its use [PUSH( PC )].  It pushes the return address: SP goes down by
    two and the 16-bit PC is stored there through the MMU, low byte
    first. *)
Definition PUSH_PC (s : z180_device) : z180_device :=
  let sp := u16 (_SP s - 2) in
  let s := s <| m_SP := pair_set_w_l sp (m_SP s) |> in
  let s := program_write_byte (MMU_REMAP_ADDR s sp) (pair_b_l (m_PC s)) s in
  program_write_byte (MMU_REMAP_ADDR s (u16 (sp + 1))) (pair_b_h (m_PC s)) s.

(** ** [z180_device::z180_device]: "some arbitrary initial values"; the
    members the constructor does not mention start at zero. *)
Definition z180_device_ctor : z180_device :=
  let z := mk_z180 0 0 0 0 0 0 0 0 0 0 0 0 0 0 0 0 0 0 0 0 0 zeros 0 zeros zeros
             zeros 0 0 zeros zeros 0 0 (fun _ => zeros) 0 0 0 zeros zeros zeros
             zeros zeros zeros zeros 0 0 zeros zeros 0 0 0 0 0 0 zeros 0 0 0 0 0
             0 0 0 0 0 0 0 0 0 0 0 0 zeros zeros [] in
  z <| m_rldr := upd (upd zeros 1 0xffff) 0 0xffff |>.

(** ** Internal I/O register bank *)

(** The block repeated after each read of TCR or TMDR: every second read
    resets the timer's interrupt flag. *)
Definition read_tcr_tmdr_toggle (i tif : Z) (s : z180_device) : z180_device :=
  if nz (m_read_tcr_tmdr s i) then
    let s := s <| m_tcr := Z.land (m_tcr s) (Z.lnot tif) |> in
    s <| m_read_tcr_tmdr := upd (m_read_tcr_tmdr s) i 0 |>
  else
    s <| m_read_tcr_tmdr := upd (m_read_tcr_tmdr s) i 1 |>.

(** "remap internal I/O registers" *)
Definition remap_port (s : z180_device) (port : Z) : Z :=
  if Z.land port (Z.land (m_iocr s) 0xc0) =? Z.land (m_iocr s) 0xc0
  then port - Z.land (m_iocr s) 0xc0
  else port.

(** The [switch (port)] of [z180_readcontrol]; [data] is the byte read from
    the external I/O space. *)
Definition readcontrol_switch (port data : Z) (s : z180_device) : Z * z180_device :=
  match port with
  | 0x00 => (m_asci_cntla s 0, s)
  | 0x01 => (m_asci_cntla s 1, s)
  | 0x02 => (m_asci_cntlb s 0, s)
  | 0x03 => (m_asci_cntlb s 1, s)
  | 0x04 => (Z.lor (m_asci_stat s 0) 0x02, s)
  | 0x05 => (m_asci_stat s 1, s)
  | 0x06 => (m_asci_tdr s 0, s)
  | 0x07 => (m_asci_tdr s 1, s)
  | 0x08 => (m_asci_rdr s 0, s)
  | 0x09 => (m_asci_rdr s 1, s)
  | 0x0a => (u8 (Z.lor (m_csio_cntr s) (Z.lnot Z180_CNTR_MASK)), s)
  | 0x0b => (m_csio_trdr s, s)
  | 0x0c =>
      let data := Z.land (m_tmdr_value s 0) 0x00ff in
      let s :=
        if Z.land (m_tcr s) Z180_TCR_TDE0 =? 0 then
          let s := s <| m_tmdr_latch := Z.lor (m_tmdr_latch s) 1 |> in
          s <| m_tmdrh := upd (m_tmdrh s) 0
                 (Z.shiftr (Z.land (m_tmdr_value s 0) 0xff00) 8) |>
        else s in
      (data, read_tcr_tmdr_toggle 0 Z180_TCR_TIF0 s)
  | 0x0d =>
      let '(data, s) :=
        if nz (Z.land (m_tmdr_latch s) 1) then
          (m_tmdrh s 0, s <| m_tmdr_latch := Z.land (m_tmdr_latch s) (Z.lnot 1) |>)
        else (Z.shiftr (Z.land (m_tmdr_value s 0) 0xff00) 8, s) in
      (data, read_tcr_tmdr_toggle 0 Z180_TCR_TIF0 s)
  | 0x0e => (pair_b_l (m_rldr s 0), s)
  | 0x0f => (pair_b_h (m_rldr s 0), s)
  | 0x10 =>
      let data := m_tcr s in
      let s := read_tcr_tmdr_toggle 0 Z180_TCR_TIF0 s in
      (data, read_tcr_tmdr_toggle 1 Z180_TCR_TIF1 s)
  | 0x11 => (0xff, s)
  | 0x12 => (m_asci_ext s 0, s)
  | 0x13 => (m_asci_ext s 1, s)
  | 0x14 =>
      let data := u8 (m_tmdr_value s 1) in
      let s :=
        if Z.land (m_tcr s) Z180_TCR_TDE1 =? 0 then
          let s := s <| m_tmdr_latch := Z.lor (m_tmdr_latch s) 2 |> in
          s <| m_tmdrh := upd (m_tmdrh s) 1
                 (Z.shiftr (Z.land (m_tmdr_value s 1) 0xff00) 8) |>
        else s in
      (data, read_tcr_tmdr_toggle 1 Z180_TCR_TIF1 s)
  | 0x15 =>
      let '(data, s) :=
        if nz (Z.land (m_tmdr_latch s) 2) then
          (m_tmdrh s 1, s <| m_tmdr_latch := Z.land (m_tmdr_latch s) (Z.lnot 2) |>)
        else (Z.shiftr (Z.land (m_tmdr_value s 1) 0xff00) 8, s) in
      (data, read_tcr_tmdr_toggle 1 Z180_TCR_TIF1 s)
  | 0x16 => (pair_b_l (m_rldr s 1), s)
  | 0x17 => (pair_b_h (m_rldr s 1), s)
  | 0x18 => (m_frc s, s)
  | 0x19 => (0xff, s)
  | 0x1a => (pair_b_l (m_asci_tc s 0), s)
  | 0x1b => (pair_b_h (m_asci_tc s 0), s)
  | 0x1c => (pair_b_l (m_asci_tc s 1), s)
  | 0x1d => (pair_b_h (m_asci_tc s 1), s)
  | 0x1e => (u8 (Z.lor (m_cmr s) (Z.lnot Z180_CMR_MASK)), s)
  | 0x1f => (m_ccr s, s)
  | 0x20 => (pair_b_l (m_dma_sar0 s), s)
  | 0x21 => (pair_b_h (m_dma_sar0 s), s)
  | 0x22 => (Z.land (pair_b_h2 (m_dma_sar0 s)) (Z.shiftr Z180_SAR0_MASK 16), s)
  | 0x23 => (pair_b_l (m_dma_dar0 s), s)
  | 0x24 => (pair_b_h (m_dma_dar0 s), s)
  | 0x25 => (Z.land (pair_b_h2 (m_dma_dar0 s)) (Z.shiftr Z180_DAR0_MASK 16), s)
  | 0x26 => (pair_b_l (m_dma_bcr s 0), s)
  | 0x27 => (pair_b_h (m_dma_bcr s 0), s)
  | 0x28 => (pair_b_l (m_dma_mar1 s), s)
  | 0x29 => (pair_b_h (m_dma_mar1 s), s)
  | 0x2a => (Z.land (pair_b_h2 (m_dma_mar1 s)) (Z.shiftr Z180_MAR1_MASK 16), s)
  | 0x2b => (pair_b_l (m_dma_iar1 s), s)
  | 0x2c => (pair_b_h (m_dma_iar1 s), s)
  | 0x2d => (Z.land (pair_b_h2 (m_dma_iar1 s)) (Z.shiftr Z180_IAR1_MASK 16), s)
  | 0x2e => (pair_b_l (m_dma_bcr s 1), s)
  | 0x2f => (pair_b_h (m_dma_bcr s 1), s)
  | 0x30 => (u8 (Z.lor (m_dstat s) (Z.lnot Z180_DSTAT_MASK)), s)
  | 0x31 => (u8 (Z.lor (m_dmode s) (Z.lnot Z180_DMODE_MASK)), s)
  | 0x32 => (m_dcntl s, s)
  | 0x33 => (Z.land (m_il s) Z180_IL_MASK, s)
  | 0x34 => (u8 (Z.lor (m_itc s) (Z.lnot Z180_ITC_MASK)), s)
  | 0x35 => (0xff, s)
  | 0x36 => (u8 (Z.lor (m_rcr s) (Z.lnot Z180_RCR_MASK)), s)
  | 0x37 => (0xff, s)
  | 0x38 => (m_mmu_cbr s, s)
  | 0x39 => (m_mmu_bbr s, s)
  | 0x3a => (m_mmu_cbar s, s)
  | 0x3b => (0xff, s)
  | 0x3c => (0xff, s)
  | 0x3d => (0xff, s)
  | 0x3e => (u8 (Z.lor (Z.lor (m_omcr s) Z180_OMCR_M1TE) (Z.lnot Z180_OMCR_MASK)), s)
  | 0x3f => (u8 (Z.lor (m_iocr s) (Z.lnot Z180_IOCR_MASK)), s)
  | _ => (data, s)
  end.

Definition z180_readcontrol (port : Z) (s : z180_device) : Z * z180_device :=
  (* normal external readport *)
  let '(data, s) := io_read_byte port s in
  (* remap internal I/O registers *)
  let port := remap_port s port in
  (* but ignore the data and read the internal register *)
  readcontrol_switch port data s.

(** members of a [PAIR16] ([b.l], [b.h]) *)
Definition pair16_set_b_l (v w : Z) : Z := Z.lor (Z.land w 0xff00) (u8 v).
Definition pair16_set_b_h (v w : Z) : Z := Z.lor (Z.land w 0x00ff) (Z.shiftl (u8 v) 8).

(** The [switch (port)] of [z180_writecontrol]; [data] is a byte
    ([uint8_t]). *)
Definition writecontrol_switch (port data : Z) (s : z180_device) : z180_device :=
  match port with
  | 0x00 => s <| m_asci_cntla := upd (m_asci_cntla s) 0 data |>
  | 0x01 => s <| m_asci_cntla := upd (m_asci_cntla s) 1 data |>
  | 0x02 => s <| m_asci_cntlb := upd (m_asci_cntlb s) 0 data |>
  | 0x03 => s <| m_asci_cntlb := upd (m_asci_cntlb s) 1 data |>
  | 0x04 =>
      s <| m_asci_stat := upd (m_asci_stat s) 0
             (Z.lor (Z.land (m_asci_stat s 0) (Z.lnot (Z.lor Z180_STAT0_RIE Z180_STAT0_TIE)))
                    (Z.land data (Z.lor Z180_STAT0_RIE Z180_STAT0_TIE))) |>
  | 0x05 =>
      let m := Z.lor (Z.lor Z180_STAT1_RIE Z180_STAT1_CTS1E) Z180_STAT1_TIE in
      s <| m_asci_stat := upd (m_asci_stat s) 1
             (Z.lor (Z.land (m_asci_stat s 1) (Z.lnot m)) (Z.land data m)) |>
  | 0x06 => s <| m_asci_tdr := upd (m_asci_tdr s) 0 data |>
  | 0x07 => s <| m_asci_tdr := upd (m_asci_tdr s) 1 data |>
  | 0x08 => s <| m_asci_rdr := upd (m_asci_rdr s) 0 data |>
  | 0x09 => s <| m_asci_rdr := upd (m_asci_rdr s) 1 data |>
  | 0x0a =>
      (* Inhibit setting up TE & RE flags due to the lack of CSIO implementation *)
      let m := Z.lor (Z.lor Z180_CNTR_EF Z180_CNTR_RE) Z180_CNTR_TE in
      s <| m_csio_cntr := Z.lor (Z.land (m_csio_cntr s) m) (Z.land data (Z.lnot m)) |>
  | 0x0b => s <| m_csio_trdr := data |>
  | 0x0c =>
      let s := s <| m_tmdr := upd (m_tmdr s) 0 (pair16_set_b_l data (m_tmdr s 0)) |> in
      s <| m_tmdr_value := upd (m_tmdr_value s) 0
             (Z.lor (Z.land (m_tmdr_value s 0) 0xff00) (pair_b_l (m_tmdr s 0))) |>
  | 0x0d =>
      let s := s <| m_tmdr := upd (m_tmdr s) 0 (pair16_set_b_h data (m_tmdr s 0)) |> in
      s <| m_tmdr_value := upd (m_tmdr_value s) 0
             (Z.lor (Z.land (m_tmdr_value s 0) 0x00ff)
                    (Z.shiftl (pair_b_h (m_tmdr s 0)) 8)) |>
  | 0x0e => s <| m_rldr := upd (m_rldr s) 0 (pair16_set_b_l data (m_rldr s 0)) |>
  | 0x0f => s <| m_rldr := upd (m_rldr s) 0 (pair16_set_b_h data (m_rldr s 0)) |>
  | 0x10 =>
      let old := m_tcr s in
      let tif := Z.lor Z180_TCR_TIF1 Z180_TCR_TIF0 in
      (* Force reload on state change *)
      let s := s <| m_tcr := Z.lor (Z.land (m_tcr s) tif) (Z.land data (Z.lnot tif)) |> in
      let s :=
        if negb (nz (Z.land old Z180_TCR_TDE0)) && nz (Z.land (m_tcr s) Z180_TCR_TDE0)
        then s <| m_tmdr_value := upd (m_tmdr_value s) 0 0 |>  (* //m_rldr[0].w; *)
        else s in
      if negb (nz (Z.land old Z180_TCR_TDE1)) && nz (Z.land (m_tcr s) Z180_TCR_TDE1)
      then s <| m_tmdr_value := upd (m_tmdr_value s) 1 0 |>  (* //m_rldr[1].w; *)
      else s
  | 0x11 => s  (* IO11 does not exist *)
  | 0x12 =>
      s <| m_asci_ext := upd (m_asci_ext s) 0
             (Z.lor (Z.land (m_asci_ext s 0) Z180_ASEXT0_BRK_DET)
                (Z.land (Z.land data Z180_ASEXT0_MASK) (Z.lnot Z180_ASEXT0_BRK_DET))) |>
  | 0x13 =>
      s <| m_asci_ext := upd (m_asci_ext s) 1
             (Z.lor (Z.land (m_asci_ext s 1) Z180_ASEXT1_BRK_DET)
                (Z.land (Z.land data Z180_ASEXT1_MASK) (Z.lnot Z180_ASEXT1_BRK_DET))) |>
  | 0x14 =>
      let s := s <| m_tmdr := upd (m_tmdr s) 1 (pair16_set_b_l data (m_tmdr s 1)) |> in
      s <| m_tmdr_value := upd (m_tmdr_value s) 1
             (Z.lor (Z.land (m_tmdr_value s 1) 0xff00) (pair_b_l (m_tmdr s 1))) |>
  | 0x15 =>
      let s := s <| m_tmdr := upd (m_tmdr s) 1 (pair16_set_b_h data (m_tmdr s 1)) |> in
      s <| m_tmdr_value := upd (m_tmdr_value s) 1
             (Z.lor (Z.land (m_tmdr_value s 1) 0x00ff) (pair_b_h (m_tmdr s 1))) |>
  | 0x16 => s <| m_rldr := upd (m_rldr s) 1 (pair16_set_b_l data (m_rldr s 1)) |>
  | 0x17 => s <| m_rldr := upd (m_rldr s) 1 (pair16_set_b_h data (m_rldr s 1)) |>
  | 0x18 => s  (* FRC is read-only *)
  | 0x19 => s  (* IO19 does not exist *)
  | 0x1a => s <| m_asci_tc := upd (m_asci_tc s) 0 (pair16_set_b_l data (m_asci_tc s 0)) |>
  | 0x1b => s <| m_asci_tc := upd (m_asci_tc s) 0 (pair16_set_b_h data (m_asci_tc s 0)) |>
  | 0x1c => s <| m_asci_tc := upd (m_asci_tc s) 1 (pair16_set_b_l data (m_asci_tc s 1)) |>
  | 0x1d => s <| m_asci_tc := upd (m_asci_tc s) 1 (pair16_set_b_h data (m_asci_tc s 1)) |>
  | 0x1e => s <| m_cmr := Z.land data Z180_CMR_MASK |>
  | 0x1f => s <| m_ccr := data |>
  | 0x20 => s <| m_dma_sar0 := pair_set_b_l data (m_dma_sar0 s) |>
  | 0x21 => s <| m_dma_sar0 := pair_set_b_h data (m_dma_sar0 s) |>
  | 0x22 =>
      s <| m_dma_sar0 :=
             pair_set_b_h2 (Z.land data (Z.shiftr Z180_SAR0_MASK 16)) (m_dma_sar0 s) |>
  | 0x23 => s <| m_dma_dar0 := pair_set_b_l data (m_dma_dar0 s) |>
  | 0x24 => s <| m_dma_dar0 := pair_set_b_h data (m_dma_dar0 s) |>
  | 0x25 =>
      s <| m_dma_dar0 :=
             pair_set_b_h2 (Z.land data (Z.shiftr Z180_DAR0_MASK 16)) (m_dma_dar0 s) |>
  | 0x26 => s <| m_dma_bcr := upd (m_dma_bcr s) 0 (pair16_set_b_l data (m_dma_bcr s 0)) |>
  | 0x27 => s <| m_dma_bcr := upd (m_dma_bcr s) 0 (pair16_set_b_h data (m_dma_bcr s 0)) |>
  | 0x28 => s <| m_dma_mar1 := pair_set_b_l data (m_dma_mar1 s) |>
  | 0x29 => s <| m_dma_mar1 := pair_set_b_h data (m_dma_mar1 s) |>
  | 0x2a =>
      s <| m_dma_mar1 :=
             pair_set_b_h2 (Z.land data (Z.shiftr Z180_MAR1_MASK 16)) (m_dma_mar1 s) |>
  | 0x2b => s <| m_dma_iar1 := pair_set_b_l data (m_dma_iar1 s) |>
  | 0x2c => s <| m_dma_iar1 := pair_set_b_h data (m_dma_iar1 s) |>
  | 0x2d =>
      s <| m_dma_iar1 :=
             pair_set_b_h2 (Z.land data (Z.shiftr Z180_IAR1_MASK 16)) (m_dma_iar1 s) |>
  | 0x2e => s <| m_dma_bcr := upd (m_dma_bcr s) 1 (pair16_set_b_l data (m_dma_bcr s 1)) |>
  | 0x2f => s <| m_dma_bcr := upd (m_dma_bcr s) 1 (pair16_set_b_h data (m_dma_bcr s 1)) |>
  | 0x30 =>
      let s := s <| m_dstat :=
                      Z.lor (Z.land (m_dstat s) Z180_DSTAT_DME)
                        (Z.land (Z.land data Z180_DSTAT_MASK) (Z.lnot Z180_DSTAT_DME)) |> in
      let s :=
        if Z.land data (Z.lor Z180_DSTAT_DE1 Z180_DSTAT_DWE1) =? Z180_DSTAT_DE1
        then s <| m_dstat := Z.lor (m_dstat s) Z180_DSTAT_DME |>  (* DMA enable *)
        else s in
      if Z.land data (Z.lor Z180_DSTAT_DE0 Z180_DSTAT_DWE0) =? Z180_DSTAT_DE0
      then s <| m_dstat := Z.lor (m_dstat s) Z180_DSTAT_DME |>  (* DMA enable *)
      else s
  | 0x31 => s <| m_dmode := Z.land data Z180_DMODE_MASK |>
  | 0x32 => s <| m_dcntl := data |>
  | 0x33 => s <| m_il := Z.land data Z180_IL_MASK |>
  | 0x34 =>
      s <| m_itc := Z.lor (Z.land (m_itc s) Z180_ITC_UFO)
                      (Z.land (Z.land data Z180_ITC_MASK) (Z.lnot Z180_ITC_UFO)) |>
  | 0x35 => s  (* IO35 does not exist *)
  | 0x36 => s <| m_rcr := Z.land data Z180_RCR_MASK |>
  | 0x37 => s  (* IO37 does not exist *)
  | 0x38 => z180_mmu (s <| m_mmu_cbr := data |>)
  | 0x39 => z180_mmu (s <| m_mmu_bbr := data |>)
  | 0x3a => z180_mmu (s <| m_mmu_cbar := data |>)
  | 0x3b => s  (* IO3B does not exist *)
  | 0x3c => s  (* IO3C does not exist *)
  | 0x3d => s  (* IO3D does not exist *)
  | 0x3e => s <| m_omcr := Z.land data Z180_OMCR_MASK |>
  | 0x3f => s <| m_iocr := Z.land data Z180_IOCR_MASK |>
  | _ => s
  end.

Definition z180_writecontrol (port data : Z) (s : z180_device) : z180_device :=
  (* normal external write port *)
  let s := io_write_byte port data s in
  (* remap internal I/O registers *)
  let port := remap_port s port in
  (* store the data in the internal register *)
  writecontrol_switch port data s.

(** ** Timers *)



(** Handle PRT timers, decreasing them after 20 clocks *)
Definition clock_timers (s : z180_device) : z180_device :=
  let s := s <| m_timer_cnt := m_timer_cnt s + 1 |> in
  if m_timer_cnt s >=? 20 then
    let s := s <| m_timer_cnt := 0 |> in
    (* Programmable Reload Timer 0 *)
    let s :=
      if nz (Z.land (m_tcr s) Z180_TCR_TDE0) then
        if m_tmdr_value s 0 =? 0 then
          let s := s <| m_tmdr_value := upd (m_tmdr_value s) 0 (m_rldr s 0) |> in
          s <| m_tcr := Z.lor (m_tcr s) Z180_TCR_TIF0 |>
        else s <| m_tmdr_value := upd (m_tmdr_value s) 0 (u16 (m_tmdr_value s 0 - 1)) |>
      else s in
    (* Programmable Reload Timer 1 *)
    let s :=
      if nz (Z.land (m_tcr s) Z180_TCR_TDE1) then
        if m_tmdr_value s 1 =? 0 then
          let s := s <| m_tmdr_value := upd (m_tmdr_value s) 1 (m_rldr s 1) |> in
          s <| m_tcr := Z.lor (m_tcr s) Z180_TCR_TIF1 |>
        else s <| m_tmdr_value := upd (m_tmdr_value s) 1 (u16 (m_tmdr_value s 1 - 1)) |>
      else s in
    let s :=
      if nz (Z.land (m_tcr s) Z180_TCR_TIE0) && nz (Z.land (m_tcr s) Z180_TCR_TIF0) then
        (* check if we can take the interrupt *)
        if nz (m_IFF1 s) && negb (nz (m_after_EI s))
        then s <| m_int_pending := upd (m_int_pending s) Z180_INT_PRT0 1 |>
        else s
      else s in
    if nz (Z.land (m_tcr s) Z180_TCR_TIE1) && nz (Z.land (m_tcr s) Z180_TCR_TIF1) then
      (* check if we can take the interrupt *)
      if nz (m_IFF1 s) && negb (nz (m_after_EI s))
      then s <| m_int_pending := upd (m_int_pending s) Z180_INT_PRT1 1 |>
      else s
    else s
  else s.

(** [while (cycles-- > 0) clock_timers();] *)
Definition handle_io_timers (cycles : Z) (s : z180_device) : z180_device :=
  Nat.iter (Z.to_nat cycles) clock_timers s.

(** ** I/O lines *)

(** one input line of [z180_write_iolines] *)
Definition write_ioline (line changes data : Z) (s : z180_device) : z180_device :=
  if nz (Z.land changes line)
  then s <| m_iol := Z.lor (Z.land (m_iol s) (Z.lnot line)) (Z.land data line) |>
  else s.

Definition z180_write_iolines (data : Z) (s : z180_device) : z180_device :=
  let changes := Z.lxor (m_iol s) data in
  let s := write_ioline Z180_CKA0 changes data s in
  let s := write_ioline Z180_CKA1 changes data s in
  let s := write_ioline Z180_CKS changes data s in
  let s := write_ioline Z180_CTS0 changes data s in
  let s := write_ioline Z180_CTS1 changes data s in
  let s := write_ioline Z180_DCD0 changes data s in
  let s := write_ioline Z180_DREQ0 changes data s in
  let s := write_ioline Z180_DREQ1 changes data s in
  let s := write_ioline Z180_RXA0 changes data s in
  let s := write_ioline Z180_RXA1 changes data s in
  let s := write_ioline Z180_RXS changes data s in
  (* RTS0, TEND0, TEND1, TOUT, TXA0, TXA1, TXS: "won't change output" *)
  s.

(** logical to physical address translation, [spacenum == AS_PROGRAM] *)
Definition memory_translate (as_program : bool) (address : Z) (s : z180_device) : Z :=
  if as_program then MMU_REMAP_ADDR s address else address.

(** Locals of [z180_dma0] while its loop runs. *)
Record dma0_locals := mk_dma0 {
  sar0 : Z;
  dar0 : Z;
  bcr0 : Z;
  count : Z;
  cycles : Z
}.

(** Program points of [execute_run] after the NMI check. *)
Inductive run_point :=
| At_again          (* label [again:] *)
| In_dma_loop       (* top of the [do] body run while a DMA transfer is enabled *)
| At_icount_check   (* [if (m_icount > 0)] before the second loop *)
| In_op_loop        (* top of the second [do] body *)
| Run_done.

(** *** What a memory to memory transfer is to do

    Written from the specification: [n] bytes copied one after the other
    from the source to the destination address, each address stepped by its
    own increment after every byte (+1, -1 or 0 for a fixed address).  The
    addresses are the 32-bit [offs_t] values of the code, seen through the
    20 address bits of the program space. *)
Fixpoint copy_bytes (n : nat) (src dst sstep dstep : Z) (mem : array) : array :=
  match n with
  | O => mem
  | S n' =>
      copy_bytes n' (u32 (src + sstep)) (u32 (dst + dstep)) sstep dstep
        (upd mem (Z.land dst 0xfffff) (mem (Z.land src 0xfffff)))
  end.

Fixpoint step_addr (n : nat) (a step : Z) : Z :=
  match n with
  | O => a
  | S n' => step_addr n' (u32 (a + step)) step
  end.

(** The memory to memory selections of the source and destination mode
    fields of DMODE, with the increments of the source and of the
    destination address; the selections with an I/O end and the reserved
    ones have none. *)
Definition mem_to_mem_steps (sel : Z) : option (Z * Z) :=
  match sel with
  | 0x00 => Some (1, 1)
  | 0x04 => Some (-1, 1)
  | 0x08 => Some (0, 1)
  | 0x10 => Some (1, -1)
  | 0x14 => Some (-1, -1)
  | 0x18 => Some (0, -1)
  | 0x20 => Some (1, 0)
  | 0x24 => Some (-1, 0)
  | _ => None
  end.

Section Device.

(** *** Collaborators outside z180.cpp

    Declared in z180.h, z180ops.h or the emulator core, none of which is
    among the sources; the functions below are parametric in them. *)

(** wait states of one program-memory access *)
Variable memory_wait_states : z180_device -> Z.
(** the macros [IN] and [OUT]: port access of the instruction executor *)
Variable IN : Z -> z180_device -> Z * z180_device.
Variable OUT : Z -> Z -> z180_device -> z180_device.
(** the acknowledge sequence of interrupt [irq]; returns its T-states *)
Variable take_interrupt : Z -> z180_device -> Z * z180_device.
(** [exec_op(ROP())]: fetch and execute one instruction, returns its T-states *)
Variable exec_op : z180_device -> Z * z180_device.
(** the default cycle tables *)
Variable cc_default : Z -> array.
(** input line numbers *)
Variable INPUT_LINE_NMI : Z.
Variable Z180_INPUT_LINE_IRQ0 Z180_INPUT_LINE_IRQ1 Z180_INPUT_LINE_IRQ2 : Z.
Variable Z180_INPUT_LINE_DREQ0 Z180_INPUT_LINE_DREQ1 : Z.
(** the daisy chain *)
Variable daisy_chain_present : bool.
Variable daisy_update_irq_state : z180_device -> Z.

(** *** DMA channel 0 *)

(** memory to memory: [write_byte(dar0 op, read_byte(sar0 op))], two memory
    accesses, one byte off the count; [sstep] and [dstep] are the
    post-increments of the two addresses (+1, -1 or 0) *)
Definition dma0_mem_to_mem (sstep dstep : Z) (l : dma0_locals) (s : z180_device)
  : dma0_locals * z180_device :=
  let s := program_write_byte (dar0 l) (program_read_byte (sar0 l) s) s in
  (mk_dma0 (u32 (sar0 l + sstep)) (u32 (dar0 l + dstep)) (bcr0 l - 1) (count l)
     (cycles l + memory_wait_states s * 2), s).

(** edge sensitive DREQ0 ? *)
Definition dma0_dreq0_edge (l : dma0_locals) (s : z180_device)
  : dma0_locals * z180_device :=
  if nz (Z.land (m_dcntl s) Z180_DCNTL_DMS0) then
    (mk_dma0 (sar0 l) (dar0 l) (bcr0 l) 0 (cycles l),
     s <| m_iol := Z.land (m_iol s) (Z.lnot Z180_DREQ0) |>)
  else (l, s).

(** I/O SAR0 fixed to memory *)
Definition dma0_io_to_mem (dstep : Z) (l : dma0_locals) (s : z180_device)
  : dma0_locals * z180_device :=
  if nz (Z.land (m_iol s) Z180_DREQ0) then
    let '(v, s) := IN (sar0 l) s in
    let s := program_write_byte (dar0 l) v s in
    let l := mk_dma0 (sar0 l) (u32 (dar0 l + dstep)) (bcr0 l - 1) (count l)
               (cycles l + memory_wait_states s) in
    dma0_dreq0_edge l s
  else (l, s).

(** memory to I/O DAR0 fixed *)
Definition dma0_mem_to_io (sstep : Z) (l : dma0_locals) (s : z180_device)
  : dma0_locals * z180_device :=
  if nz (Z.land (m_iol s) Z180_DREQ0) then
    let s := OUT (dar0 l) (program_read_byte (sar0 l) s) s in
    let l := mk_dma0 (u32 (sar0 l + sstep)) (dar0 l) (bcr0 l - 1) (count l)
               (cycles l + memory_wait_states s) in
    dma0_dreq0_edge l s
  else (l, s).

(** [switch( m_dmode & (Z180_DMODE_SM | Z180_DMODE_DM) )] *)
Definition dma0_switch (l : dma0_locals) (s : z180_device) : dma0_locals * z180_device :=
  match Z.land (m_dmode s) (Z.lor Z180_DMODE_SM Z180_DMODE_DM) with
  | 0x00 => dma0_mem_to_mem 1 1 l s         (* memory SAR0+1 to memory DAR0+1 *)
  | 0x04 => dma0_mem_to_mem (-1) 1 l s      (* memory SAR0-1 to memory DAR0+1 *)
  | 0x08 => dma0_mem_to_mem 0 1 l s         (* memory SAR0 fixed to memory DAR0+1 *)
  | 0x0c => dma0_io_to_mem 1 l s            (* I/O SAR0 fixed to memory DAR0+1 *)
  | 0x10 => dma0_mem_to_mem 1 (-1) l s      (* memory SAR0+1 to memory DAR0-1 *)
  | 0x14 => dma0_mem_to_mem (-1) (-1) l s   (* memory SAR0-1 to memory DAR0-1 *)
  | 0x18 => dma0_mem_to_mem 0 (-1) l s      (* memory SAR0 fixed to memory DAR0-1 *)
  | 0x1c => dma0_io_to_mem (-1) l s         (* I/O SAR0 fixed to memory DAR0-1 *)
  | 0x20 => dma0_mem_to_mem 1 0 l s         (* memory SAR0+1 to memory DAR0 fixed *)
  | 0x24 => dma0_mem_to_mem (-1) 0 l s      (* memory SAR0-1 to memory DAR0 fixed *)
  | 0x28 => (l, s)                          (* reserved *)
  | 0x2c => (l, s)                          (* reserved *)
  | 0x30 => dma0_mem_to_io 1 l s            (* memory SAR0+1 to I/O DAR0 fixed *)
  | 0x34 => dma0_mem_to_io (-1) l s         (* memory SAR0-1 to I/O DAR0 fixed *)
  | 0x38 => (l, s)                          (* reserved *)
  | 0x3c => (l, s)                          (* reserved *)
  | _ => (l, s)
  end.

(** one pass through the body of [while (count > 0)], up to the test of the
    cycle budget *)
Definition dma0_body (l : dma0_locals) (s : z180_device) : dma0_locals * z180_device :=
  let s := s <| m_extra_cycles := 0 |> in
  (* last transfer happening now? *)
  let s := if bcr0 l =? 1 then s <| m_iol := Z.lor (m_iol s) Z180_TEND0 |> else s in
  let '(l, s) := dma0_switch l s in
  (mk_dma0 (sar0 l) (dar0 l) (bcr0 l) (count l - 1)
     (cycles l + (6 + m_extra_cycles s)), s).

(** [while (count > 0) { ...; if (cycles > max_cycles) break; }]; every pass
    takes one off [count], so [Z.to_nat count] passes of fuel are enough. *)
Fixpoint dma0_loop (fuel : nat) (max_cycles : Z) (l : dma0_locals) (s : z180_device)
  : dma0_locals * z180_device :=
  match fuel with
  | O => (l, s)
  | S fuel' =>
      if count l >? 0 then
        let '(l, s) := dma0_body l s in
        if cycles l >? max_cycles then (l, s)
        else dma0_loop fuel' max_cycles l s
      else (l, s)
  end.

(** the locals at the head of the loop *)
Definition dma0_entry (s : z180_device) : dma0_locals :=
  let bcr0 := m_dma_bcr s 0 in
  let bcr0 := if bcr0 =? 0 then 0x10000 else bcr0 in
  let count := if nz (Z.land (m_dmode s) Z180_DMODE_MMOD) then bcr0 else 1 in
  mk_dma0 (m_dma_sar0 s) (m_dma_dar0 s) bcr0 count 0.

(** the statements after the loop *)
Definition dma0_exit (l : dma0_locals) (s : z180_device) : Z * z180_device :=
  let s := s <| m_dma_sar0 := sar0 l |> in
  let s := s <| m_dma_dar0 := dar0 l |> in
  let s := s <| m_dma_bcr := upd (m_dma_bcr s) 0 (u16 (bcr0 l)) |> in
  (* DMA terminal count? *)
  let s :=
    if bcr0 l =? 0 then
      let s := s <| m_iol := Z.land (m_iol s) (Z.lnot Z180_TEND0) |> in
      let s := s <| m_dstat := Z.land (m_dstat s) (Z.lnot Z180_DSTAT_DE0) |> in
      (* terminal count interrupt enabled? *)
      if nz (Z.land (m_dstat s) Z180_DSTAT_DIE0) && nz (m_IFF1 s)
      then s <| m_int_pending := upd (m_int_pending s) Z180_INT_DMA0 1 |>
      else s
    else s in
  (cycles l, s).

Definition z180_dma0 (max_cycles : Z) (s : z180_device) : Z * z180_device :=
  let l := dma0_entry s in
  if negb (nz (Z.land (m_dstat s) Z180_DSTAT_DE0)) then (0, s)
  else
    let '(l, s) := dma0_loop (Z.to_nat (count l)) max_cycles l s in
    dma0_exit l s.

(** *** DMA channel 1 *)

Definition z180_dma1 (s : z180_device) : Z * z180_device :=
  let mar1 := m_dma_mar1 s in
  let iar1 := pair_w_l (m_dma_iar1 s) in
  let bcr1 := m_dma_bcr s 1 in
  let bcr1 := if bcr1 =? 0 then 0x10000 else bcr1 in
  let cycles := 0 in
  if Z.land (m_iol s) Z180_DREQ1 =? 0 then (0, s)
  else if negb (nz (Z.land (m_dstat s) Z180_DSTAT_DE1)) then (0, s)
  else
    (* last transfer happening now? *)
    let s := if bcr1 =? 1 then s <| m_iol := Z.lor (m_iol s) Z180_TEND1 |> else s in
    let s := s <| m_extra_cycles := 0 |> in
    let '(mar1, s) :=
      match Z.land (m_dcntl s) (Z.lor Z180_DCNTL_DIM1 Z180_DCNTL_DIM0) with
      | 0x00 =>  (* memory MAR1+1 to I/O IAR1 fixed *)
          (u32 (mar1 + 1), io_write_byte iar1 (program_read_byte mar1 s) s)
      | 0x01 =>  (* memory MAR1-1 to I/O IAR1 fixed *)
          (u32 (mar1 - 1), io_write_byte iar1 (program_read_byte mar1 s) s)
      | 0x02 =>  (* I/O IAR1 fixed to memory MAR1+1 *)
          let '(v, s) := io_read_byte iar1 s in
          (u32 (mar1 + 1), program_write_byte mar1 v s)
      | 0x03 =>  (* I/O IAR1 fixed to memory MAR1-1 *)
          let '(v, s) := io_read_byte iar1 s in
          (u32 (mar1 - 1), program_write_byte mar1 v s)
      | _ => (mar1, s)
      end in
    let cycles := cycles + memory_wait_states s in
    let cycles := cycles + m_extra_cycles s in
    (* edge sensitive DREQ1 ? *)
    let s :=
      if nz (Z.land (m_dcntl s) Z180_DCNTL_DIM1)
      then s <| m_iol := Z.land (m_iol s) (Z.lnot Z180_DREQ1) |>
      else s in
    let s := s <| m_dma_mar1 := mar1 |> in
    let s := s <| m_dma_bcr := upd (m_dma_bcr s) 1 (u16 bcr1) |> in
    (* DMA terminal count? *)
    let s :=
      if bcr1 =? 0 then
        let s := s <| m_iol := Z.land (m_iol s) (Z.lnot Z180_TEND1) |> in
        let s := s <| m_dstat := Z.land (m_dstat s) (Z.lnot Z180_DSTAT_DE1) |> in
        if nz (Z.land (m_dstat s) Z180_DSTAT_DIE1) && nz (m_IFF1 s)
        then s <| m_int_pending := upd (m_int_pending s) Z180_INT_DMA1 1 |>
        else s
      else s in
    (* six cycles per transfer (minimum) *)
    (6 + cycles, s).

(** *** Reset registers to their initial values *)

Definition device_reset (s : z180_device) : z180_device :=
  let s := s <| m_PREPC := 0 |> in
  let s := s <| m_PC := 0 |> in
  let s := s <| m_SP := 0 |> in
  let s := s <| m_AF := 0 |> in
  let s := s <| m_BC := 0 |> in
  let s := s <| m_DE := 0 |> in
  let s := s <| m_HL := 0 |> in
  let s := s <| m_IX := 0 |> in
  let s := s <| m_IY := 0 |> in
  let s := s <| m_AF2 := 0 |> in
  let s := s <| m_BC2 := 0 |> in
  let s := s <| m_DE2 := 0 |> in
  let s := s <| m_HL2 := 0 |> in
  let s := s <| m_R := 0 |> in
  let s := s <| m_R2 := 0 |> in
  let s := s <| m_IFF1 := 0 |> in
  let s := s <| m_IFF2 := 0 |> in
  let s := s <| m_HALT := 0 |> in
  let s := s <| m_IM := 0 |> in
  let s := s <| m_I := 0 |> in
  let s := s <| m_tmdr_latch := 0 |> in
  let s := s <| m_read_tcr_tmdr := upd (m_read_tcr_tmdr s) 0 0 |> in
  let s := s <| m_read_tcr_tmdr := upd (m_read_tcr_tmdr s) 1 0 |> in
  let s := s <| m_iol := 0 |> in
  let s := s <| m_mmu := for_range 16 0 (fun i a => upd a i 0) (m_mmu s) |> in
  let s := s <| m_tmdrh := upd (m_tmdrh s) 0 0 |> in
  let s := s <| m_tmdrh := upd (m_tmdrh s) 1 0 |> in
  let s := s <| m_tmdr_value := upd (m_tmdr_value s) 0 0xffff |> in
  let s := s <| m_tmdr_value := upd (m_tmdr_value s) 1 0xffff |> in
  let s := s <| m_nmi_state := CLEAR_LINE |> in
  let s := s <| m_nmi_pending := 0 |> in
  let s := s <| m_irq_state := upd (m_irq_state s) 0 CLEAR_LINE |> in
  let s := s <| m_irq_state := upd (m_irq_state s) 1 CLEAR_LINE |> in
  let s := s <| m_irq_state := upd (m_irq_state s) 2 CLEAR_LINE |> in
  let s := s <| m_after_EI := 0 |> in
  let s := s <| m_ea := 0 |> in
  let s := s <| m_cc := cc_default |> in
  (* IX and IY are FFFF after a reset! *)
  let s := s <| m_IY := pair_set_w_l 0xffff (m_IY s) |> in
  let s := s <| m_IX := pair_set_w_l (_IY s) (m_IX s) |> in
  (* Zero flag is set *)
  let s := s <| m_AF := pair_set_b_l ZF (m_AF s) |> in
  let s := s <| m_int_pending :=
                  for_range (Z.to_nat (Z180_INT_MAX + 1)) 0 (fun i a => upd a i 0)
                    (m_int_pending s) |> in
  let s := s <| m_timer_cnt := 0 |> in
  let s := s <| m_dma0_cnt := 0 |> in
  let s := s <| m_dma1_cnt := 0 |> in
  (* reset io registers *)
  let s := s <| m_asci_cntla := upd (m_asci_cntla s) 0
                  (Z.lor (Z.land (m_asci_cntla s 0) Z180_CNTLA0_MPBR_EFR) Z180_CNTLA0_RTS0) |> in
  let s := s <| m_asci_cntla := upd (m_asci_cntla s) 1
                  (Z.lor (Z.land (m_asci_cntla s 1) Z180_CNTLA1_MPBR_EFR) Z180_CNTLA1_CKA1D) |> in
  let s := s <| m_asci_cntlb := upd (m_asci_cntlb s) 0
                  (Z.lor (Z.land (m_asci_cntlb s 0) (Z.lor Z180_CNTLB0_MPBT Z180_CNTLB0_CTS_PS))
                     0x07) |> in
  let s := s <| m_asci_cntlb := upd (m_asci_cntlb s) 1
                  (Z.lor (Z.land (m_asci_cntlb s 1) Z180_CNTLB1_MPBT) 0x07) |> in
  let s := s <| m_asci_stat := upd (m_asci_stat s) 0
                  (Z.land (m_asci_stat s 0) (Z.lor Z180_STAT0_DCD0 Z180_STAT0_TDRE)) |> in
  let s := s <| m_asci_stat := upd (m_asci_stat s) 1 Z180_STAT1_TDRE |> in
  let s := s <| m_csio_cntr := 0x07 |> in
  let s := s <| m_tcr := 0x00 |> in
  let s := s <| m_asci_ext := upd (m_asci_ext s) 0 0x00 |> in
  let s := s <| m_asci_ext := upd (m_asci_ext s) 1 0x00 |> in
  let s := s <| m_cmr := 0x00 |> in
  let s := s <| m_ccr := 0x00 |> in
  let s := s <| m_dma_iar1 := pair_set_b_h2 0x00 (m_dma_iar1 s) |> in
  let s := s <| m_dstat := Z.lor Z180_DSTAT_DWE1 Z180_DSTAT_DWE0 |> in
  let s := s <| m_dmode := 0x00 |> in
  let s := s <| m_dcntl := 0xf0 |> in  (* maximum number of memory and I/O wait states *)
  let s := s <| m_il := 0x00 |> in
  let s := s <| m_itc := Z180_ITC_ITE0 |> in
  let s := s <| m_rcr := Z.lor Z180_RCR_REFE Z180_RCR_REFW |> in
  let s := s <| m_mmu_cbr := 0x00 |> in
  let s := s <| m_mmu_bbr := 0x00 |> in
  let s := s <| m_mmu_cbar := 0xf0 |> in
  let s := s <| m_omcr := Z.lor (Z.lor Z180_OMCR_M1E Z180_OMCR_M1TE) Z180_OMCR_IOC |> in
  let s := s <| m_iocr := 0x00 |> in
  z180_mmu s.

(** *** Interrupts *)

(** check for IRQs before each instruction *)
Definition promote_irq (n ite pri : Z) (s : z180_device) : z180_device :=
  if negb (m_irq_state s n =? CLEAR_LINE) && (Z.land (m_itc s) ite =? ite)
  then s <| m_int_pending := upd (m_int_pending s) pri 1 |>
  else s.

Definition check_irqs (s : z180_device) : z180_device :=
  if nz (m_IFF1 s) && negb (nz (m_after_EI s)) then
    let s := promote_irq 0 Z180_ITC_ITE0 Z180_INT_IRQ0 s in
    let s := promote_irq 1 Z180_ITC_ITE1 Z180_INT_IRQ1 s in
    promote_irq 2 Z180_ITC_ITE2 Z180_INT_IRQ2 s
  else s.

(** [for (i = 0; i <= Z180_INT_MAX; i++) if (m_int_pending[i]) { ...; break; }]
    with [n] indices left from [i] on *)
Fixpoint take_first_pending (n : nat) (i : Z) (cycles : Z) (s : z180_device)
  : Z * z180_device :=
  match n with
  | O => (cycles, s)
  | S n' =>
      if nz (m_int_pending s i) then
        let '(c, s) := take_interrupt i s in
        (cycles + c, s <| m_int_pending := upd (m_int_pending s) i 0 |>)
      else take_first_pending n' (i + 1) cycles s
  end.

Definition check_interrupts (s : z180_device) : Z * z180_device :=
  let cycles := 0 in
  let s := check_irqs s in
  take_first_pending (Z.to_nat (Z180_INT_MAX + 1)) 0 cycles s.

(** *** Execute *)

(** the block run when [m_nmi_pending] is set on the way in, up to the
    call of [handle_io_timers] *)
Definition nmi_entry (s : z180_device) : z180_device :=
  let s := LEAVE_HALT s in  (* Check if processor was halted *)
  (* disable DMA transfers!! *)
  let s := s <| m_dstat := Z.land (m_dstat s) (Z.lnot Z180_DSTAT_DME) |> in
  let s := s <| m_IFF2 := m_IFF1 s |> in
  let s := s <| m_IFF1 := 0 |> in
  let s := PUSH_PC s in
  let s := s <| m_PC := 0x0066 |> in
  let s := s <| m_icount := m_icount s - 11 |> in
  s <| m_nmi_pending := 0 |>.

Definition take_nmi (s : z180_device) : z180_device :=
  handle_io_timers 11 (nmi_entry s).

Definition dma0_burst_selected (s : z180_device) : bool :=
  (Z.land (m_dstat s) Z180_DSTAT_DE0 =? Z180_DSTAT_DE0) &&
  (Z.land (m_dmode s) Z180_DMODE_MMOD =? Z180_DMODE_MMOD).

(** [m_icount -= curcycles; handle_io_timers(curcycles);] *)
Definition account (curcycles : Z) (s : z180_device) : z180_device :=
  handle_io_timers curcycles (s <| m_icount := m_icount s - curcycles |>).

(** interrupt check and one instruction (or 3 cycles of HALT), shared by the
    two loops *)
Definition run_instruction (s : z180_device) : z180_device :=
  let '(curcycles, s) := check_interrupts s in
  let s := account curcycles s in
  let s := s <| m_after_EI := 0 |> in
  let s := s <| m_PREPC := m_PC s |> in
  let '(curcycles, s) :=
    if negb (nz (m_HALT s)) then
      let s := s <| m_R := u8 (m_R s + 1) |> in
      let s := s <| m_frc := u8 (m_frc s + 1) |> in
      let s := s <| m_extra_cycles := 0 |> in
      let '(c, s) := exec_op s in
      (c + m_extra_cycles s, s)
    else (3, s) in
  account curcycles s.

Definition run_step (pt : run_point) (s : z180_device) : run_point * z180_device :=
  match pt with
  | At_again =>
      (* check if any DMA transfer is running *)
      if Z.land (m_dstat s) Z180_DSTAT_DME =? Z180_DSTAT_DME then
        (* check if DMA channel 0 is running and also is in burst mode *)
        if dma0_burst_selected s then
          let '(curcycles, s) := z180_dma0 (m_icount s) s in
          (At_icount_check, account curcycles s)
        else (In_dma_loop, s)
      else (At_icount_check, s)
  | In_dma_loop =>
      let s := run_instruction s in
      (* if channel 0 was started in burst mode, go recheck the mode *)
      if dma0_burst_selected s then (At_again, s)
      else
        let '(curcycles, s) := z180_dma0 6 s in
        let s := account curcycles s in
        let '(curcycles, s) := z180_dma1 s in
        let s := account curcycles s in
        (* If DMA is done break out to the faster loop *)
        if negb (Z.land (m_dstat s) Z180_DSTAT_DME =? Z180_DSTAT_DME)
        then (At_icount_check, s)
        else if m_icount s >? 0 then (In_dma_loop, s) else (At_icount_check, s)
  | At_icount_check =>
      if m_icount s >? 0 then (In_op_loop, s) else (Run_done, s)
  | In_op_loop =>
      (* If DMA is started go to check the mode *)
      if Z.land (m_dstat s) Z180_DSTAT_DME =? Z180_DSTAT_DME then (At_again, s)
      else
        let s := run_instruction s in
        if m_icount s >? 0 then (In_op_loop, s) else (Run_done, s)
  | Run_done => (Run_done, s)
  end.

Fixpoint run_from (fuel : nat) (pt : run_point) (s : z180_device)
  : run_point * z180_device :=
  match fuel with
  | O => (pt, s)
  | S fuel' =>
      match pt with
      | Run_done => (Run_done, s)
      | _ => let '(pt, s) := run_step pt s in run_from fuel' pt s
      end
  end.

(** [execute_run]; it has returned when the point reached is [Run_done]. *)
Definition execute_run (fuel : nat) (s : z180_device) : run_point * z180_device :=
  (* check for NMIs on the way in *)
  let s := if nz (m_nmi_pending s) then take_nmi s else s in
  run_from fuel At_again s.

(** *** Set IRQ line state *)

Definition execute_set_input (irqline state : Z) (s : z180_device) : z180_device :=
  if irqline =? INPUT_LINE_NMI then
    (* mark an NMI pending on the rising edge *)
    let s :=
      if (m_nmi_state s =? CLEAR_LINE) && negb (state =? CLEAR_LINE)
      then s <| m_nmi_pending := 1 |>
      else s in
    s <| m_nmi_state := u8 state |>
  else if (irqline =? Z180_INPUT_LINE_IRQ0) || (irqline =? Z180_INPUT_LINE_IRQ1)
          || (irqline =? Z180_INPUT_LINE_IRQ2) then
    (* update the IRQ state *)
    let s := s <| m_irq_state := upd (m_irq_state s) irqline (u8 state) |> in
    if daisy_chain_present
    then s <| m_irq_state := upd (m_irq_state s) 0 (u8 (daisy_update_irq_state s)) |>
    else s
    (* the main execute loop will take the interrupt *)
  else if irqline =? Z180_INPUT_LINE_DREQ0 then
    let iol := Z.land (m_iol s) (Z.lnot Z180_DREQ0) in
    let iol := if state =? ASSERT_LINE then Z.lor iol Z180_DREQ0 else iol in
    z180_write_iolines iol s
  else if irqline =? Z180_INPUT_LINE_DREQ1 then
    let iol := Z.land (m_iol s) (Z.lnot Z180_DREQ1) in
    let iol := if state =? ASSERT_LINE then Z.lor iol Z180_DREQ1 else iol in
    z180_write_iolines iol s
  else s.

(** *** Burn 'cycles' T-states. Adjust R register for the lost time *)

(** the [while (cycles > 0)] loop of [execute_burn]; every pass takes
    [3 + extra_cycles] off [cycles] *)
Fixpoint burn_loop (fuel : nat) (extra_cycles cycles : Z) (s : z180_device)
  : z180_device :=
  match fuel with
  | O => s
  | S fuel' =>
      if cycles >? 0 then
        let s := handle_io_timers (3 + extra_cycles) s in
        (* NOP takes 3 cycles per instruction *)
        let s := s <| m_R := u8 (m_R s + 1) |> in
        let s := s <| m_icount := m_icount s - (3 + extra_cycles) |> in
        burn_loop fuel' extra_cycles (cycles - (3 + extra_cycles)) s
      else s
  end.

Definition execute_burn (fuel : nat) (cycles : Z) (s : z180_device) : z180_device :=
  let extra_cycles := memory_wait_states s in
  burn_loop fuel extra_cycles cycles s.

End Device.

(** ** Output lines *)

Definition get_tend0 (s : z180_device) : bool := nz (Z.land (m_iol s) Z180_TEND0).

Definition get_tend1 (s : z180_device) : bool := nz (Z.land (m_iol s) Z180_TEND1).

(** ** State import and export

    The entries registered with the debugger state interface that the two
    functions name; any other entry is a fatal error ([None]). *)

Inductive state_index :=
| Z180_R | Z180_CBR | Z180_BBR | Z180_CBAR | Z180_IOLINES | Z180_other.

Definition state_import (entry : state_index) (s : z180_device) : option z180_device :=
  match entry with
  | Z180_R =>
      let s := s <| m_R := Z.land (m_rtemp s) 0x7f |> in
      Some (s <| m_R2 := Z.land (m_rtemp s) 0x80 |>)
  | Z180_CBR | Z180_BBR | Z180_CBAR => Some (z180_mmu s)
  | Z180_IOLINES => Some (z180_write_iolines (m_ioltemp s) s)
  | Z180_other => None
  end.

Definition state_export (entry : state_index) (s : z180_device) : option z180_device :=
  match entry with
  | Z180_R =>
      Some (s <| m_rtemp := Z.lor (Z.land (m_R s) 0x7f) (Z.land (m_R2 s) 0x80) |>)
  | Z180_IOLINES => Some (s <| m_ioltemp := m_iol s |>)
  | _ => None
  end.

End Z180.

Import Z180.
Import FlagTables.

(** * Definitions used by the statements and their proofs *)

(** ** Views of the state *)

(** [keeps f s s']: the view [f] of the state is the same in [s'] as in [s]. *)
Definition keeps {A : Type} (f : z180_device -> A) (s s' : z180_device) : Prop :=
  f s' = f s.

(** members untouched by the timers *)
Definition timers_view (s : z180_device) :=
  (m_HALT s, m_dstat s, m_IFF1 s, m_IFF2 s, m_PC s, m_SP s, m_program s,
   m_nmi_pending s, m_icount s, m_mmu s, m_rldr s, m_after_EI s, m_iocr s,
   m_iol s, m_HALT s).

(** What the timers read and write: the divide-by-20 counter, TCR, the two
    down counters and the two reload registers. *)
Record timer_view := mk_tv {
  tv_cnt : Z; tv_tcr : Z; tv_tmdr0 : Z; tv_tmdr1 : Z; tv_rldr0 : Z; tv_rldr1 : Z
}.

Definition view_of (s : z180_device) : timer_view :=
  mk_tv (m_timer_cnt s) (m_tcr s) (m_tmdr_value s 0) (m_tmdr_value s 1)
        (m_rldr s 0) (m_rldr s 1).

(** [clock_timers] on the view *)
Definition clock_view (v : timer_view) : timer_view :=
  if tv_cnt v + 1 >=? 20 then
    let '(tcr, t0) :=
      if nz (Z.land (tv_tcr v) Z180_TCR_TDE0) then
        if tv_tmdr0 v =? 0 then (Z.lor (tv_tcr v) Z180_TCR_TIF0, tv_rldr0 v)
        else (tv_tcr v, u16 (tv_tmdr0 v - 1))
      else (tv_tcr v, tv_tmdr0 v) in
    let '(tcr, t1) :=
      if nz (Z.land tcr Z180_TCR_TDE1) then
        if tv_tmdr1 v =? 0 then (Z.lor tcr Z180_TCR_TIF1, tv_rldr1 v)
        else (tcr, u16 (tv_tmdr1 v - 1))
      else (tcr, tv_tmdr1 v) in
    mk_tv 0 tcr t0 t1 (tv_rldr0 v) (tv_rldr1 v)
  else mk_tv (tv_cnt v + 1) (tv_tcr v) (tv_tmdr0 v) (tv_tmdr1 v) (tv_rldr0 v) (tv_rldr1 v).

(** members a memory to memory pass of channel 0 leaves alone *)
Definition dma_view (s : z180_device) :=
  (m_dmode s, m_dstat s, m_IFF1 s, m_int_pending s, m_dma_bcr s, m_dcntl s,
   m_dma_sar0 s, m_dma_dar0 s, m_iocr s, m_iospace s, m_io_trace s).

(** ** The flag tables *)

(** Invariant of the nested loop of [device_start]: the four pointers have
    advanced by [k] entries and the entries below them are filled in. *)
Definition fill_inv (k : Z) (st : fill_state) : Prop :=
  padd st = k /\ padc st = 65536 + k /\ psub st = k /\ psbc st = 65536 + k /\
  (forall o n, 0 <= o -> 0 <= n < 256 -> o * 256 + n < k ->
     arr_add st (o * 256 + n) = padd_entry o n /\
     arr_add st (65536 + o * 256 + n) = padc_entry o n /\
     arr_sub st (o * 256 + n) = psub_entry o n /\
     arr_sub st (65536 + o * 256 + n) = psbc_entry o n).

Definition byte_range : list Z := map Z.of_nat (seq 0 256).

(** the entries for one operand pair and incoming carry agree with the
    direct recomputation *)
Definition entry_matches (c a b : Z) : bool :=
  let ra := (a + b + c) mod 256 in
  let rs := (a - b - c) mod 256 in
  let ea := (if c =? 0 then padd_entry else padc_entry) a ra in
  let es := (if c =? 0 then psub_entry else psbc_entry) a rs in
  (ea =? direct_add_flags a b c) && (es =? direct_sub_flags a b c) &&
  Bool.eqb (Z.testbit ea 3) (Z.testbit ra 3) && Bool.eqb (Z.testbit ea 5) (Z.testbit ra 5) &&
  Bool.eqb (Z.testbit es 3) (Z.testbit rs 3) && Bool.eqb (Z.testbit es 5) (Z.testbit rs 5).

Definition entries_match_direct (c : Z) : bool :=
  forallb (fun a => forallb (entry_matches c a) byte_range) byte_range.

(** ** Instances of the collaborators

    Concrete functions for the parameters of the embedding, to run it on
    concrete states. *)

(** the memory wait field of DCNTL, bits 7 and 6 *)
Definition memory_wait_states_dcntl (s : z180_device) : Z :=
  Z.shiftr (Z.land (m_dcntl s) 0xc0) 6.

(** port accesses that go to the external I/O space *)
Definition IN_external (port : Z) (s : z180_device) : Z * z180_device :=
  io_read_byte port s.

Definition OUT_external (port v : Z) (s : z180_device) : z180_device :=
  io_write_byte port v s.

(** an interrupt acknowledge that disables further maskable interrupts *)
Definition take_interrupt_ack (irq : Z) (s : z180_device) : Z * z180_device :=
  (13, s <| m_IFF1 := 0 |> <| m_IFF2 := 0 |>).

(** an executor that runs a 3-cycle no-operation *)
Definition exec_nop (s : z180_device) : Z * z180_device :=
  (3, s <| m_PC := pair_set_w_l (_PC s + 1) (m_PC s) |>).

Definition cc_zeros : Z -> array := fun _ => zeros.

Definition no_daisy_irq_state (s : z180_device) : Z := CLEAR_LINE.

(** ** Concrete states *)

(** IRQ0 asserted and enabled while a timer 0 interrupt is pending *)
Definition irq0_line_and_prt0_pending : z180_device :=
  z180_device_ctor <| m_IFF1 := 1 |> <| m_itc := Z180_ITC_ITE0 |>
    <| m_irq_state := upd zeros 0 ASSERT_LINE |>
    <| m_int_pending := upd zeros Z180_INT_PRT0 1 |>.

(** a timer 0 interrupt pending, with PRT1 behind it *)
Definition prt0_and_prt1_pending : z180_device :=
  z180_device_ctor
    <| m_int_pending := upd (upd zeros Z180_INT_PRT1 1) Z180_INT_PRT0 1 |>.

(** the register bank based at 0x40, the external space answering 0xaa at
    port 0x10 *)
Definition bank_at_0x40 : z180_device :=
  z180_device_ctor <| m_iocr := 0x40 |> <| m_iospace := upd zeros 0x10 0xaa |>.

(** channel 0 set up for a burst of [count] bytes from 0x1000 up to 0x2000 up *)
Definition dma0_burst_setup (count : Z) : z180_device :=
  z180_device_ctor
    <| m_dma_sar0 := 0x1000 |> <| m_dma_dar0 := 0x2000 |>
    <| m_dma_bcr := upd zeros 0 count |>
    <| m_dmode := Z180_DMODE_MMOD |>
    <| m_dstat := Z.lor Z180_DSTAT_DE0 (Z.lor Z180_DSTAT_DME Z180_DSTAT_DIE0) |>
    <| m_IFF1 := 1 |>.

(** the same in cycle steal mode *)
Definition dma0_steal_setup (count : Z) : z180_device :=
  (dma0_burst_setup count) <| m_dmode := 0 |>.

(** channel 1 armed, memory 0x3000 up to port 0x20, DREQ1 asserted *)
Definition dma1_setup (count : Z) : z180_device :=
  z180_device_ctor
    <| m_dma_mar1 := 0x3000 |> <| m_dma_iar1 := 0x20 |>
    <| m_dma_bcr := upd zeros 1 count |>
    <| m_dstat := Z.lor Z180_DSTAT_DE1 Z180_DSTAT_DME |>
    <| m_iol := Z180_DREQ1 |>.

(** an NMI latched while the processor is halted at 0x1234 *)
Definition nmi_latched : z180_device :=
  z180_device_ctor <| m_nmi_pending := 1 |> <| m_HALT := 1 |> <| m_IFF1 := 1 |>
    <| m_PC := 0x1234 |> <| m_SP := 0x8000 |> <| m_icount := 100 |>
    <| m_dstat := Z180_DSTAT_DME |>.

(** ** The statements of the specification that the code does not satisfy,
    as the specification words them, as decision procedures *)

(** the indices [lo .. lo + n - 1] *)
Definition index_range (lo : Z) (n : nat) : list Z :=
  map (fun k => lo + Z.of_nat k) (seq 0 n).

Section AsStated.
Variable take_interrupt : Z -> z180_device -> Z * z180_device.

(** One call of [check_interrupts] clears the flag of the lowest index
    pending on entry and leaves every other pending flag as it was on
    entry. *)
Definition services_lowest_pending_on_entry (s : z180_device) : bool :=
  let s' := snd (check_interrupts take_interrupt s) in
  let all := index_range 0 (Z.to_nat (Z180_INT_MAX + 1)) in
  forallb (fun i =>
    implb (nz (m_int_pending s i)
           && forallb (fun j => m_int_pending s j =? 0) (index_range 0 (Z.to_nat i)))
          (forallb (fun j => m_int_pending s' j =? (if j =? i then 0 else m_int_pending s j))
             all))
    all.
End AsStated.


(** A read is serviced from the register bank exactly when the bits of the
    port selected by the base field match it: a port that does not match
    reads the external value. *)
Definition internal_read_only_when_matching (s : z180_device) (port : Z) : bool :=
  let base := Z.land (m_iocr s) 0xc0 in
  implb (negb (Z.land port base =? base))
        (fst (z180_readcontrol port s) =? m_iospace s (Z.land port 0xffff)).

(** ** Properties of the code beyond the specification: definitions *)

(** an even number of one bits among the low eight *)
Definition even_parity (i : Z) : bool :=
  negb (xorb (xorb (xorb (Z.testbit i 0) (Z.testbit i 1))
                   (xorb (Z.testbit i 2) (Z.testbit i 3)))
             (xorb (xorb (Z.testbit i 4) (Z.testbit i 5))
                   (xorb (Z.testbit i 6) (Z.testbit i 7)))).

Definition empty_tables : flag_tables :=
  mk_flag_tables zeros zeros zeros zeros zeros zeros zeros.

(** the five entries written for index [i] agree with their description *)
Definition small_entry_matches (i : Z) : bool :=
  let t := small_body i empty_tables in
  let sz := flag_bit (Z.testbit i 7) SF + flag_bit (i =? 0) ZF
            + flag_bit (Z.testbit i 5) YF + flag_bit (Z.testbit i 3) XF in
  (SZ t i =? sz) && (SZ_BIT t i =? sz + flag_bit (i =? 0) PF)
  && (SZP t i =? sz + flag_bit (even_parity i) PF).

(** the entries of INC and DEC for the operand [a] agree with the direct
    recomputation of adding and subtracting one, the carry left out *)
Definition inc_dec_entry_matches (a : Z) : bool :=
  let ri := (a + 1) mod 256 in
  let rd := (a - 1) mod 256 in
  (SZHV_inc (small_body ri empty_tables) ri =? Z.land (direct_add_flags a 1 0) (Z.lnot CF))
  && (SZHV_dec (small_body rd empty_tables) rd =? Z.land (direct_sub_flags a 1 0) (Z.lnot CF)).

(** the input lines of [m_iol], the ones [z180_write_iolines] takes over *)
Definition Z180_INPUT_LINES : Z :=
  Z.lor Z180_CKA0 (Z.lor Z180_CKA1 (Z.lor Z180_CKS (Z.lor Z180_CTS0 (Z.lor Z180_CTS1
    (Z.lor Z180_DCD0 (Z.lor Z180_DREQ0 (Z.lor Z180_DREQ1 (Z.lor Z180_RXA0
      (Z.lor Z180_RXA1 Z180_RXS))))))))).

(** bit positions of the input lines, in the order of the code *)
Definition input_line_bits : list Z := [0; 1; 2; 8; 9; 10; 11; 12; 13; 14; 15].

(** the successive conditional updates of [z180_write_iolines] on the
    value of [m_iol] *)
Definition merge_lines (js : list Z) (changes data v : Z) : Z :=
  fold_left (fun v j =>
    if Z.testbit changes j
    then Z.lor (Z.land v (Z.lnot (2 ^ j))) (Z.land data (2 ^ j))
    else v) js v.

(** sequencing of fallible steps *)
Definition and_then {A B : Type} (o : option A) (f : A -> option B) : option B :=
  match o with
  | Some a => f a
  | None => None
  end.

(** ** Internal registers *)

(** ports whose register holds a written byte as it is and returns it on a
    read (the MMU registers apart) *)
Definition plain_ports : list Z :=
  [0x00; 0x01; 0x02; 0x03; 0x06; 0x07; 0x08; 0x09; 0x0b; 0x0e; 0x0f; 0x16; 0x17;
   0x1a; 0x1b; 0x1c; 0x1d; 0x1f; 0x20; 0x21; 0x23; 0x24; 0x26; 0x27; 0x28; 0x29;
   0x2b; 0x2c; 0x2e; 0x2f; 0x32].

(** ports without a register *)
Definition absent_ports : list Z := [0x11; 0x19; 0x35; 0x37; 0x3b; 0x3c; 0x3d].

(** the remapping of [remap_port] for a base field [base]: register [r] is
    reached at port [r] and at port [base + r] *)
Definition remap_with (base port : Z) : Z :=
  if Z.land port base =? base then port - base else port.

Definition window_alias_ok (base r : Z) : bool :=
  (remap_with base r =? r) && (remap_with base (base + r) =? r).

(** the ports at which a read counts towards resetting TIF0 *)
Definition timer0_read_ports : list Z := [0x0c; 0x0d; 0x10].

(** ** Timers *)

(** [s'] differs from [s0] in its pending flags at most by timer interrupts,
    and not at all while interrupts are disabled or an EI has just been
    executed *)
Definition prt_only (s0 s' : z180_device) : Prop :=
  m_IFF1 s' = m_IFF1 s0 /\ m_after_EI s' = m_after_EI s0 /\
  (forall j, j <> Z180_INT_PRT0 -> j <> Z180_INT_PRT1 ->
     m_int_pending s' j = m_int_pending s0 j) /\
  (nz (m_IFF1 s0) && negb (nz (m_after_EI s0)) = false ->
   m_int_pending s' = m_int_pending s0).

(** timer 0 as left alone by a timer clock while it is stopped *)
Definition stopped0 (v0 v : timer_view) : Prop :=
  tv_tmdr0 v = tv_tmdr0 v0 /\ Z.testbit (tv_tcr v) 0 = false /\
  Z.testbit (tv_tcr v) 6 = Z.testbit (tv_tcr v0) 6.

Definition stopped1 (v0 v : timer_view) : Prop :=
  tv_tmdr1 v = tv_tmdr1 v0 /\ Z.testbit (tv_tcr v) 1 = false /\
  Z.testbit (tv_tcr v) 7 = Z.testbit (tv_tcr v0) 7.

(** ** DMA *)

(** the selections of DMODE for which a pass of channel 0 moves nothing:
    the reserved ones, and those with an I/O end while DREQ0 is low *)
Definition dma0_idles (s : z180_device) : bool :=
  let sel := Z.land (m_dmode s) (Z.lor Z180_DMODE_SM Z180_DMODE_DM) in
  existsb (Z.eqb sel) [0x28; 0x2c; 0x38; 0x3c]
  || (existsb (Z.eqb sel) [0x0c; 0x1c; 0x30; 0x34] && (Z.land (m_iol s) Z180_DREQ0 =? 0)).

(** what an idle pass of channel 0 leaves alone *)
Definition idle_view (s : z180_device) :=
  (m_program s, m_iospace s, m_io_trace s, m_dma_sar0 s, m_dma_dar0 s,
   m_dstat s, m_int_pending s, m_dmode s, m_dcntl s, m_iol s, m_dma_bcr s).

(** channel 1 is requested and enabled *)
Definition dma1_active (s : z180_device) : bool :=
  nz (Z.land (m_iol s) Z180_DREQ1) && nz (Z.land (m_dstat s) Z180_DSTAT_DE1).

(** ** Execution *)

(** members outside the reach of the timers, beside those of
    [timers_view] *)
Definition regs_view (s : z180_device) :=
  (m_R s, m_R2 s, m_PREPC s, m_frc s, m_extra_cycles s).

(** one pass of the loop of [execute_burn] *)
Definition burn_pass (extra_cycles : Z) (s : z180_device) : z180_device :=
  let s := handle_io_timers (3 + extra_cycles) s in
  let s := s <| m_R := u8 (m_R s + 1) |> in
  s <| m_icount := m_icount s - (3 + extra_cycles) |>.

(** one pass of the instruction loop of [execute_run] while the processor
    is halted and no interrupt is taken *)
Definition halt_pass (s : z180_device) : z180_device :=
  let s := account 0 s in
  let s := s <| m_after_EI := 0 |> in
  let s := s <| m_PREPC := m_PC s |> in
  account 3 s.

(** halted, interrupts disabled, no DMA running, nothing pending *)
Definition halted_idle (s : z180_device) : Prop :=
  nz (m_HALT s) = true /\ nz (m_IFF1 s) = false /\
  (Z.land (m_dstat s) Z180_DSTAT_DME =? Z180_DSTAT_DME) = false /\
  (forall j, 0 <= j <= Z180_INT_MAX -> m_int_pending s j = 0).

(** a halted processor at 0x0100 with 10 T-states to run *)
Definition halted_at_0x100 : z180_device :=
  z180_device_ctor <| m_HALT := 1 |> <| m_PC := 0x0100 |> <| m_icount := 10 |>.

(** timer 0 running with reload value 5, its counter at zero *)
Definition timer0_running_5 : z180_device :=
  z180_device_ctor <| m_tcr := 0x01 |> <| m_rldr := upd zeros 0 5 |>.

(** ** Frames *)

(** what a register write leaves alone: the processor registers and flags,
    the memory, the pending interrupts, the I/O lines and the timers'
    divider and read toggles *)
Definition cpu_view (s : z180_device) :=
  (m_PREPC s, m_PC s, m_SP s, m_AF s, m_BC s, m_DE s, m_HL s, m_IX s, m_IY s,
   m_R s, m_IFF1 s, m_IFF2 s, m_HALT s, m_IM s, m_I s,
   m_program s, m_int_pending s, m_nmi_pending s, m_irq_state s, m_iol s,
   m_icount s, m_timer_cnt s, m_read_tcr_tmdr s, m_tmdr_latch s, m_frc s).

(** what a reset leaves alone: memory and I/O space, the two address
    registers of DMA channel 0, the memory address register of channel 1
    and both count registers, the timers' reload registers and the bytes
    last written to their data registers ([m_tmdr]; the counters
    themselves are [m_tmdr_value]), the ASCI data and time constant
    registers, the CSIO data register, the FRC and the cycle count *)
Definition reset_kept_view (s : z180_device) :=
  (m_program s, m_iospace s, m_io_trace s, m_dma_sar0 s, m_dma_dar0 s, m_dma_mar1 s,
   m_dma_bcr s, m_rldr s, m_tmdr s, m_asci_tdr s, m_asci_rdr s, m_asci_tc s,
   m_csio_trdr s, m_frc s, m_icount s, m_extra_cycles s).

(** ** DMA channel 0: transfers with an I/O end, and a count of 65536 *)

(** the selections of DMODE that move a byte from an I/O port to memory,
    with the increment of the memory address *)
Definition io_to_mem_step (sel : Z) : option Z :=
  match sel with
  | 0x0c => Some 1
  | 0x1c => Some (-1)
  | _ => None
  end.

(** the selections that move a byte from memory to an I/O port, with the
    increment of the memory address *)
Definition mem_to_io_step (sel : Z) : option Z :=
  match sel with
  | 0x30 => Some 1
  | 0x34 => Some (-1)
  | _ => None
  end.

(** members the transfer logic of channel 0 goes by *)
Definition dma0_ctl_view (s : z180_device) :=
  (m_dmode s, m_dcntl s, m_iol s, m_dstat s, m_IFF1 s, m_int_pending s).

(** What a burst of channel 0 entered with a count register of 0 leaves
    behind when it has moved [k] units and returns [r] for the budget
    [max_cycles]: the register holds 65536 - [k] in its 16 bits; short of
    65536 units the burst has stopped on its budget, and the channel is as
    it was, enabled, with nothing queued and TEND0 as before; at 65536
    units the channel is at its terminal count, DE0 clear, TEND0 low, the
    DMA0 interrupt queued if DIE0 and IFF1 were set. *)
Definition counted_from_65536 (k max_cycles : Z) (s : z180_device)
    (r : Z * z180_device) : Prop :=
  let s' := snd r in
  m_dma_bcr s' 0 = u16 (65536 - k) /\
  (k < 65536 ->
   max_cycles < fst r /\ m_dstat s' = m_dstat s /\ m_iol s' = m_iol s /\
   m_int_pending s' = m_int_pending s) /\
  (k = 65536 ->
   Z.land (m_dstat s') Z180_DSTAT_DE0 = 0 /\ get_tend0 s' = false /\
   forall j, m_int_pending s' j
     = if (j =? Z180_INT_DMA0) && nz (Z.land (m_dstat s) Z180_DSTAT_DIE0)
          && nz (m_IFF1 s)
       then 1 else m_int_pending s j).

Section Dma0Pass.
Variable memory_wait_states : z180_device -> Z.
Variable IN : Z -> z180_device -> Z * z180_device.
Variable OUT : Z -> Z -> z180_device -> z180_device.

(** one pass of the loop of [z180_dma0], on the locals and the state
    together *)
Definition dma0_pass (x : dma0_locals * z180_device) : dma0_locals * z180_device :=
  dma0_body memory_wait_states IN OUT (fst x) (snd x).

(** ** The end of a burst of channel 0, as the specification words it *)

(** After the dispatch the remaining count is 0, the transfer-end output
    TEND0 is asserted and the enable bit DE0 is clear. *)
Definition burst_ends_with_tend0_asserted (max_cycles : Z) (s : z180_device) : bool :=
  let s' := snd (z180_dma0 memory_wait_states IN OUT max_cycles s) in
  (m_dma_bcr s' 0 =? 0) && get_tend0 s'
  && negb (nz (Z.land (m_dstat s') Z180_DSTAT_DE0)).
End Dma0Pass.

(** channel 0 armed in cycle steal mode with a count register of 0, port
    0x40 to memory at 0x2000 up, DREQ0 asserted *)
Definition dma0_io_setup : z180_device :=
  (dma0_steal_setup 0)
    <| m_dma_sar0 := 0x40 |> <| m_dmode := 0x0c |> <| m_iol := Z180_DREQ0 |>.

(** the same for a burst *)
Definition dma0_io_burst_setup : z180_device :=
  dma0_io_setup <| m_dmode := Z.lor 0x0c Z180_DMODE_MMOD |>.

(** * Proof support *)

Lemma keeps_refl {A} (f : z180_device -> A) s : keeps f s s.
Proof. reflexivity. Qed.

Lemma keeps_trans {A} (f : z180_device -> A) s1 s2 s3 :
  keeps f s1 s2 -> keeps f s2 s3 -> keeps f s1 s3.
Proof. unfold keeps. congruence. Qed.

(** Walks a chain of [let s := ... in ...] and [if]s, keeping the relation
    [R s0] to the initial state as the only fact about each intermediate
    state. *)
Ltac frame_walk leaf :=
  lazymatch goal with
  | |- ?R ?s0 (let x := ?e in @?b x) =>
      lazymatch type of e with
      | z180_device =>
          let H := fresh "H" in
          let y := fresh "s" in
          assert (H : R s0 e);
          [ frame_walk leaf
          | change (R s0 (b e)); revert H; generalize e; intros y H; cbv beta;
            frame_walk leaf ]
      | _ => change (R s0 (b e)); cbv beta; frame_walk leaf
      end
  | |- ?R ?s0 (if ?c then _ else _) => destruct c; frame_walk leaf
  | |- _ => leaf
  end.

Ltac keeps_leaf :=
  first [ assumption
        | apply keeps_refl
        | unfold keeps in *; cbn; first [reflexivity | assumption] ].

Lemma clock_timers_frame s : keeps timers_view s (clock_timers s).
Proof. cbv beta delta [clock_timers]. frame_walk keeps_leaf. Qed.

Lemma handle_io_timers_frame n s : keeps timers_view s (handle_io_timers n s).
Proof.
  unfold handle_io_timers. induction (Z.to_nat n) as [|k IH]; cbn [Nat.iter].
  - apply keeps_refl.
  - eapply keeps_trans; [exact IH | apply clock_timers_frame].
Qed.

Lemma write_iolines_nmi data s : keeps m_nmi_pending s (z180_write_iolines data s).
Proof.
  cbv beta delta [z180_write_iolines write_ioline]. frame_walk keeps_leaf.
Qed.

(** Names the intermediate states of a chain of [let]s in [H : s' = ...],
    one equation each, so that members can be read back through them. *)
Ltac name_lets H :=
  lazymatch type of H with
  | ?s' = (let x := ?e in @?b x) =>
      let y := fresh "s" in
      let E := fresh "E" in
      let X := fresh "X" in
      assert (X : exists y0, y0 = e /\ s' = b y0)
        by (exists e; split; [reflexivity | exact H]);
      clear H; destruct X as (y & E & H); cbv beta in H;
      name_lets E; name_lets H
  | _ => idtac
  end.

Lemma upd_same a i v : upd a i v i = v.
Proof. unfold upd. rewrite Z.eqb_refl. reflexivity. Qed.

Create Rewrite HintDb z180_rw.
#[export] Hint Rewrite upd_same : z180_rw.

Ltac chase :=
  repeat match goal with
         | E : ?y = _ |- context [?y] =>
             is_var y; rewrite E; z180_cbn; autorewrite with z180_rw
         end.

(** Reads members of [f s] off the [let]-chain that defines [f]. *)
Ltac by_chain f :=
  intros;
  match goal with
  | |- context [f ?s] =>
      let s' := fresh "s'" in
      let H := fresh "H" in
      let X := fresh "X" in
      assert (X : exists y0, y0 = f s) by (eexists; reflexivity);
      destruct X as (s' & H); rewrite <- !H;
      cbv beta delta [f] in H; name_lets H;
      repeat split; rewrite H; z180_cbn; autorewrite with z180_rw; chase;
      try reflexivity
  end.

Lemma nz_false x : nz x = false -> x = 0.
Proof. unfold nz. destruct (Z.eqb_spec x 0); [auto | discriminate]. Qed.

Lemma land_clear_mask x m : Z.land (Z.land x (Z.lnot m)) m = 0.
Proof.
  rewrite <- Z.land_assoc, (Z.land_comm (Z.lnot m)), Z.land_lnot_diag.
  apply Z.land_0_r.
Qed.

Lemma LEAVE_HALT_halt s : m_HALT (LEAVE_HALT s) = 0.
Proof.
  unfold LEAVE_HALT. destruct (nz (m_HALT s)) eqn:E; [reflexivity|].
  apply nz_false; exact E.
Qed.

Lemma PUSH_PC_kept (s : z180_device) :
  m_HALT (PUSH_PC s) = m_HALT s /\ m_dstat (PUSH_PC s) = m_dstat s /\
  m_IFF1 (PUSH_PC s) = m_IFF1 s /\ m_IFF2 (PUSH_PC s) = m_IFF2 s /\
  m_PC (PUSH_PC s) = m_PC s /\ m_nmi_pending (PUSH_PC s) = m_nmi_pending s /\
  m_icount (PUSH_PC s) = m_icount s /\ m_mmu (PUSH_PC s) = m_mmu s.
Proof. unfold program_write_byte. by_chain PUSH_PC. Qed.

Lemma PUSH_PC_pushed (s : z180_device) :
  let sp := u16 (_SP s - 2) in
  m_SP (PUSH_PC s) = pair_set_w_l sp (m_SP s) /\
  m_program (PUSH_PC s)
  = upd (upd (m_program s) (Z.land (MMU_REMAP_ADDR s sp) 0xfffff) (pair_b_l (m_PC s)))
      (Z.land (MMU_REMAP_ADDR s (u16 (sp + 1))) 0xfffff) (pair_b_h (m_PC s)).
Proof. unfold program_write_byte, MMU_REMAP_ADDR. cbv zeta. by_chain PUSH_PC. Qed.

Lemma PUSH_PC_HALT s : m_HALT (PUSH_PC s) = m_HALT s.
Proof. apply PUSH_PC_kept. Qed.
Lemma PUSH_PC_dstat s : m_dstat (PUSH_PC s) = m_dstat s.
Proof. apply PUSH_PC_kept. Qed.
Lemma PUSH_PC_IFF1 s : m_IFF1 (PUSH_PC s) = m_IFF1 s.
Proof. apply PUSH_PC_kept. Qed.
Lemma PUSH_PC_IFF2 s : m_IFF2 (PUSH_PC s) = m_IFF2 s.
Proof. apply PUSH_PC_kept. Qed.
Lemma PUSH_PC_PC s : m_PC (PUSH_PC s) = m_PC s.
Proof. apply PUSH_PC_kept. Qed.
Lemma PUSH_PC_nmi_pending s : m_nmi_pending (PUSH_PC s) = m_nmi_pending s.
Proof. apply PUSH_PC_kept. Qed.
Lemma PUSH_PC_icount s : m_icount (PUSH_PC s) = m_icount s.
Proof. apply PUSH_PC_kept. Qed.
Lemma PUSH_PC_mmu s : m_mmu (PUSH_PC s) = m_mmu s.
Proof. apply PUSH_PC_kept. Qed.
Lemma PUSH_PC_SP s : m_SP (PUSH_PC s) = pair_set_w_l (u16 (_SP s - 2)) (m_SP s).
Proof. apply PUSH_PC_pushed. Qed.
Lemma PUSH_PC_program s :
  m_program (PUSH_PC s)
  = upd (upd (m_program s) (Z.land (MMU_REMAP_ADDR s (u16 (_SP s - 2))) 0xfffff)
           (pair_b_l (m_PC s)))
      (Z.land (MMU_REMAP_ADDR s (u16 (u16 (_SP s - 2) + 1))) 0xfffff) (pair_b_h (m_PC s)).
Proof. apply PUSH_PC_pushed. Qed.

#[export] Hint Rewrite PUSH_PC_HALT PUSH_PC_dstat PUSH_PC_IFF1 PUSH_PC_IFF2 PUSH_PC_PC
  PUSH_PC_nmi_pending PUSH_PC_icount PUSH_PC_mmu PUSH_PC_SP PUSH_PC_program : z180_rw.

(** the state left by [nmi_entry], member by member *)
Lemma nmi_entry_view (s : z180_device) :
  let s1 := LEAVE_HALT s in
  let sp := u16 (_SP s1 - 2) in
  let s' := nmi_entry s in
  m_HALT s' = m_HALT s1 /\
  m_dstat s' = Z.land (m_dstat s1) (Z.lnot Z180_DSTAT_DME) /\
  m_IFF2 s' = m_IFF1 s1 /\
  m_IFF1 s' = 0 /\
  m_SP s' = pair_set_w_l sp (m_SP s1) /\
  m_program s'
    = upd (upd (m_program s1) (Z.land (MMU_REMAP_ADDR s1 sp) 0xfffff) (pair_b_l (m_PC s1)))
        (Z.land (MMU_REMAP_ADDR s1 (u16 (sp + 1))) 0xfffff) (pair_b_h (m_PC s1)) /\
  m_PC s' = 0x0066 /\
  m_nmi_pending s' = 0 /\
  m_icount s' = m_icount s1 - 11.
Proof.
  intros s1 sp s'. subst s' sp s1.
  unfold MMU_REMAP_ADDR, _SP.
  by_chain nmi_entry.
  all: unfold MMU_REMAP_ADDR, _SP; chase; reflexivity.
Qed.

Lemma timers_view_kept s s' :
  keeps timers_view s s' ->
  m_HALT s' = m_HALT s /\ m_dstat s' = m_dstat s /\ m_IFF1 s' = m_IFF1 s /\
  m_IFF2 s' = m_IFF2 s /\ m_PC s' = m_PC s /\ m_SP s' = m_SP s /\
  m_program s' = m_program s /\ m_nmi_pending s' = m_nmi_pending s /\
  m_icount s' = m_icount s /\ m_mmu s' = m_mmu s /\ m_rldr s' = m_rldr s /\
  m_after_EI s' = m_after_EI s /\ m_iocr s' = m_iocr s /\ m_iol s' = m_iol s.
Proof.
  intros F. unfold keeps, timers_view in F.
  injection F as F1 F2 F3 F4 F5 F6 F7 F8 F9 F10 F11 F12 F13 F14 _.
  repeat split; assumption.
Qed.

Lemma land_pow2 x k :
  0 <= k -> Z.land x (2 ^ k) = if Z.testbit x k then 2 ^ k else 0.
Proof.
  intros Hk. apply Z.bits_inj'; intros n Hn.
  rewrite Z.land_spec, Z.pow2_bits_eqb by exact Hk.
  destruct (Z.eqb_spec k n) as [->|Hne].
  - rewrite andb_true_r. destruct (Z.testbit x n) eqn:E.
    + rewrite Z.pow2_bits_true by exact Hn. reflexivity.
    + rewrite Z.testbit_0_l. reflexivity.
  - rewrite andb_false_r. destruct (Z.testbit x k).
    + rewrite Z.pow2_bits_false by congruence. reflexivity.
    + rewrite Z.testbit_0_l. reflexivity.
Qed.

Lemma nz_land_pow2 x k : 0 <= k -> nz (Z.land x (2 ^ k)) = Z.testbit x k.
Proof.
  intros Hk. rewrite land_pow2 by exact Hk. unfold nz.
  destruct (Z.testbit x k); [|reflexivity].
  assert (0 < 2 ^ k) by (apply Z.pow_pos_nonneg; lia).
  destruct (Z.eqb_spec (2 ^ k) 0); [lia | reflexivity].
Qed.

(** a single-bit mask tested as a C condition *)
Lemma nz_bit x m k : m = 2 ^ k -> 0 <= k -> nz (Z.land x m) = Z.testbit x k.
Proof. intros ->. apply nz_land_pow2. Qed.

Lemma land_bit_eqb x m k :
  m = 2 ^ k -> 0 <= k -> (Z.land x m =? m) = Z.testbit x k.
Proof.
  intros -> Hk. rewrite land_pow2 by exact Hk.
  assert (0 < 2 ^ k) by (apply Z.pow_pos_nonneg; lia).
  destruct (Z.testbit x k).
  - apply Z.eqb_refl.
  - apply Z.eqb_neq. lia.
Qed.

Lemma u16_small x : 0 <= x < 65536 -> u16 x = x.
Proof. intros H. unfold u16. apply Z.mod_small. lia. Qed.

Lemma u8_small d : 0 <= d < 256 -> u8 d = d.
Proof. intros H. unfold u8. apply Z.mod_small; lia. Qed.

(** ** Small facts *)

Lemma nz_true x : nz x = true -> x <> 0.
Proof. unfold nz. destruct (Z.eqb_spec x 0); [discriminate | auto]. Qed.

Lemma nz_zero x : x = 0 -> nz x = false.
Proof. intros ->. reflexivity. Qed.

Lemma upd_eq a i v j : j = i -> upd a i v j = v.
Proof. intros ->. unfold upd. rewrite Z.eqb_refl. reflexivity. Qed.

Lemma upd_other a i v j : j <> i -> upd a i v j = a j.
Proof. intros H. unfold upd. destruct (Z.eqb_spec j i); congruence. Qed.

Lemma upd_read a i v j : upd a i v j = if j =? i then v else a j.
Proof. reflexivity. Qed.

Ltac case_ifs :=
  repeat match goal with
         | |- context [if ?c then _ else _] =>
             lazymatch c with true => fail | false => fail | _ => destruct c end
         end.

Lemma clock_timers_view (s : z180_device) :
  view_of (clock_timers s) = clock_view (view_of s).
Proof.
  cbv beta delta [clock_timers clock_view view_of]. cbv zeta.
  z180_cbn. cbn [tv_cnt tv_tcr tv_tmdr0 tv_tmdr1 tv_rldr0 tv_rldr1].
  destruct (m_timer_cnt s + 1 >=? 20); [|reflexivity].
  repeat (z180_cbn; cbv beta iota delta [upd]; cbn [Z.eqb Pos.eqb];
          match goal with
          | |- context [if ?c then _ else _] =>
              lazymatch c with
              | context [if _ then _ else _] => fail
              | _ => destruct c
              end
          end);
    z180_cbn; cbv beta iota delta [upd]; cbn [Z.eqb Pos.eqb]; reflexivity.
Qed.

Lemma iter_view (n : nat) (s : z180_device) :
  view_of (Nat.iter n clock_timers s) = Nat.iter n clock_view (view_of s).
Proof.
  induction n as [|n IH]; [reflexivity|].
  rewrite !Nat.iter_succ, clock_timers_view, IH. reflexivity.
Qed.

Lemma clock_view_idle (n : nat) (c tcr t0 t1 r0 r1 : Z) :
  c + Z.of_nat n < 20 ->
  Nat.iter n clock_view (mk_tv c tcr t0 t1 r0 r1)
  = mk_tv (c + Z.of_nat n) tcr t0 t1 r0 r1.
Proof.
  induction n as [|n IH]; intros H.
  - change (Nat.iter 0 clock_view ?x) with x. f_equal. lia.
  - rewrite Nat.iter_succ, IH by lia.
    unfold clock_view. cbn [tv_cnt tv_tcr tv_tmdr0 tv_tmdr1 tv_rldr0 tv_rldr1].
    destruct (Z.geb_spec (c + Z.of_nat n + 1) 20); [lia|].
    f_equal. lia.
Qed.

(** twenty T-states from a cleared divider: one timer clock *)
Lemma tick_view (tcr t0 t1 r0 r1 : Z) :
  Nat.iter 20 clock_view (mk_tv 0 tcr t0 t1 r0 r1)
  = clock_view (mk_tv 19 tcr t0 t1 r0 r1).
Proof.
  change 20%nat with (S 19). rewrite Nat.iter_succ.
  rewrite (clock_view_idle 19) by (cbn; lia). reflexivity.
Qed.

Lemma iter_mul {A} (f : A -> A) (n m : nat) (x : A) :
  Nat.iter (n * m) f x = Nat.iter n (Nat.iter m f) x.
Proof.
  induction n as [|n IH]; [reflexivity|].
  cbn [Nat.mul]. rewrite Nat.iter_add, Nat.iter_succ, IH. reflexivity.
Qed.

Lemma handle_io_timers_ticks (k : Z) (s : z180_device) :
  0 <= k ->
  handle_io_timers (20 * k) s = Nat.iter (Z.to_nat k) (Nat.iter 20 clock_timers) s.
Proof.
  intros Hk. unfold handle_io_timers.
  replace (Z.to_nat (20 * k)) with (Z.to_nat k * 20)%nat by lia.
  apply iter_mul.
Qed.

Lemma testbit_lor_const x m k :
  Z.testbit (Z.lor x m) k = Z.testbit x k || Z.testbit m k.
Proof. apply Z.lor_spec. Qed.

(** one timer clock, seen from timer 0 *)
Lemma tick_timer0 (v : timer_view) :
  tv_cnt v = 0 ->
  let v' := Nat.iter 20 clock_view v in
  tv_cnt v' = 0 /\ tv_rldr0 v' = tv_rldr0 v /\
  Z.testbit (tv_tcr v') 0 = Z.testbit (tv_tcr v) 0 /\
  (Z.testbit (tv_tcr v) 0 = true ->
   (tv_tmdr0 v = 0 -> tv_tmdr0 v' = tv_rldr0 v /\ Z.testbit (tv_tcr v') 6 = true) /\
   (tv_tmdr0 v <> 0 ->
    tv_tmdr0 v' = u16 (tv_tmdr0 v - 1) /\
    Z.testbit (tv_tcr v') 6 = Z.testbit (tv_tcr v) 6)).
Proof.
  destruct v as [c tcr t0 t1 r0 r1]. cbn [tv_cnt tv_tcr tv_tmdr0 tv_rldr0].
  intros ->. cbv zeta. rewrite tick_view. unfold clock_view.
  cbn [tv_cnt tv_tcr tv_tmdr0 tv_tmdr1 tv_rldr0 tv_rldr1].
  change (19 + 1 >=? 20) with true. cbv iota.
  rewrite (nz_bit tcr Z180_TCR_TDE0 0) by (reflexivity || lia).
  destruct (Z.testbit tcr 0) eqn:B0; destruct (Z.eqb_spec t0 0) as [E0|E0];
    cbv iota beta.
  all: match goal with
       | |- context [nz (Z.land ?x Z180_TCR_TDE1)] =>
           destruct (nz (Z.land x Z180_TCR_TDE1)); destruct (t1 =? 0)
       end.
  all: cbn [tv_cnt tv_tcr tv_tmdr0 tv_rldr0].
  all: rewrite ?testbit_lor_const.
  all: change (Z.testbit Z180_TCR_TIF0 0) with false;
       change (Z.testbit Z180_TCR_TIF1 0) with false;
       change (Z.testbit Z180_TCR_TIF0 6) with true;
       change (Z.testbit Z180_TCR_TIF1 6) with false.
  all: rewrite ?orb_false_r, ?orb_true_r, ?B0.
  all: repeat split; try reflexivity; try congruence; intros; try congruence.
  all: repeat split; try reflexivity; try congruence.
Qed.

Section Dma.
Variable memory_wait_states : z180_device -> Z.
Variable IN : Z -> z180_device -> Z * z180_device.
Variable OUT : Z -> Z -> z180_device -> z180_device.

Local Abbreviation dma0_switch := (dma0_switch memory_wait_states IN OUT).
Local Abbreviation dma0_body := (dma0_body memory_wait_states IN OUT).
Local Abbreviation dma0_loop := (dma0_loop memory_wait_states IN OUT).
Local Abbreviation z180_dma0 := (z180_dma0 memory_wait_states IN OUT).
Local Abbreviation dma0_mem_to_mem := (dma0_mem_to_mem memory_wait_states).

Lemma dma0_switch_mem (l : dma0_locals) (s : z180_device) (ss ds : Z) :
  mem_to_mem_steps (Z.land (m_dmode s) (Z.lor Z180_DMODE_SM Z180_DMODE_DM)) = Some (ss, ds) ->
  dma0_switch l s = dma0_mem_to_mem ss ds l s.
Proof.
  unfold Z180.dma0_switch, mem_to_mem_steps.
  generalize (Z.land (m_dmode s) (Z.lor Z180_DMODE_SM Z180_DMODE_DM)). intros sel.
  destruct sel as [|p|p]; [ | | discriminate ];
    repeat (try discriminate; try (intros [= <- <-]; reflexivity);
            try (destruct p as [p|p|])).
Qed.

(** one pass of the loop in a memory to memory mode *)
Lemma dma0_body_mem (l : dma0_locals) (s : z180_device) (ss ds : Z) :
  mem_to_mem_steps (Z.land (m_dmode s) (Z.lor Z180_DMODE_SM Z180_DMODE_DM)) = Some (ss, ds) ->
  let l' := fst (dma0_body l s) in
  let s' := snd (dma0_body l s) in
  sar0 l' = u32 (sar0 l + ss) /\ dar0 l' = u32 (dar0 l + ds) /\
  bcr0 l' = bcr0 l - 1 /\ count l' = count l - 1 /\
  cycles l' = cycles l + memory_wait_states s' * 2 + 6 /\
  m_program s'
  = upd (m_program s) (Z.land (dar0 l) 0xfffff) (m_program s (Z.land (sar0 l) 0xfffff)) /\
  m_iol s' = (if bcr0 l =? 1 then Z.lor (m_iol s) Z180_TEND0 else m_iol s) /\
  keeps dma_view s s'.
Proof.
  intros Hm. cbv zeta. cbv beta delta [Z180.dma0_body]. cbv zeta.
  rewrite (dma0_switch_mem _ _ ss ds)
    by (destruct (bcr0 l =? 1); z180_cbn; exact Hm).
  unfold Z180.dma0_mem_to_mem, program_write_byte, program_read_byte, keeps, dma_view.
  cbn [fst snd sar0 dar0 bcr0 count cycles].
  destruct (bcr0 l =? 1); z180_cbn; repeat split; lia.
Qed.

Lemma dma_view_kept s s' :
  keeps dma_view s s' ->
  m_dmode s' = m_dmode s /\ m_dstat s' = m_dstat s /\ m_IFF1 s' = m_IFF1 s /\
  m_int_pending s' = m_int_pending s /\ m_dma_bcr s' = m_dma_bcr s /\
  m_dcntl s' = m_dcntl s /\ m_iocr s' = m_iocr s /\ m_iospace s' = m_iospace s /\
  m_io_trace s' = m_io_trace s.
Proof.
  intros F. unfold keeps, dma_view in F.
  injection F as F1 F2 F3 F4 F5 F6 F7 F8 F9 F10 F11.
  repeat split; assumption.
Qed.

Variables (W max_cycles ss ds : Z).
Hypothesis Hwait : forall t, memory_wait_states t <= W.
Hypothesis HW : 0 <= W.

(** [n] passes of the loop in a memory to memory mode, the budget
    allowing: [n] bytes copied *)
Lemma dma0_loop_mem (n : nat) :
  forall (fuel : nat) (l : dma0_locals) (s : z180_device),
  (n <= fuel)%nat ->
  count l = Z.of_nat n ->
  mem_to_mem_steps (Z.land (m_dmode s) (Z.lor Z180_DMODE_SM Z180_DMODE_DM)) = Some (ss, ds) ->
  cycles l + (Z.of_nat n - 1) * (2 * W + 6) <= max_cycles ->
  let l' := fst (dma0_loop fuel max_cycles l s) in
  let s' := snd (dma0_loop fuel max_cycles l s) in
  sar0 l' = step_addr n (sar0 l) ss /\ dar0 l' = step_addr n (dar0 l) ds /\
  bcr0 l' = bcr0 l - Z.of_nat n /\
  m_program s' = copy_bytes n (sar0 l) (dar0 l) ss ds (m_program s) /\
  m_iol s' = (if (1 <=? bcr0 l) && (bcr0 l <=? Z.of_nat n)
              then Z.lor (m_iol s) Z180_TEND0 else m_iol s) /\
  keeps dma_view s s'.
Proof.
  induction n as [|n IH]; intros fuel l s Hf Hc Hm Hb; cbv zeta.
  - destruct fuel; cbn [Z180.dma0_loop];
      rewrite ?Hc; cbn [Z.of_nat Z.gtb Z.compare fst snd step_addr copy_bytes].
    all: replace ((1 <=? bcr0 l) && (bcr0 l <=? 0)) with false
      by (symmetry; apply andb_false_iff; destruct (Z.leb_spec 1 (bcr0 l)); [right|left];
          [apply Z.leb_gt; lia | reflexivity]).
    all: repeat split; try lia; apply keeps_refl.
  - destruct fuel as [|fuel]; [lia|].
    cbn [Z180.dma0_loop].
    replace (count l >? 0) with true by (symmetry; apply Z.gtb_lt; lia).
    pose proof (dma0_body_mem l s ss ds Hm) as B. cbv zeta in B.
    destruct (dma0_body l s) as [l1 s1]. cbn [fst snd] in B.
    destruct B as (B1 & B2 & B3 & B4 & B5 & B6 & B7 & B8).
    destruct (dma_view_kept _ _ B8) as (K1 & _).
    assert (Hm1 : mem_to_mem_steps
                    (Z.land (m_dmode s1) (Z.lor Z180_DMODE_SM Z180_DMODE_DM)) = Some (ss, ds))
      by (rewrite K1; exact Hm).
    assert (Hc1 : count l1 = Z.of_nat n) by lia.
    pose proof (Hwait s1) as Hw1.
    assert (Hb1 : cycles l1 + (Z.of_nat n - 1) * (2 * W + 6) <= max_cycles) by nia.
    assert (Hpost :
      let l' := fst (dma0_loop fuel max_cycles l1 s1) in
      let s' := snd (dma0_loop fuel max_cycles l1 s1) in
      sar0 l' = step_addr (S n) (sar0 l) ss /\ dar0 l' = step_addr (S n) (dar0 l) ds /\
      bcr0 l' = bcr0 l - Z.of_nat (S n) /\
      m_program s' = copy_bytes (S n) (sar0 l) (dar0 l) ss ds (m_program s) /\
      m_iol s' = (if (1 <=? bcr0 l) && (bcr0 l <=? Z.of_nat (S n))
                  then Z.lor (m_iol s) Z180_TEND0 else m_iol s) /\
      keeps dma_view s s').
    { specialize (IH fuel l1 s1 ltac:(lia) Hc1 Hm1 Hb1). cbv zeta in IH |- *.
      destruct IH as (I1 & I2 & I3 & I4 & I5 & I6).
      cbn [step_addr copy_bytes]. rewrite I1, I2, I3, I4, I5, B1, B2, B3, B6, B7.
      repeat split; try lia.
      - destruct (Z.eqb_spec (bcr0 l) 1) as [E|E].
        + rewrite E. cbn [Z.leb Z.compare andb].
          replace (1 - 1 <=? Z.of_nat n) with true by (symmetry; apply Z.leb_le; lia).
          cbn [andb].
          replace (1 <=? Z.of_nat (S n)) with true by (symmetry; apply Z.leb_le; lia).
          reflexivity.
        + destruct (Z.leb_spec 1 (bcr0 l - 1)); destruct (Z.leb_spec (bcr0 l - 1) (Z.of_nat n));
          destruct (Z.leb_spec 1 (bcr0 l)); destruct (Z.leb_spec (bcr0 l) (Z.of_nat (S n)));
          cbn [andb]; try reflexivity; lia.
      - eapply keeps_trans; eassumption. }
    destruct (Z.gtb_spec (cycles l1) max_cycles) as [Hbreak|Hcont].
    + (* the budget is spent: only after the last byte *)
      assert (n = 0)%nat.
      { destruct n as [|n']; [reflexivity|exfalso].
        assert (0 <= Z.of_nat n' * (2 * W + 6)) by (apply Z.mul_nonneg_nonneg; lia).
        lia. }
      subst n.
      cbv zeta in Hpost. destruct fuel; cbn [Z180.dma0_loop] in Hpost;
        rewrite ?Hc1 in Hpost; cbn [Z.of_nat Z.gtb Z.compare fst snd] in Hpost;
        cbn [fst snd]; exact Hpost.
    + exact Hpost.
Qed.
End Dma.

Lemma land_keep_other_bit x m k :
  Z.land m k = 0 -> Z.land (Z.land x (Z.lnot m)) k = Z.land x k.
Proof.
  intros H. rewrite <- Z.land_assoc. f_equal.
  apply Z.bits_inj'; intros n Hn.
  rewrite Z.land_spec, Z.lnot_spec by lia.
  assert (B : Z.testbit (Z.land m k) n = false) by (rewrite H; apply Z.testbit_0_l).
  rewrite Z.land_spec in B.
  destruct (Z.testbit m n), (Z.testbit k n); try reflexivity; discriminate.
Qed.

Lemma land_lor_mask x m : Z.land (Z.lor x m) m = m.
Proof.
  apply Z.bits_inj'; intros n Hn. rewrite Z.land_spec, Z.lor_spec.
  destruct (Z.testbit x n), (Z.testbit m n); reflexivity.
Qed.

Section Dma0.
Variable memory_wait_states : z180_device -> Z.
Variable IN : Z -> z180_device -> Z * z180_device.
Variable OUT : Z -> Z -> z180_device -> z180_device.

Local Abbreviation dma0_loop := (dma0_loop memory_wait_states IN OUT).
Local Abbreviation z180_dma0 := (z180_dma0 memory_wait_states IN OUT).

(** the statements after the loop, at terminal count *)
Lemma dma0_exit_terminal (l : dma0_locals) (s : z180_device) :
  bcr0 l = 0 ->
  let s' := snd (dma0_exit l s) in
  fst (dma0_exit l s) = cycles l /\
  m_dma_sar0 s' = sar0 l /\ m_dma_dar0 s' = dar0 l /\ m_dma_bcr s' 0 = 0 /\
  Z.land (m_iol s') Z180_TEND0 = 0 /\
  Z.land (m_dstat s') Z180_DSTAT_DE0 = 0 /\
  m_program s' = m_program s /\
  (forall j, m_int_pending s' j
     = if (j =? Z180_INT_DMA0) && nz (Z.land (m_dstat s) Z180_DSTAT_DIE0) && nz (m_IFF1 s)
       then 1 else m_int_pending s j).
Proof.
  intros Hb. cbv zeta. cbv beta delta [dma0_exit]. rewrite Hb.
  change (0 =? 0) with true. cbv iota zeta. z180_cbn.
  rewrite (land_keep_other_bit (m_dstat s) Z180_DSTAT_DE0 Z180_DSTAT_DIE0) by reflexivity.
  destruct (nz (Z.land (m_dstat s) Z180_DSTAT_DIE0) && nz (m_IFF1 s)) eqn:E;
    cbn [fst snd]; z180_cbn; rewrite ?upd_same.
  all: repeat split; try reflexivity; try apply land_clear_mask.
  all: intros j; rewrite ?andb_true_r, ?andb_false_r.
  all: try (rewrite <- andb_assoc, E, ?andb_true_r, ?andb_false_r).
  all: cbv beta delta [upd]; reflexivity.
Qed.

(** the statements after the loop, bytes remaining *)
Lemma dma0_exit_remaining (l : dma0_locals) (s : z180_device) :
  bcr0 l <> 0 ->
  dma0_exit l s
  = (cycles l,
     s <| m_dma_sar0 := sar0 l |> <| m_dma_dar0 := dar0 l |>
       <| m_dma_bcr := upd (m_dma_bcr s) 0 (u16 (bcr0 l)) |>).
Proof.
  intros Hb. cbv beta delta [dma0_exit].
  replace (bcr0 l =? 0) with false by (symmetry; apply Z.eqb_neq; exact Hb).
  reflexivity.
Qed.

Variables (W max_cycles ss ds : Z).
Hypothesis Hwait : forall t, memory_wait_states t <= W.
Hypothesis HW : 0 <= W.

(** burst mode, memory to memory: the whole count in one dispatch *)
Lemma dma0_burst_all (s : z180_device) (N : Z) :
  0 <= m_dma_bcr s 0 < 65536 ->
  N = (if m_dma_bcr s 0 =? 0 then 0x10000 else m_dma_bcr s 0) ->
  (N - 1) * (2 * W + 6) <= max_cycles ->
  nz (Z.land (m_dstat s) Z180_DSTAT_DE0) = true ->
  nz (Z.land (m_dmode s) Z180_DMODE_MMOD) = true ->
  mem_to_mem_steps (Z.land (m_dmode s) (Z.lor Z180_DMODE_SM Z180_DMODE_DM)) = Some (ss, ds) ->
  let n := Z.to_nat N in
  let s' := snd (z180_dma0 max_cycles s) in
  let sl := snd (dma0_loop n max_cycles (dma0_entry s) s) in
  m_program s' = copy_bytes n (m_dma_sar0 s) (m_dma_dar0 s) ss ds (m_program s) /\
  m_dma_sar0 s' = step_addr n (m_dma_sar0 s) ss /\
  m_dma_dar0 s' = step_addr n (m_dma_dar0 s) ds /\
  m_dma_bcr s' 0 = 0 /\
  Z.land (m_iol sl) Z180_TEND0 = Z180_TEND0 /\
  Z.land (m_iol s') Z180_TEND0 = 0 /\
  Z.land (m_dstat s') Z180_DSTAT_DE0 = 0 /\
  (forall j, m_int_pending s' j
     = if (j =? Z180_INT_DMA0) && nz (Z.land (m_dstat s) Z180_DSTAT_DIE0) && nz (m_IFF1 s)
       then 1 else m_int_pending s j).
Proof.
  intros Hr HN Hbud Hde Hmm Hm. cbv zeta.
  assert (HNr : 1 <= N <= 65536) by (destruct (Z.eqb_spec (m_dma_bcr s 0) 0); lia).
  assert (El : dma0_entry s = mk_dma0 (m_dma_sar0 s) (m_dma_dar0 s) N N 0).
  { unfold dma0_entry. cbv zeta. rewrite Hmm, <- HN. reflexivity. }
  unfold Z180.z180_dma0. cbv zeta. rewrite Hde. cbn [negb]. rewrite El.
  cbn [count].
  pose proof (dma0_loop_mem memory_wait_states IN OUT W max_cycles ss ds Hwait HW
                (Z.to_nat N) (Z.to_nat N) (mk_dma0 (m_dma_sar0 s) (m_dma_dar0 s) N N 0) s
                ltac:(lia) ltac:(cbn [count]; lia) Hm
                ltac:(cbn [cycles]; rewrite Z2Nat.id by lia; lia)) as L.
  cbv zeta in L. cbn [sar0 dar0 bcr0] in L.
  destruct (dma0_loop (Z.to_nat N) max_cycles
              (mk_dma0 (m_dma_sar0 s) (m_dma_dar0 s) N N 0) s) as [l1 s1].
  cbn [fst snd] in L |- *.
  destruct L as (L1 & L2 & L3 & L4 & L5 & L6).
  rewrite Z2Nat.id in L3, L5 by lia.
  replace ((1 <=? N) && (N <=? N)) with true in L5
    by (symmetry; apply andb_true_iff; split; apply Z.leb_le; lia).
  destruct (dma_view_kept _ _ L6) as (K1 & K2 & K3 & K4 & _).
  assert (Hb : bcr0 l1 = 0) by lia.
  pose proof (dma0_exit_terminal l1 s1 Hb) as X. cbv zeta in X.
  destruct X as (_ & X1 & X2 & X3 & X4 & X5 & X6 & X7).
  rewrite X1, X2, X3, X4, X5, X6, L1, L2, L4, L5, land_lor_mask.
  repeat split. intros j. rewrite X7, K2, K3, K4. reflexivity.
Qed.

(** cycle steal mode, memory to memory, not the last byte: one byte per
    dispatch, the channel stays armed *)
Lemma dma0_cycle_steal (s : z180_device) (N : Z) :
  0 <= m_dma_bcr s 0 < 65536 ->
  N = (if m_dma_bcr s 0 =? 0 then 0x10000 else m_dma_bcr s 0) ->
  N <> 1 ->
  nz (Z.land (m_dstat s) Z180_DSTAT_DE0) = true ->
  nz (Z.land (m_dmode s) Z180_DMODE_MMOD) = false ->
  mem_to_mem_steps (Z.land (m_dmode s) (Z.lor Z180_DMODE_SM Z180_DMODE_DM)) = Some (ss, ds) ->
  let s' := snd (z180_dma0 max_cycles s) in
  m_program s' = copy_bytes 1 (m_dma_sar0 s) (m_dma_dar0 s) ss ds (m_program s) /\
  m_dma_sar0 s' = step_addr 1 (m_dma_sar0 s) ss /\
  m_dma_dar0 s' = step_addr 1 (m_dma_dar0 s) ds /\
  m_dma_bcr s' 0 = N - 1 /\
  m_iol s' = m_iol s /\ m_dstat s' = m_dstat s /\ m_int_pending s' = m_int_pending s.
Proof.
  intros Hr HN Hn1 Hde Hmm Hm. cbv zeta.
  assert (HNr : 2 <= N <= 65536) by (destruct (Z.eqb_spec (m_dma_bcr s 0) 0); lia).
  assert (El : dma0_entry s = mk_dma0 (m_dma_sar0 s) (m_dma_dar0 s) N 1 0).
  { unfold dma0_entry. cbv zeta. rewrite Hmm, <- HN. reflexivity. }
  unfold Z180.z180_dma0. cbv zeta. rewrite Hde. cbn [negb]. rewrite El.
  cbn [count]. change (Z.to_nat 1) with 1%nat.
  cbn [Z180.dma0_loop count]. change (1 >? 0) with true. cbv iota.
  pose proof (dma0_body_mem memory_wait_states IN OUT
                (mk_dma0 (m_dma_sar0 s) (m_dma_dar0 s) N 1 0) s ss ds Hm) as B.
  cbv zeta in B. cbn [sar0 dar0 bcr0 count cycles] in B.
  destruct (Z180.dma0_body memory_wait_states IN OUT
              (mk_dma0 (m_dma_sar0 s) (m_dma_dar0 s) N 1 0) s) as [l1 s1].
  cbn [fst snd] in B.
  destruct B as (B1 & B2 & B3 & B4 & B5 & B6 & B7 & B8).
  replace (N =? 1) with false in B7 by (symmetry; apply Z.eqb_neq; lia).
  destruct (dma_view_kept _ _ B8) as (K1 & K2 & K3 & K4 & K5 & _).
  destruct (cycles l1 >? max_cycles); cbv iota.
  all: rewrite dma0_exit_remaining by lia; cbn [snd]; z180_cbn.
  all: rewrite upd_same, B1, B2, B3, B6, B7, K2, K4, u16_small by lia.
  all: repeat split.
Qed.
End Dma0.

Lemma land_3_range x : 0 <= Z.land x 3 < 4.
Proof.
  change 3 with (Z.ones 2). rewrite Z.land_ones by lia. apply Z.mod_pos_bound. lia.
Qed.

Section Dma1.
Variable memory_wait_states : z180_device -> Z.

Local Abbreviation z180_dma1 := (z180_dma1 memory_wait_states).

(** channel 1 entered with a count register of zero: one unit is moved and
    the channel stays armed *)
Lemma dma1_count_zero (s : z180_device) :
  m_dma_bcr s 1 = 0 ->
  nz (Z.land (m_iol s) Z180_DREQ1) = true ->
  nz (Z.land (m_dstat s) Z180_DSTAT_DE1) = true ->
  let s' := snd (z180_dma1 s) in
  let mar1 := m_dma_mar1 s in
  let iar1 := pair_w_l (m_dma_iar1 s) in
  let mode := Z.land (m_dcntl s) (Z.lor Z180_DCNTL_DIM1 Z180_DCNTL_DIM0) in
  m_dstat s' = m_dstat s /\
  m_int_pending s' = m_int_pending s /\
  Z.land (m_iol s') Z180_TEND1 = Z.land (m_iol s) Z180_TEND1 /\
  m_dma_bcr s' 1 = 0 /\
  (mode < 2 ->
   m_io_trace s' = IoWrite iar1 (m_program s (Z.land mar1 0xfffff)) :: m_io_trace s /\
   m_iospace s' = upd (m_iospace s) (Z.land iar1 0xffff) (m_program s (Z.land mar1 0xfffff)) /\
   m_program s' = m_program s) /\
  (2 <= mode ->
   m_io_trace s' = IoRead iar1 :: m_io_trace s /\
   m_iospace s' = m_iospace s /\
   m_program s' = upd (m_program s) (Z.land mar1 0xfffff) (m_iospace s (Z.land iar1 0xffff))) /\
  m_dma_mar1 s' = u32 (mar1 + (if Z.testbit mode 0 then -1 else 1)).
Proof.
  intros Hb Hq He. cbv zeta.
  pose proof (land_3_range (m_dcntl s)) as Hm.
  cbv beta delta [Z180.z180_dma1]. rewrite Hb. cbv zeta.
  change (0 =? 0) with true. cbv iota.
  change (65536 =? 1) with false. change (65536 =? 0) with false. cbv iota.
  replace (Z.land (m_iol s) Z180_DREQ1 =? 0) with false
    by (symmetry; apply Z.eqb_neq; intros Z0; rewrite Z0 in Hq; discriminate Hq).
  rewrite He. cbn [negb]. cbv iota. z180_cbn.
  change (Z.lor Z180_DCNTL_DIM1 Z180_DCNTL_DIM0) with 3 in *.
  assert (C : Z.land (m_dcntl s) 3 = 0 \/ Z.land (m_dcntl s) 3 = 1 \/
              Z.land (m_dcntl s) 3 = 2 \/ Z.land (m_dcntl s) 3 = 3) by lia.
  destruct C as [C|[C|[C|C]]]; rewrite C; cbv iota beta;
    unfold io_write_byte, io_read_byte, program_write_byte, program_read_byte;
    z180_cbn; cbv iota beta; z180_cbn.
  all: destruct (nz (Z.land (m_dcntl s) Z180_DCNTL_DIM1)); cbn [snd]; z180_cbn.
  all: rewrite ?upd_same.
  all: rewrite ?(land_keep_other_bit (m_iol s) Z180_DREQ1 Z180_TEND1) by reflexivity.
  all: repeat split; try reflexivity; intros; try lia; repeat split; reflexivity.
Qed.
End Dma1.

(** * Bytes of the register pairs *)

Lemma byte_high_zero d n : 0 <= d < 256 -> 8 <= n -> Z.testbit d n = false.
Proof.
  intros Hd Hn. destruct (Z.eq_dec d 0) as [->|Hz]; [apply Z.testbit_0_l|].
  apply Z.bits_above_log2; [lia|].
  assert (Z.log2 d < 8); [|lia].
  apply Z.log2_lt_pow2; lia.
Qed.

Lemma pair16_b_h_set d w : 0 <= d < 256 -> pair_b_h (pair16_set_b_h d w) = d.
Proof.
  intros Hd. unfold pair_b_h, pair16_set_b_h. rewrite u8_small by exact Hd.
  apply Z.bits_inj'; intros n Hn.
  rewrite Z.land_spec, Z.shiftr_spec, Z.lor_spec, Z.land_spec, Z.shiftl_spec by lia.
  replace (n + 8 - 8) with n by lia.
  change 0xff with (Z.ones 8).
  rewrite !Z.testbit_ones_nonneg by lia.
  destruct (Z.ltb_spec n 8).
  - replace (n + 8 <? 8) with false by (symmetry; apply Z.ltb_ge; lia).
    rewrite andb_false_r, andb_true_r. reflexivity.
  - rewrite andb_false_r. symmetry. apply byte_high_zero; lia.
Qed.

Lemma land_byte (d : Z) : 0 <= d < 256 -> Z.land d 0xff = d.
Proof.
  intros H. change 0xff with (Z.ones 8). rewrite Z.land_ones by lia.
  apply Z.mod_small. lia.
Qed.

Lemma pair_b_l_set16 (d w : Z) : 0 <= d < 256 -> pair_b_l (pair16_set_b_l d w) = d.
Proof.
  intros H. unfold pair_b_l, pair16_set_b_l. rewrite u8_small by exact H.
  rewrite Z.land_lor_distr_l, <- Z.land_assoc.
  change (Z.land 0xff00 0xff) with 0. rewrite Z.land_0_r, land_byte by exact H.
  reflexivity.
Qed.

Lemma pair_b_l_set32 (d x : Z) : 0 <= d < 256 -> pair_b_l (pair_set_b_l d x) = d.
Proof.
  intros H. unfold pair_b_l, pair_set_b_l. rewrite u8_small by exact H.
  rewrite Z.land_lor_distr_l, land_clear_mask, land_byte by exact H.
  reflexivity.
Qed.

Lemma pair_b_h_set32 (d x : Z) : 0 <= d < 256 -> pair_b_h (pair_set_b_h d x) = d.
Proof.
  intros H. unfold pair_b_h, pair_set_b_h. rewrite u8_small by exact H.
  rewrite Z.shiftr_lor, Z.shiftr_land, Z.shiftr_shiftl_l by lia.
  change (Z.shiftr (Z.lnot 0xff00) 8) with (Z.lnot 0xff).
  change (Z.shiftl d (8 - 8)) with (Z.shiftl d 0). rewrite Z.shiftl_0_r.
  rewrite Z.land_lor_distr_l, land_clear_mask, land_byte by exact H.
  reflexivity.
Qed.

(** * The register bank behind the window *)

Lemma remap_port_iocr (s t : z180_device) (port : Z) :
  m_iocr t = m_iocr s -> remap_port t port = remap_port s port.
Proof. intros H. unfold remap_port. rewrite H. reflexivity. Qed.

(** a byte written to a plain register of the bank is read back from the
    bank, whatever the external space holds by then *)
Lemma bank_round_trip (s : z180_device) (port d : Z) (m : array) :
  0 <= d < 256 ->
  In (remap_port s port) plain_ports ->
  fst (z180_readcontrol port ((z180_writecontrol port d s) <| m_iospace := m |>)) = d.
Proof.
  intros Hd Hin.
  unfold z180_readcontrol, z180_writecontrol, io_read_byte, io_write_byte. cbv zeta.
  match goal with
  | |- context [writecontrol_switch (remap_port ?t port) d ?t] =>
      rewrite (remap_port_iocr s t port) by reflexivity
  end.
  remember (remap_port s port) as r eqn:Er.
  cbn [In plain_ports] in Hin.
  repeat (destruct Hin as [<- | Hin]); [..|destruct Hin].
  all: cbv beta iota zeta delta [writecontrol_switch].
  all: match goal with
       | |- context [readcontrol_switch (remap_port ?t ?p) _ _] =>
           rewrite (remap_port_iocr s t p) by reflexivity
       end.
  all: rewrite <- Er.
  all: cbv beta iota zeta delta [readcontrol_switch].
  all: cbn [fst]; z180_cbn; rewrite ?upd_same.
  all: first [ reflexivity
             | apply pair_b_l_set16; exact Hd | apply pair16_b_h_set; exact Hd
             | apply pair_b_l_set32; exact Hd | apply pair_b_h_set32; exact Hd ].
Qed.

(** a port without a register: the read returns 0xFF, the write is the
    external one alone *)
Lemma bank_absent (s : z180_device) (port d : Z) :
  In (remap_port s port) absent_ports ->
  fst (z180_readcontrol port s) = 0xff /\
  z180_writecontrol port d s = io_write_byte port d s.
Proof.
  intros Hin.
  unfold z180_readcontrol, z180_writecontrol, io_read_byte. cbv zeta.
  rewrite (remap_port_iocr s (io_write_byte port d s) port) by reflexivity.
  rewrite (remap_port_iocr s (s <| m_io_trace := IoRead port :: m_io_trace s |>) port)
    by reflexivity.
  remember (remap_port s port) as r eqn:Er.
  cbn [In absent_ports] in Hin.
  repeat (destruct Hin as [<- | Hin]); [..|destruct Hin].
  all: split; reflexivity.
Qed.

(** * The loop of [z180_dma0], pass by pass *)

Lemma land_lor_other_bit x m k : Z.land m k = 0 -> Z.land (Z.lor x m) k = Z.land x k.
Proof.
  intros H. rewrite Z.land_lor_distr_l, H. apply Z.lor_0_r.
Qed.

Lemma step_addr_iter (k : nat) (a step : Z) :
  Nat.iter k (fun x => u32 (x + step)) a = step_addr k a step.
Proof.
  revert a. induction k as [|k IH]; intros a; [reflexivity|].
  rewrite Nat.iter_succ_r. cbn [step_addr]. apply IH.
Qed.

Lemma iter_id {A : Type} (k : nat) (a : A) : Nat.iter k (fun x => x) a = a.
Proof. induction k as [|k IH]; [reflexivity|]. rewrite Nat.iter_succ. exact IH. Qed.

Section DmaPasses.
Variable memory_wait_states : z180_device -> Z.
Variable IN : Z -> z180_device -> Z * z180_device.
Variable OUT : Z -> Z -> z180_device -> z180_device.

Local Abbreviation dma0_switch := (dma0_switch memory_wait_states IN OUT).
Local Abbreviation dma0_body := (dma0_body memory_wait_states IN OUT).
Local Abbreviation dma0_loop := (dma0_loop memory_wait_states IN OUT).
Local Abbreviation z180_dma0 := (z180_dma0 memory_wait_states IN OUT).
Local Abbreviation dma0_pass := (dma0_pass memory_wait_states IN OUT).
Local Abbreviation dma0_io_to_mem := (dma0_io_to_mem memory_wait_states IN).
Local Abbreviation dma0_mem_to_io := (dma0_mem_to_io memory_wait_states OUT).

(** The loop makes at least one pass and stops short of [n] passes only
    on its budget, as long as every pass takes one off [count]. *)
Lemma dma0_loop_passes (Inv : dma0_locals -> z180_device -> Prop) (max_cycles : Z) :
  (forall l s, Inv l s ->
     Inv (fst (dma0_body l s)) (snd (dma0_body l s)) /\
     count (fst (dma0_body l s)) = count l - 1) ->
  forall (n fuel : nat) (l : dma0_locals) (s : z180_device),
  Inv l s -> count l = Z.of_nat n -> (1 <= n)%nat -> (n <= fuel)%nat ->
  exists k : nat, (1 <= k <= n)%nat /\
    dma0_loop fuel max_cycles l s = Nat.iter k dma0_pass (l, s) /\
    ((k < n)%nat -> max_cycles < cycles (fst (Nat.iter k dma0_pass (l, s)))).
Proof.
  intros Hstep. induction n as [|n IH]; intros fuel l s Hi Hc Hn Hf; [lia|].
  destruct fuel as [|fuel]; [lia|].
  cbn [Z180.dma0_loop].
  replace (count l >? 0) with true by (symmetry; apply Z.gtb_lt; lia).
  destruct (Hstep l s Hi) as [Hi1 Hc1].
  assert (Ep : dma0_pass (l, s) = dma0_body l s) by reflexivity.
  destruct (dma0_body l s) as [l1 s1]. cbn [fst snd] in Hi1, Hc1.
  destruct (Z.gtb_spec (cycles l1) max_cycles) as [Hbreak | Hcont].
  - exists 1%nat. rewrite Nat.iter_succ_r, Ep. cbn [Nat.iter nat_rect fst].
    repeat split; try lia.
  - destruct n as [|n].
    + exists 1%nat. rewrite Nat.iter_succ_r, Ep. cbn [Nat.iter nat_rect fst].
      split; [lia|]. split; [|lia].
      destruct fuel; cbn [Z180.dma0_loop]; [reflexivity|].
      replace (count l1 >? 0) with false by (symmetry; rewrite Z.gtb_ltb; apply Z.ltb_ge; lia).
      reflexivity.
    + destruct (IH fuel l1 s1 Hi1 ltac:(lia) ltac:(lia) ltac:(lia)) as (k & Hk & E & Hs).
      exists (S k). rewrite Nat.iter_succ_r, Ep.
      split; [lia|]. split; [exact E|]. intros Hlt. apply Hs. lia.
Qed.

(** ** Memory to memory *)

Section Mem.
Variables (W ss ds : Z).
Hypothesis Hwait : forall t, memory_wait_states t <= W.

Lemma dma0_passes_mem (k : nat) :
  forall (l : dma0_locals) (s : z180_device),
  mem_to_mem_steps (Z.land (m_dmode s) (Z.lor Z180_DMODE_SM Z180_DMODE_DM)) = Some (ss, ds) ->
  let r := Nat.iter k dma0_pass (l, s) in
  sar0 (fst r) = step_addr k (sar0 l) ss /\ dar0 (fst r) = step_addr k (dar0 l) ds /\
  bcr0 (fst r) = bcr0 l - Z.of_nat k /\
  cycles (fst r) <= cycles l + Z.of_nat k * (2 * W + 6) /\
  m_program (snd r) = copy_bytes k (sar0 l) (dar0 l) ss ds (m_program s) /\
  m_iol (snd r) = (if (1 <=? bcr0 l) && (bcr0 l <=? Z.of_nat k)
                   then Z.lor (m_iol s) Z180_TEND0 else m_iol s) /\
  keeps dma_view s (snd r).
Proof.
  induction k as [|k IH]; intros l s Hm; cbv zeta.
  - cbn [Nat.iter nat_rect fst snd step_addr copy_bytes Z.of_nat].
    replace ((1 <=? bcr0 l) && (bcr0 l <=? 0)) with false
      by (symmetry; apply andb_false_iff; destruct (Z.leb_spec 1 (bcr0 l)); [right|left];
          [apply Z.leb_gt; lia | reflexivity]).
    repeat split; try lia; try apply keeps_refl.
  - rewrite Nat.iter_succ_r.
    change (dma0_pass (l, s)) with (dma0_body l s).
    pose proof (dma0_body_mem memory_wait_states IN OUT l s ss ds Hm) as B. cbv zeta in B.
    destruct (dma0_body l s) as [l1 s1]. cbn [fst snd] in B.
    destruct B as (B1 & B2 & B3 & B4 & B5 & B6 & B7 & B8).
    destruct (dma_view_kept _ _ B8) as (K1 & _).
    assert (Hm1 : mem_to_mem_steps
                    (Z.land (m_dmode s1) (Z.lor Z180_DMODE_SM Z180_DMODE_DM)) = Some (ss, ds))
      by (rewrite K1; exact Hm).
    specialize (IH l1 s1 Hm1). cbv zeta in IH.
    destruct IH as (I1 & I2 & I3 & I4 & I5 & I6 & I7).
    pose proof (Hwait s1) as Hw1.
    cbn [step_addr copy_bytes]. rewrite I1, I2, I3, I5, I6, B1, B2, B3, B6, B7.
    repeat split; try lia.
    + destruct (Z.eqb_spec (bcr0 l) 1) as [E|E].
      * rewrite E. cbn [Z.leb Z.compare andb].
        replace (1 - 1 <=? Z.of_nat k) with true by (symmetry; apply Z.leb_le; lia).
        cbn [andb].
        replace (1 <=? Z.of_nat (S k)) with true by (symmetry; apply Z.leb_le; lia).
        reflexivity.
      * destruct (Z.leb_spec 1 (bcr0 l - 1)); destruct (Z.leb_spec (bcr0 l - 1) (Z.of_nat k));
        destruct (Z.leb_spec 1 (bcr0 l)); destruct (Z.leb_spec (bcr0 l) (Z.of_nat (S k)));
        cbn [andb]; try reflexivity; lia.
    + eapply keeps_trans; eassumption.
Qed.
End Mem.
(** ** Passes that move one unit and leave the control members alone *)

Section Units.
Variables (fs fd : Z -> Z).
Variable Inv : dma0_locals -> z180_device -> Prop.
Hypothesis Hunit : forall l s, Inv l s ->
  Inv (fst (dma0_body l s)) (snd (dma0_body l s)) /\
  sar0 (fst (dma0_body l s)) = fs (sar0 l) /\
  dar0 (fst (dma0_body l s)) = fd (dar0 l) /\
  bcr0 (fst (dma0_body l s)) = bcr0 l - 1 /\
  count (fst (dma0_body l s)) = count l - 1 /\
  dma0_ctl_view (snd (dma0_body l s))
  = dma0_ctl_view (if bcr0 l =? 1 then s <| m_iol := Z.lor (m_iol s) Z180_TEND0 |> else s).

Lemma dma0_unit_step (l : dma0_locals) (s : z180_device) :
  Inv l s ->
  Inv (fst (dma0_body l s)) (snd (dma0_body l s)) /\
  count (fst (dma0_body l s)) = count l - 1.
Proof. intros H. destruct (Hunit l s H) as (H1 & _ & _ & _ & H5 & _). split; assumption. Qed.

Lemma dma0_passes_unit (k : nat) :
  forall (l : dma0_locals) (s : z180_device),
  Inv l s ->
  let r := Nat.iter k dma0_pass (l, s) in
  sar0 (fst r) = Nat.iter k fs (sar0 l) /\ dar0 (fst r) = Nat.iter k fd (dar0 l) /\
  bcr0 (fst r) = bcr0 l - Z.of_nat k /\
  m_dstat (snd r) = m_dstat s /\ m_IFF1 (snd r) = m_IFF1 s /\
  m_int_pending (snd r) = m_int_pending s /\
  m_iol (snd r) = (if (1 <=? bcr0 l) && (bcr0 l <=? Z.of_nat k)
                   then Z.lor (m_iol s) Z180_TEND0 else m_iol s).
Proof.
  induction k as [|k IH]; intros l s Hi; cbv zeta.
  - cbn [Nat.iter nat_rect fst snd Z.of_nat].
    replace ((1 <=? bcr0 l) && (bcr0 l <=? 0)) with false
      by (symmetry; apply andb_false_iff; destruct (Z.leb_spec 1 (bcr0 l)); [right|left];
          [apply Z.leb_gt; lia | reflexivity]).
    repeat split; lia.
  - rewrite !Nat.iter_succ_r.
    change (dma0_pass (l, s)) with (dma0_body l s).
    destruct (Hunit l s Hi) as (B0 & B1 & B2 & B3 & B4 & B5).
    destruct (dma0_body l s) as [l1 s1]. cbn [fst snd] in B0, B1, B2, B3, B4, B5.
    specialize (IH l1 s1 B0). cbv zeta in IH.
    destruct IH as (I1 & I2 & I3 & I4 & I5 & I6 & I7).
    assert (V : m_dstat s1 = m_dstat s /\ m_IFF1 s1 = m_IFF1 s /\
                m_int_pending s1 = m_int_pending s /\
                m_iol s1 = (if bcr0 l =? 1 then Z.lor (m_iol s) Z180_TEND0 else m_iol s)).
    { unfold dma0_ctl_view in B5. destruct (bcr0 l =? 1); z180_cbn_in B5;
        injection B5 as V1 V2 V3 V4 V5 V6; repeat split; assumption. }
    destruct V as (V1 & V2 & V3 & V4).
    rewrite I1, I2, I3, I4, I5, I6, I7, B1, B2, B3, V1, V2, V3, V4.
    repeat split; try lia.
    destruct (Z.eqb_spec (bcr0 l) 1) as [E|E].
    + rewrite E. cbn [Z.leb Z.compare andb].
      replace (1 - 1 <=? Z.of_nat k) with true by (symmetry; apply Z.leb_le; lia).
      cbn [andb].
      replace (1 <=? Z.of_nat (S k)) with true by (symmetry; apply Z.leb_le; lia).
      reflexivity.
    + destruct (Z.leb_spec 1 (bcr0 l - 1)); destruct (Z.leb_spec (bcr0 l - 1) (Z.of_nat k));
      destruct (Z.leb_spec 1 (bcr0 l)); destruct (Z.leb_spec (bcr0 l) (Z.of_nat (S k)));
      cbn [andb]; try reflexivity; lia.
Qed.
End Units.

(** ** An I/O port to memory, memory to an I/O port *)

Lemma dma0_switch_io_in (l : dma0_locals) (s : z180_device) (dstep : Z) :
  io_to_mem_step (Z.land (m_dmode s) (Z.lor Z180_DMODE_SM Z180_DMODE_DM)) = Some dstep ->
  dma0_switch l s = dma0_io_to_mem dstep l s.
Proof.
  unfold Z180.dma0_switch, io_to_mem_step.
  generalize (Z.land (m_dmode s) (Z.lor Z180_DMODE_SM Z180_DMODE_DM)). intros sel.
  destruct sel as [|p|p]; [ discriminate | | discriminate ];
    repeat (try discriminate; try (intros [= <-]; reflexivity);
            try (destruct p as [p|p|])).
Qed.

Lemma dma0_switch_io_out (l : dma0_locals) (s : z180_device) (sstep : Z) :
  mem_to_io_step (Z.land (m_dmode s) (Z.lor Z180_DMODE_SM Z180_DMODE_DM)) = Some sstep ->
  dma0_switch l s = dma0_mem_to_io sstep l s.
Proof.
  unfold Z180.dma0_switch, mem_to_io_step.
  generalize (Z.land (m_dmode s) (Z.lor Z180_DMODE_SM Z180_DMODE_DM)). intros sel.
  destruct sel as [|p|p]; [ discriminate | | discriminate ];
    repeat (try discriminate; try (intros [= <-]; reflexivity);
            try (destruct p as [p|p|])).
Qed.

Lemma dreq0_with_tend0 (x : Z) :
  Z.land (Z.lor x Z180_TEND0) Z180_DREQ0 = Z.land x Z180_DREQ0.
Proof. apply land_lor_other_bit. reflexivity. Qed.

(** one pass from an I/O port to memory, DREQ0 asserted *)
Lemma dma0_body_io_in (l : dma0_locals) (s : z180_device) (dstep : Z) :
  io_to_mem_step (Z.land (m_dmode s) (Z.lor Z180_DMODE_SM Z180_DMODE_DM)) = Some dstep ->
  nz (Z.land (m_iol s) Z180_DREQ0) = true ->
  let t0 := s <| m_extra_cycles := 0 |> in
  let t0 := if bcr0 l =? 1 then t0 <| m_iol := Z.lor (m_iol t0) Z180_TEND0 |> else t0 in
  let v := fst (IN (sar0 l) t0) in
  let t1 := program_write_byte (dar0 l) v (snd (IN (sar0 l) t0)) in
  let edge := nz (Z.land (m_dcntl t1) Z180_DCNTL_DMS0) in
  let t2 := if edge then t1 <| m_iol := Z.land (m_iol t1) (Z.lnot Z180_DREQ0) |> else t1 in
  dma0_body l s
  = (mk_dma0 (sar0 l) (u32 (dar0 l + dstep)) (bcr0 l - 1)
       ((if edge then 0 else count l) - 1)
       (cycles l + memory_wait_states t1 + (6 + m_extra_cycles t2)), t2).
Proof.
  intros Hm Hq. cbv zeta. cbv beta delta [Z180.dma0_body]. cbv zeta.
  rewrite (dma0_switch_io_in _ _ dstep) by (destruct (bcr0 l =? 1); z180_cbn; exact Hm).
  unfold Z180.dma0_io_to_mem.
  replace (nz (Z.land (m_iol (if bcr0 l =? 1
                              then (s <| m_extra_cycles := 0 |>)
                                     <| m_iol := Z.lor (m_iol (s <| m_extra_cycles := 0 |>))
                                                   Z180_TEND0 |>
                              else s <| m_extra_cycles := 0 |>)) Z180_DREQ0))
    with true
    by (destruct (bcr0 l =? 1); z180_cbn; rewrite ?dreq0_with_tend0; symmetry; exact Hq).
  destruct (IN (sar0 l) _) as [v t1]. cbn [fst snd].
  unfold dma0_dreq0_edge. cbn [sar0 dar0 bcr0 count cycles].
  destruct (nz (Z.land (m_dcntl (program_write_byte (dar0 l) v t1)) Z180_DCNTL_DMS0));
    cbn [sar0 dar0 bcr0 count cycles]; reflexivity.
Qed.

(** one pass from memory to an I/O port, DREQ0 asserted *)
Lemma dma0_body_io_out (l : dma0_locals) (s : z180_device) (sstep : Z) :
  mem_to_io_step (Z.land (m_dmode s) (Z.lor Z180_DMODE_SM Z180_DMODE_DM)) = Some sstep ->
  nz (Z.land (m_iol s) Z180_DREQ0) = true ->
  let t0 := s <| m_extra_cycles := 0 |> in
  let t0 := if bcr0 l =? 1 then t0 <| m_iol := Z.lor (m_iol t0) Z180_TEND0 |> else t0 in
  let t1 := OUT (dar0 l) (program_read_byte (sar0 l) t0) t0 in
  let edge := nz (Z.land (m_dcntl t1) Z180_DCNTL_DMS0) in
  let t2 := if edge then t1 <| m_iol := Z.land (m_iol t1) (Z.lnot Z180_DREQ0) |> else t1 in
  dma0_body l s
  = (mk_dma0 (u32 (sar0 l + sstep)) (dar0 l) (bcr0 l - 1)
       ((if edge then 0 else count l) - 1)
       (cycles l + memory_wait_states t1 + (6 + m_extra_cycles t2)), t2).
Proof.
  intros Hm Hq. cbv zeta. cbv beta delta [Z180.dma0_body]. cbv zeta.
  rewrite (dma0_switch_io_out _ _ sstep) by (destruct (bcr0 l =? 1); z180_cbn; exact Hm).
  unfold Z180.dma0_mem_to_io.
  replace (nz (Z.land (m_iol (if bcr0 l =? 1
                              then (s <| m_extra_cycles := 0 |>)
                                     <| m_iol := Z.lor (m_iol (s <| m_extra_cycles := 0 |>))
                                                   Z180_TEND0 |>
                              else s <| m_extra_cycles := 0 |>)) Z180_DREQ0))
    with true
    by (destruct (bcr0 l =? 1); z180_cbn; rewrite ?dreq0_with_tend0; symmetry; exact Hq).
  cbv zeta. unfold dma0_dreq0_edge. cbn [sar0 dar0 bcr0 count cycles].
  match goal with
  | |- context [nz (Z.land (m_dcntl ?t) Z180_DCNTL_DMS0)] =>
      destruct (nz (Z.land (m_dcntl t) Z180_DCNTL_DMS0))
  end; cbn [sar0 dar0 bcr0 count cycles]; reflexivity.
Qed.
(** ** Passes that move nothing *)

Lemma dma0_switch_idle (l : dma0_locals) (s : z180_device) :
  dma0_idles s = true -> dma0_switch l s = (l, s).
Proof.
  unfold dma0_idles, Z180.dma0_switch, dma0_io_to_mem, dma0_mem_to_io. cbv zeta.
  replace (nz (Z.land (m_iol s) Z180_DREQ0))
    with (negb (Z.land (m_iol s) Z180_DREQ0 =? 0)) by reflexivity.
  generalize (Z.land (m_dmode s) (Z.lor Z180_DMODE_SM Z180_DMODE_DM)). intros sel.
  destruct (Z.land (m_iol s) Z180_DREQ0 =? 0); cbn [negb];
    (destruct sel as [|p|p]; [ | | reflexivity ];
     repeat (try discriminate; try reflexivity; try (destruct p as [p|p|]))).
Qed.

Lemma dma0_body_idle (l : dma0_locals) (s : z180_device) :
  dma0_idles s = true -> bcr0 l <> 1 ->
  dma0_body l s
  = (mk_dma0 (sar0 l) (dar0 l) (bcr0 l) (count l - 1) (cycles l + (6 + 0)),
     s <| m_extra_cycles := 0 |>).
Proof.
  intros Hi Hb. cbv beta delta [Z180.dma0_body]. cbv zeta.
  replace (bcr0 l =? 1) with false by (symmetry; apply Z.eqb_neq; exact Hb).
  rewrite dma0_switch_idle by exact Hi. reflexivity.
Qed.

(** ** A dispatch entered with a count register of 0 *)

Lemma dma0_loop_done (fuel : nat) (max_cycles : Z) (l : dma0_locals) (s : z180_device) :
  count l <= 0 -> dma0_loop fuel max_cycles l s = (l, s).
Proof.
  intros H. destruct fuel; cbn [Z180.dma0_loop]; [reflexivity|].
  replace (count l >? 0) with false by (symmetry; rewrite Z.gtb_ltb; apply Z.ltb_ge; lia).
  reflexivity.
Qed.

Lemma dma0_entry_zero (s : z180_device) :
  m_dma_bcr s 0 = 0 ->
  dma0_entry s
  = mk_dma0 (m_dma_sar0 s) (m_dma_dar0 s) 65536
      (if nz (Z.land (m_dmode s) Z180_DMODE_MMOD) then 65536 else 1) 0.
Proof. intros H. unfold dma0_entry. rewrite H. reflexivity. Qed.

(** the first pass, and the loop after it *)
Lemma dma0_first_pass (max_cycles : Z) (s : z180_device) :
  m_dma_bcr s 0 = 0 ->
  nz (Z.land (m_dstat s) Z180_DSTAT_DE0) = true ->
  let cnt := if nz (Z.land (m_dmode s) Z180_DMODE_MMOD) then 65536 else 1 in
  let p := dma0_body (mk_dma0 (m_dma_sar0 s) (m_dma_dar0 s) 65536 cnt 0) s in
  z180_dma0 max_cycles s
  = (let '(l, t) := if cycles (fst p) >? max_cycles then p
                    else dma0_loop (Z.to_nat (cnt - 1)) max_cycles (fst p) (snd p) in
     dma0_exit l t).
Proof.
  intros Hb Hde. cbv zeta. unfold Z180.z180_dma0. cbv zeta.
  rewrite Hde. cbn [negb]. rewrite dma0_entry_zero by exact Hb. cbn [count].
  set (cnt := if nz (Z.land (m_dmode s) Z180_DMODE_MMOD) then 65536 else 1).
  assert (Hc : 1 <= cnt)
    by (subst cnt; destruct (nz (Z.land (m_dmode s) Z180_DMODE_MMOD)); lia).
  replace (Z.to_nat cnt) with (S (Z.to_nat (cnt - 1))) by lia.
  cbn [Z180.dma0_loop count].
  replace (cnt >? 0) with true by (symmetry; apply Z.gtb_lt; lia).
  destruct (dma0_body (mk_dma0 (m_dma_sar0 s) (m_dma_dar0 s) 65536 cnt 0) s) as [l1 t1].
  cbn [fst snd]. destruct (cycles l1 >? max_cycles); reflexivity.
Qed.

(** the statements after the loop, for a count that started at 65536 *)
Lemma dma0_exit_counted (K max_cycles : Z) (s : z180_device)
    (l1 : dma0_locals) (s1 : z180_device) :
  1 <= K <= 65536 ->
  bcr0 l1 = 65536 - K ->
  (K < 65536 -> max_cycles < cycles l1) ->
  m_dstat s1 = m_dstat s -> m_IFF1 s1 = m_IFF1 s -> m_int_pending s1 = m_int_pending s ->
  (K < 65536 -> m_iol s1 = m_iol s) ->
  counted_from_65536 K max_cycles s (dma0_exit l1 s1) /\
  m_dma_sar0 (snd (dma0_exit l1 s1)) = sar0 l1 /\
  m_dma_dar0 (snd (dma0_exit l1 s1)) = dar0 l1 /\
  m_program (snd (dma0_exit l1 s1)) = m_program s1.
Proof.
  intros HK Hb Hmax V1 V2 V3 V4. unfold counted_from_65536. cbv zeta.
  destruct (Z.eq_dec K 65536) as [E | E].
  - assert (Hb0 : bcr0 l1 = 0) by lia.
    pose proof (dma0_exit_terminal l1 s1 Hb0) as X. cbv zeta in X.
    destruct X as (_ & X1 & X2 & X3 & X4 & X5 & X6 & X7).
    rewrite X1, X2, X3, X6, E. change (u16 (65536 - 65536)) with 0.
    repeat split; try lia; try exact X5.
    + unfold get_tend0. rewrite X4. reflexivity.
    + intros j. rewrite X7, V1, V2, V3. reflexivity.
  - rewrite dma0_exit_remaining by lia. cbn [fst snd]. z180_cbn.
    rewrite upd_same, Hb, V1, V3.
    repeat split; try lia; try (apply V4; lia).
Qed.

Section Counted.
Variables (W max_cycles : Z).
Hypothesis Hwait : forall t, memory_wait_states t <= W.
Hypothesis HW : 0 <= W.

(** a memory to memory burst, whatever the budget *)
Lemma dma0_burst_mem_any (ss ds : Z) (s : z180_device) :
  m_dma_bcr s 0 = 0 ->
  nz (Z.land (m_dstat s) Z180_DSTAT_DE0) = true ->
  nz (Z.land (m_dmode s) Z180_DMODE_MMOD) = true ->
  mem_to_mem_steps (Z.land (m_dmode s) (Z.lor Z180_DMODE_SM Z180_DMODE_DM)) = Some (ss, ds) ->
  let r := z180_dma0 max_cycles s in
  exists k : Z, 1 <= k <= 65536 /\
    m_program (snd r)
    = copy_bytes (Z.to_nat k) (m_dma_sar0 s) (m_dma_dar0 s) ss ds (m_program s) /\
    m_dma_sar0 (snd r) = step_addr (Z.to_nat k) (m_dma_sar0 s) ss /\
    m_dma_dar0 (snd r) = step_addr (Z.to_nat k) (m_dma_dar0 s) ds /\
    counted_from_65536 k max_cycles s r /\
    (65535 * (2 * W + 6) <= max_cycles -> k = 65536).
Proof.
  intros Hb Hde Hmm Hm. cbv zeta.
  unfold Z180.z180_dma0. cbv zeta. rewrite Hde. cbn [negb].
  rewrite dma0_entry_zero by exact Hb. rewrite Hmm. cbn [count].
  set (l0 := mk_dma0 (m_dma_sar0 s) (m_dma_dar0 s) 65536 65536 0).
  destruct (dma0_loop_passes
              (fun _ t => mem_to_mem_steps
                            (Z.land (m_dmode t) (Z.lor Z180_DMODE_SM Z180_DMODE_DM))
                          = Some (ss, ds))
              max_cycles) with (n := Z.to_nat 65536) (fuel := Z.to_nat 65536)
              (l := l0) (s := s) as (k & Hk & E & Hs).
  { intros l t Ht.
    pose proof (dma0_body_mem memory_wait_states IN OUT l t ss ds Ht) as B. cbv zeta in B.
    destruct B as (_ & _ & _ & B4 & _ & _ & _ & B8).
    destruct (dma_view_kept _ _ B8) as (K1 & _).
    split; [rewrite K1; exact Ht | exact B4]. }
  { exact Hm. }
  { subst l0. cbn [count]. lia. }
  { lia. }
  { lia. }
  rewrite E.
  pose proof (dma0_passes_mem W ss ds Hwait k l0 s Hm) as P. cbv zeta in P.
  destruct (Nat.iter k dma0_pass (l0, s)) as [l1 s1]. cbn [fst snd] in P, Hs.
  subst l0. cbn [sar0 dar0 bcr0 cycles] in P.
  destruct P as (P1 & P2 & P3 & P4 & P5 & P6 & P7).
  destruct (dma_view_kept _ _ P7) as (K1 & K2 & K3 & K4 & _).
  assert (HK : 1 <= Z.of_nat k <= 65536) by lia.
  destruct (dma0_exit_counted (Z.of_nat k) max_cycles s l1 s1 HK P3) as (C1 & C2 & C3 & C4);
    try assumption.
  { intros Hlt. apply Hs. lia. }
  { intros Hlt. rewrite P6.
    replace ((1 <=? 65536) && (65536 <=? Z.of_nat k)) with false
      by (symmetry; apply andb_false_iff; right; apply Z.leb_gt; lia).
    reflexivity. }
  exists (Z.of_nat k). rewrite Nat2Z.id.
  split; [exact HK|]. split; [rewrite C4; exact P5|].
  split; [rewrite C2; exact P1|]. split; [rewrite C3; exact P2|].
  split; [exact C1|].
  intros Hbud.
  destruct (Z.eq_dec (Z.of_nat k) 65536) as [|Hne]; [assumption|exfalso].
  assert (Hlt : (k < Z.to_nat 65536)%nat) by lia.
  specialize (Hs Hlt).
  assert (Z.of_nat k * (2 * W + 6) <= 65535 * (2 * W + 6))
    by (apply Z.mul_le_mono_nonneg_r; lia).
  lia.
Qed.

(** a burst from an I/O port to memory, level sensitive, the handler of
    the port leaving the control members alone *)
Lemma dma0_burst_io_in_any (dstep : Z) (s : z180_device) :
  m_dma_bcr s 0 = 0 ->
  nz (Z.land (m_dstat s) Z180_DSTAT_DE0) = true ->
  nz (Z.land (m_dmode s) Z180_DMODE_MMOD) = true ->
  io_to_mem_step (Z.land (m_dmode s) (Z.lor Z180_DMODE_SM Z180_DMODE_DM)) = Some dstep ->
  nz (Z.land (m_iol s) Z180_DREQ0) = true ->
  nz (Z.land (m_dcntl s) Z180_DCNTL_DMS0) = false ->
  (forall t, keeps dma0_ctl_view t (snd (IN (m_dma_sar0 s) t))) ->
  let r := z180_dma0 max_cycles s in
  exists k : Z, 1 <= k <= 65536 /\
    m_dma_sar0 (snd r) = m_dma_sar0 s /\
    m_dma_dar0 (snd r) = step_addr (Z.to_nat k) (m_dma_dar0 s) dstep /\
    counted_from_65536 k max_cycles s r.
Proof.
  intros Hb Hde Hmm Hm Hq Hlv Hfr. cbv zeta.
  unfold Z180.z180_dma0. cbv zeta. rewrite Hde. cbn [negb].
  rewrite dma0_entry_zero by exact Hb. rewrite Hmm. cbn [count].
  set (l0 := mk_dma0 (m_dma_sar0 s) (m_dma_dar0 s) 65536 65536 0).
  set (Inv := fun (l : dma0_locals) (t : z180_device) =>
         io_to_mem_step (Z.land (m_dmode t) (Z.lor Z180_DMODE_SM Z180_DMODE_DM))
         = Some dstep /\
         nz (Z.land (m_iol t) Z180_DREQ0) = true /\
         nz (Z.land (m_dcntl t) Z180_DCNTL_DMS0) = false /\
         sar0 l = m_dma_sar0 s).
  assert (Hunit : forall l t, Inv l t ->
    Inv (fst (dma0_body l t)) (snd (dma0_body l t)) /\
    sar0 (fst (dma0_body l t)) = (fun x => x) (sar0 l) /\
    dar0 (fst (dma0_body l t)) = (fun x => u32 (x + dstep)) (dar0 l) /\
    bcr0 (fst (dma0_body l t)) = bcr0 l - 1 /\
    count (fst (dma0_body l t)) = count l - 1 /\
    dma0_ctl_view (snd (dma0_body l t))
    = dma0_ctl_view (if bcr0 l =? 1 then t <| m_iol := Z.lor (m_iol t) Z180_TEND0 |> else t)).
  { intros l t (I1 & I2 & I3 & I4).
    pose proof (dma0_body_io_in l t dstep I1 I2) as B. cbv zeta in B.
    rewrite I4 in B.
    match type of B with
    | context [IN (m_dma_sar0 s) ?t0] =>
        pose proof (Hfr t0) as F; unfold keeps in F;
        destruct (IN (m_dma_sar0 s) t0) as [v t1]
    end.
    cbn [fst snd] in B, F.
    assert (F' : dma0_ctl_view (program_write_byte (dar0 l) v t1)
                 = dma0_ctl_view (if bcr0 l =? 1
                                  then t <| m_iol := Z.lor (m_iol t) Z180_TEND0 |> else t)).
    { transitivity (dma0_ctl_view t1); [reflexivity|]. rewrite F.
      unfold dma0_ctl_view. destruct (bcr0 l =? 1); z180_cbn; reflexivity. }
    assert (G : m_dmode (program_write_byte (dar0 l) v t1) = m_dmode t /\
                m_dcntl (program_write_byte (dar0 l) v t1) = m_dcntl t /\
                m_iol (program_write_byte (dar0 l) v t1)
                = (if bcr0 l =? 1 then Z.lor (m_iol t) Z180_TEND0 else m_iol t)).
    { unfold dma0_ctl_view in F'. destruct (bcr0 l =? 1); z180_cbn_in F';
        injection F' as G1 G2 G3 G4 G5 G6; repeat split; assumption. }
    destruct G as (G1 & G2 & G3).
    rewrite G2, I3 in B. rewrite B. cbn [fst snd sar0 dar0 bcr0 count].
    unfold Inv. cbn [sar0]. rewrite G1, G2, G3.
    repeat split; try assumption; try lia.
    destruct (bcr0 l =? 1); rewrite ?dreq0_with_tend0; exact I2. }
  destruct (dma0_loop_passes Inv max_cycles (dma0_unit_step _ _ Inv Hunit))
    with (n := Z.to_nat 65536) (fuel := Z.to_nat 65536) (l := l0) (s := s)
    as (k & Hk & E & Hs).
  { unfold Inv. subst l0. cbn [sar0]. repeat split; assumption. }
  { subst l0. cbn [count]. lia. }
  { lia. }
  { lia. }
  rewrite E.
  pose proof (dma0_passes_unit _ _ Inv Hunit k l0 s) as P. cbv zeta in P.
  assert (I0 : Inv l0 s) by (unfold Inv; subst l0; cbn [sar0]; repeat split; assumption).
  specialize (P I0).
  destruct (Nat.iter k dma0_pass (l0, s)) as [l1 s1]. cbn [fst snd] in P, Hs.
  subst l0. cbn [sar0 dar0 bcr0 cycles] in P.
  destruct P as (P1 & P2 & P3 & P4 & P5 & P6 & P7).
  rewrite iter_id in P1. rewrite step_addr_iter in P2.
  assert (HK : 1 <= Z.of_nat k <= 65536) by lia.
  destruct (dma0_exit_counted (Z.of_nat k) max_cycles s l1 s1 HK P3) as (C1 & C2 & C3 & C4);
    try assumption.
  { intros Hlt. apply Hs. lia. }
  { intros Hlt. rewrite P7.
    replace ((1 <=? 65536) && (65536 <=? Z.of_nat k)) with false
      by (symmetry; apply andb_false_iff; right; apply Z.leb_gt; lia).
    reflexivity. }
  exists (Z.of_nat k). rewrite Nat2Z.id.
  split; [exact HK|]. split; [rewrite C2; exact P1|].
  split; [rewrite C3; exact P2|]. exact C1.
Qed.
(** a burst from memory to an I/O port, level sensitive, the handler of
    the port leaving the control members alone *)
Lemma dma0_burst_io_out_any (sstep : Z) (s : z180_device) :
  m_dma_bcr s 0 = 0 ->
  nz (Z.land (m_dstat s) Z180_DSTAT_DE0) = true ->
  nz (Z.land (m_dmode s) Z180_DMODE_MMOD) = true ->
  mem_to_io_step (Z.land (m_dmode s) (Z.lor Z180_DMODE_SM Z180_DMODE_DM)) = Some sstep ->
  nz (Z.land (m_iol s) Z180_DREQ0) = true ->
  nz (Z.land (m_dcntl s) Z180_DCNTL_DMS0) = false ->
  (forall v t, keeps dma0_ctl_view t (OUT (m_dma_dar0 s) v t)) ->
  let r := z180_dma0 max_cycles s in
  exists k : Z, 1 <= k <= 65536 /\
    m_dma_sar0 (snd r) = step_addr (Z.to_nat k) (m_dma_sar0 s) sstep /\
    m_dma_dar0 (snd r) = m_dma_dar0 s /\
    counted_from_65536 k max_cycles s r.
Proof.
  intros Hb Hde Hmm Hm Hq Hlv Hfr. cbv zeta.
  unfold Z180.z180_dma0. cbv zeta. rewrite Hde. cbn [negb].
  rewrite dma0_entry_zero by exact Hb. rewrite Hmm. cbn [count].
  set (l0 := mk_dma0 (m_dma_sar0 s) (m_dma_dar0 s) 65536 65536 0).
  set (Inv := fun (l : dma0_locals) (t : z180_device) =>
         mem_to_io_step (Z.land (m_dmode t) (Z.lor Z180_DMODE_SM Z180_DMODE_DM))
         = Some sstep /\
         nz (Z.land (m_iol t) Z180_DREQ0) = true /\
         nz (Z.land (m_dcntl t) Z180_DCNTL_DMS0) = false /\
         dar0 l = m_dma_dar0 s).
  assert (Hunit : forall l t, Inv l t ->
    Inv (fst (dma0_body l t)) (snd (dma0_body l t)) /\
    sar0 (fst (dma0_body l t)) = (fun x => u32 (x + sstep)) (sar0 l) /\
    dar0 (fst (dma0_body l t)) = (fun x => x) (dar0 l) /\
    bcr0 (fst (dma0_body l t)) = bcr0 l - 1 /\
    count (fst (dma0_body l t)) = count l - 1 /\
    dma0_ctl_view (snd (dma0_body l t))
    = dma0_ctl_view (if bcr0 l =? 1 then t <| m_iol := Z.lor (m_iol t) Z180_TEND0 |> else t)).
  { intros l t (I1 & I2 & I3 & I4).
    pose proof (dma0_body_io_out l t sstep I1 I2) as B. cbv zeta in B.
    rewrite I4 in B.
    match type of B with
    | context [OUT (m_dma_dar0 s) ?v ?t0] =>
        pose proof (Hfr v t0) as F; unfold keeps in F;
        revert B F; generalize (OUT (m_dma_dar0 s) v t0); intros t1 B F
    end.
    assert (G : m_dmode t1 = m_dmode t /\
                m_dcntl t1 = m_dcntl t /\
                m_iol t1 = (if bcr0 l =? 1 then Z.lor (m_iol t) Z180_TEND0 else m_iol t) /\
                dma0_ctl_view t1
                = dma0_ctl_view (if bcr0 l =? 1
                                 then t <| m_iol := Z.lor (m_iol t) Z180_TEND0 |> else t)).
    { rewrite F. unfold dma0_ctl_view in F |- *. destruct (bcr0 l =? 1); z180_cbn_in F; z180_cbn;
        injection F as G1 G2 G3 G4 G5 G6; repeat split; congruence. }
    destruct G as (G1 & G2 & G3 & F').
    rewrite G2, I3 in B. rewrite B. cbn [fst snd sar0 dar0 bcr0 count].
    unfold Inv. cbn [dar0]. rewrite G1, G2, G3.
    repeat split; try assumption; try lia.
    destruct (bcr0 l =? 1); rewrite ?dreq0_with_tend0; exact I2. }
  destruct (dma0_loop_passes Inv max_cycles (dma0_unit_step _ _ Inv Hunit))
    with (n := Z.to_nat 65536) (fuel := Z.to_nat 65536) (l := l0) (s := s)
    as (k & Hk & E & Hs).
  { unfold Inv. subst l0. cbn [dar0]. repeat split; assumption. }
  { subst l0. cbn [count]. lia. }
  { lia. }
  { lia. }
  rewrite E.
  pose proof (dma0_passes_unit _ _ Inv Hunit k l0 s) as P. cbv zeta in P.
  assert (I0 : Inv l0 s) by (unfold Inv; subst l0; cbn [dar0]; repeat split; assumption).
  specialize (P I0).
  destruct (Nat.iter k dma0_pass (l0, s)) as [l1 s1]. cbn [fst snd] in P, Hs.
  subst l0. cbn [sar0 dar0 bcr0 cycles] in P.
  destruct P as (P1 & P2 & P3 & P4 & P5 & P6 & P7).
  rewrite step_addr_iter in P1. rewrite iter_id in P2.
  assert (HK : 1 <= Z.of_nat k <= 65536) by lia.
  destruct (dma0_exit_counted (Z.of_nat k) max_cycles s l1 s1 HK P3) as (C1 & C2 & C3 & C4);
    try assumption.
  { intros Hlt. apply Hs. lia. }
  { intros Hlt. rewrite P7.
    replace ((1 <=? 65536) && (65536 <=? Z.of_nat k)) with false
      by (symmetry; apply andb_false_iff; right; apply Z.leb_gt; lia).
    reflexivity. }
  exists (Z.of_nat k). rewrite Nat2Z.id.
  split; [exact HK|]. split; [rewrite C2; exact P1|].
  split; [rewrite C3; exact P2|]. exact C1.
Qed.

(** the first unit of a transfer from an I/O port to memory: alone, or
    followed by the loop with 65535 to go *)
Lemma dma0_io_in_first (dstep : Z) (s : z180_device) :
  m_dma_bcr s 0 = 0 ->
  nz (Z.land (m_dstat s) Z180_DSTAT_DE0) = true ->
  io_to_mem_step (Z.land (m_dmode s) (Z.lor Z180_DMODE_SM Z180_DMODE_DM)) = Some dstep ->
  nz (Z.land (m_iol s) Z180_DREQ0) = true ->
  let sar := m_dma_sar0 s in
  let dar := m_dma_dar0 s in
  let burst := nz (Z.land (m_dmode s) Z180_DMODE_MMOD) in
  let t0 := s <| m_extra_cycles := 0 |> in
  let v := fst (IN sar t0) in
  let t1 := program_write_byte dar v (snd (IN sar t0)) in
  let edge := nz (Z.land (m_dcntl t1) Z180_DCNTL_DMS0) in
  let t2 := if edge then t1 <| m_iol := Z.land (m_iol t1) (Z.lnot Z180_DREQ0) |> else t1 in
  let c1 := memory_wait_states t1 + (6 + m_extra_cycles t2) in
  (burst = false \/ edge = true \/ max_cycles < c1 ->
   z180_dma0 max_cycles s
   = (c1, t2 <| m_dma_sar0 := sar |> <| m_dma_dar0 := u32 (dar + dstep) |>
             <| m_dma_bcr := upd (m_dma_bcr t2) 0 0xffff |>)) /\
  (burst = true -> edge = false -> c1 <= max_cycles ->
   z180_dma0 max_cycles s
   = (let '(l, t) := dma0_loop (Z.to_nat 65535) max_cycles
                       (mk_dma0 sar (u32 (dar + dstep)) 65535 65535 c1) t2 in
      dma0_exit l t)).
Proof.
  intros Hb Hde Hm Hq. cbv zeta.
  pose proof (dma0_first_pass max_cycles s Hb Hde) as FP. cbv zeta in FP.
  rewrite FP. clear FP.
  rewrite (dma0_body_io_in _ s dstep Hm Hq).
  cbn [sar0 dar0 bcr0 count cycles fst snd].
  change (65536 =? 1) with false. cbv iota. change (65536 - 1) with 65535.
  rewrite Z.add_0_l.
  set (t1 := program_write_byte (m_dma_dar0 s)
               (fst (IN (m_dma_sar0 s) (s <| m_extra_cycles := 0 |>)))
               (snd (IN (m_dma_sar0 s) (s <| m_extra_cycles := 0 |>)))).
  set (edge := nz (Z.land (m_dcntl t1) Z180_DCNTL_DMS0)).
  set (t2 := if edge then t1 <| m_iol := Z.land (m_iol t1) (Z.lnot Z180_DREQ0) |> else t1).
  set (c1 := memory_wait_states t1 + (6 + m_extra_cycles t2)).
  set (burst := nz (Z.land (m_dmode s) Z180_DMODE_MMOD)).
  split.
  - intros Hone.
    assert (E : (if c1 >? max_cycles
                 then (mk_dma0 (m_dma_sar0 s) (u32 (m_dma_dar0 s + dstep)) 65535
                         ((if edge then 0 else if burst then 65536 else 1) - 1) c1, t2)
                 else dma0_loop (Z.to_nat ((if burst then 65536 else 1) - 1)) max_cycles
                        (mk_dma0 (m_dma_sar0 s) (u32 (m_dma_dar0 s + dstep)) 65535
                           ((if edge then 0 else if burst then 65536 else 1) - 1) c1) t2)
                = (mk_dma0 (m_dma_sar0 s) (u32 (m_dma_dar0 s + dstep)) 65535
                     ((if edge then 0 else if burst then 65536 else 1) - 1) c1, t2)).
    { destruct (Z.gtb_spec c1 max_cycles) as [G | G]; [reflexivity|].
      apply dma0_loop_done. cbn [count].
      destruct Hone as [H | [H | H]]; [rewrite H | rewrite H | lia];
        destruct edge; destruct burst; lia. }
    rewrite E. rewrite dma0_exit_remaining by (cbn [bcr0]; lia).
    cbn [sar0 dar0 bcr0 cycles]. reflexivity.
  - intros Hbu Hed Hc. rewrite Hbu, Hed. cbv iota.
    replace (c1 >? max_cycles) with false by (symmetry; rewrite Z.gtb_ltb; apply Z.ltb_ge; lia).
    change (65536 - 1) with 65535. reflexivity.
Qed.

(** the first unit of a transfer from memory to an I/O port *)
Lemma dma0_io_out_first (sstep : Z) (s : z180_device) :
  m_dma_bcr s 0 = 0 ->
  nz (Z.land (m_dstat s) Z180_DSTAT_DE0) = true ->
  mem_to_io_step (Z.land (m_dmode s) (Z.lor Z180_DMODE_SM Z180_DMODE_DM)) = Some sstep ->
  nz (Z.land (m_iol s) Z180_DREQ0) = true ->
  let sar := m_dma_sar0 s in
  let dar := m_dma_dar0 s in
  let burst := nz (Z.land (m_dmode s) Z180_DMODE_MMOD) in
  let t0 := s <| m_extra_cycles := 0 |> in
  let t1 := OUT dar (program_read_byte sar t0) t0 in
  let edge := nz (Z.land (m_dcntl t1) Z180_DCNTL_DMS0) in
  let t2 := if edge then t1 <| m_iol := Z.land (m_iol t1) (Z.lnot Z180_DREQ0) |> else t1 in
  let c1 := memory_wait_states t1 + (6 + m_extra_cycles t2) in
  (burst = false \/ edge = true \/ max_cycles < c1 ->
   z180_dma0 max_cycles s
   = (c1, t2 <| m_dma_sar0 := u32 (sar + sstep) |> <| m_dma_dar0 := dar |>
             <| m_dma_bcr := upd (m_dma_bcr t2) 0 0xffff |>)) /\
  (burst = true -> edge = false -> c1 <= max_cycles ->
   z180_dma0 max_cycles s
   = (let '(l, t) := dma0_loop (Z.to_nat 65535) max_cycles
                       (mk_dma0 (u32 (sar + sstep)) dar 65535 65535 c1) t2 in
      dma0_exit l t)).
Proof.
  intros Hb Hde Hm Hq. cbv zeta.
  pose proof (dma0_first_pass max_cycles s Hb Hde) as FP. cbv zeta in FP.
  rewrite FP. clear FP.
  rewrite (dma0_body_io_out _ s sstep Hm Hq).
  cbn [sar0 dar0 bcr0 count cycles fst snd].
  change (65536 =? 1) with false. cbv iota. change (65536 - 1) with 65535.
  rewrite Z.add_0_l.
  set (t1 := OUT (m_dma_dar0 s)
               (program_read_byte (m_dma_sar0 s) (s <| m_extra_cycles := 0 |>))
               (s <| m_extra_cycles := 0 |>)).
  set (edge := nz (Z.land (m_dcntl t1) Z180_DCNTL_DMS0)).
  set (t2 := if edge then t1 <| m_iol := Z.land (m_iol t1) (Z.lnot Z180_DREQ0) |> else t1).
  set (c1 := memory_wait_states t1 + (6 + m_extra_cycles t2)).
  set (burst := nz (Z.land (m_dmode s) Z180_DMODE_MMOD)).
  split.
  - intros Hone.
    assert (E : (if c1 >? max_cycles
                 then (mk_dma0 (u32 (m_dma_sar0 s + sstep)) (m_dma_dar0 s) 65535
                         ((if edge then 0 else if burst then 65536 else 1) - 1) c1, t2)
                 else dma0_loop (Z.to_nat ((if burst then 65536 else 1) - 1)) max_cycles
                        (mk_dma0 (u32 (m_dma_sar0 s + sstep)) (m_dma_dar0 s) 65535
                           ((if edge then 0 else if burst then 65536 else 1) - 1) c1) t2)
                = (mk_dma0 (u32 (m_dma_sar0 s + sstep)) (m_dma_dar0 s) 65535
                     ((if edge then 0 else if burst then 65536 else 1) - 1) c1, t2)).
    { destruct (Z.gtb_spec c1 max_cycles) as [G | G]; [reflexivity|].
      apply dma0_loop_done. cbn [count].
      destruct Hone as [H | [H | H]]; [rewrite H | rewrite H | lia];
        destruct edge; destruct burst; lia. }
    rewrite E. rewrite dma0_exit_remaining by (cbn [bcr0]; lia).
    cbn [sar0 dar0 bcr0 cycles]. reflexivity.
  - intros Hbu Hed Hc. rewrite Hbu, Hed. cbv iota.
    replace (c1 >? max_cycles) with false by (symmetry; rewrite Z.gtb_ltb; apply Z.ltb_ge; lia).
    change (65536 - 1) with 65535. reflexivity.
Qed.
(** a dispatch that finds nothing to move *)
Lemma dma0_idle_zero (s : z180_device) :
  m_dma_bcr s 0 = 0 ->
  nz (Z.land (m_dstat s) Z180_DSTAT_DE0) = true ->
  dma0_idles s = true ->
  let r := z180_dma0 max_cycles s in
  let passes := if nz (Z.land (m_dmode s) Z180_DMODE_MMOD) then 65536 else 1 in
  m_program (snd r) = m_program s /\ m_iospace (snd r) = m_iospace s /\
  m_io_trace (snd r) = m_io_trace s /\
  m_dma_sar0 (snd r) = m_dma_sar0 s /\ m_dma_dar0 (snd r) = m_dma_dar0 s /\
  (forall j, m_dma_bcr (snd r) j = m_dma_bcr s j) /\
  m_dstat (snd r) = m_dstat s /\ m_int_pending (snd r) = m_int_pending s /\
  m_iol (snd r) = m_iol s /\
  exists p : Z, 1 <= p <= passes /\ fst r = 6 * p /\ (p < passes -> max_cycles < 6 * p).
Proof.
  intros Hb Hde Hi. cbv zeta.
  unfold Z180.z180_dma0. cbv zeta. rewrite Hde. cbn [negb].
  rewrite dma0_entry_zero by exact Hb. cbn [count].
  set (cnt := if nz (Z.land (m_dmode s) Z180_DMODE_MMOD) then 65536 else 1).
  assert (Hc : 1 <= cnt)
    by (subst cnt; destruct (nz (Z.land (m_dmode s) Z180_DMODE_MMOD)); lia).
  set (l0 := mk_dma0 (m_dma_sar0 s) (m_dma_dar0 s) 65536 cnt 0).
  set (Inv := fun (l : dma0_locals) (t : z180_device) =>
         dma0_idles t = true /\ bcr0 l <> 1).
  assert (Hstep : forall l t, Inv l t ->
            Inv (fst (dma0_body l t)) (snd (dma0_body l t)) /\
            count (fst (dma0_body l t)) = count l - 1).
  { intros l t [I1 I2]. rewrite dma0_body_idle by assumption.
    cbn [fst snd bcr0 count]. unfold Inv. cbn [bcr0]. repeat split; assumption. }
  destruct (dma0_loop_passes Inv max_cycles Hstep)
    with (n := Z.to_nat cnt) (fuel := Z.to_nat cnt) (l := l0) (s := s)
    as (k & Hk & E & Hs).
  { unfold Inv. subst l0. cbn [bcr0]. split; [exact Hi | lia]. }
  { subst l0. cbn [count]. lia. }
  { lia. }
  { lia. }
  rewrite E.
  assert (P : forall (k : nat) (l : dma0_locals) (t : z180_device), Inv l t ->
            let x := Nat.iter k dma0_pass (l, t) in
            sar0 (fst x) = sar0 l /\ dar0 (fst x) = dar0 l /\ bcr0 (fst x) = bcr0 l /\
            cycles (fst x) = cycles l + 6 * Z.of_nat k /\
            keeps idle_view t (snd x)).
  { clear. induction k as [|k IH]; intros l t Hinv; cbv zeta.
    - cbn [Nat.iter nat_rect fst snd Z.of_nat]. repeat split; lia.
    - rewrite Nat.iter_succ_r. change (dma0_pass (l, t)) with (dma0_body l t).
      destruct Hinv as [I1 I2]. rewrite dma0_body_idle by assumption.
      match goal with
      | |- context [Nat.iter k dma0_pass (?l1, ?t1)] =>
          specialize (IH l1 t1 ltac:(split; [exact I1 | exact I2])); cbv zeta in IH;
          destruct (Nat.iter k dma0_pass (l1, t1)) as [l2 t2]
      end.
      cbn [fst snd sar0 dar0 bcr0 cycles] in IH |- *.
      destruct IH as (H1 & H2 & H3 & H4 & H5).
      repeat split; try lia.
      unfold keeps in *. rewrite H5. reflexivity. }
  specialize (P k l0 s ltac:(unfold Inv; subst l0; cbn [bcr0]; split; [exact Hi | lia])).
  cbv zeta in P.
  destruct (Nat.iter k dma0_pass (l0, s)) as [l1 s1]. cbn [fst snd] in P, Hs.
  subst l0. cbn [sar0 dar0 bcr0 cycles] in P.
  destruct P as (P1 & P2 & P3 & P4 & P5).
  rewrite dma0_exit_remaining by lia. cbn [fst snd].
  unfold keeps, idle_view in P5. z180_cbn.
  injection P5 as V1 V2 V3 V4 V5 V6 V7 V8 V9 V10 V11.
  rewrite P1, P2, P3, V1, V2, V3, V6, V7, V10, V11.
  repeat split.
  - intros j. unfold upd. destruct (Z.eqb_spec j 0) as [-> | ?]; [|reflexivity].
    rewrite Hb. reflexivity.
  - exists (Z.of_nat k). split; [lia|]. split; [lia|].
    intros Hlt. specialize (Hs ltac:(lia)). lia.
Qed.
End Counted.
End DmaPasses.

(** the selections of DMODE: eight move memory to memory, two read an I/O
    port, two write one, four are reserved *)
Lemma land_3c_cases (x : Z) :
  In (Z.land x 0x3c)
     [0x00; 0x04; 0x08; 0x0c; 0x10; 0x14; 0x18; 0x1c;
      0x20; 0x24; 0x28; 0x2c; 0x30; 0x34; 0x38; 0x3c].
Proof.
  assert (E : Z.land x 0x3c = Z.shiftl (Z.land (Z.shiftr x 2) 0xf) 2).
  { apply Z.bits_inj'; intros n Hn.
    change 0x3c with (Z.shiftl 0xf 2).
    destruct (Z.ltb_spec n 2).
    - rewrite Z.land_spec, !Z.shiftl_spec_low by lia. apply andb_false_r.
    - rewrite Z.land_spec, !Z.shiftl_spec, Z.land_spec, Z.shiftr_spec by lia.
      replace (n - 2 + 2) with n by lia. reflexivity. }
  assert (R : 0 <= Z.land (Z.shiftr x 2) 0xf < 16).
  { change 0xf with (Z.ones 4). rewrite Z.land_ones by lia. apply Z.mod_pos_bound. lia. }
  rewrite E.
  assert (C : exists k, Z.land (Z.shiftr x 2) 0xf = k /\ 0 <= k < 16) by (eexists; eauto).
  destruct C as (k & -> & Hk).
  assert (D : k = 0 \/ k = 1 \/ k = 2 \/ k = 3 \/ k = 4 \/ k = 5 \/ k = 6 \/ k = 7 \/
              k = 8 \/ k = 9 \/ k = 10 \/ k = 11 \/ k = 12 \/ k = 13 \/ k = 14 \/ k = 15)
    by lia.
  repeat (destruct D as [-> | D]; [cbn; auto 20|]). subst k. cbn. auto 20.
Qed.

Lemma dma0_selection_kinds (s : z180_device) :
  let sel := Z.land (m_dmode s) (Z.lor Z180_DMODE_SM Z180_DMODE_DM) in
  mem_to_mem_steps sel <> None \/
  (io_to_mem_step sel <> None /\ nz (Z.land (m_iol s) Z180_DREQ0) = true) \/
  (mem_to_io_step sel <> None /\ nz (Z.land (m_iol s) Z180_DREQ0) = true) \/
  dma0_idles s = true.
Proof.
  cbv zeta. unfold dma0_idles. cbv zeta.
  change (Z.lor Z180_DMODE_SM Z180_DMODE_DM) with 0x3c.
  replace (Z.land (m_iol s) Z180_DREQ0 =? 0) with (negb (nz (Z.land (m_iol s) Z180_DREQ0)))
    by (unfold nz; apply negb_involutive).
  pose proof (land_3c_cases (m_dmode s)) as C.
  cbn [In] in C.
  repeat (destruct C as [<- | C];
          [destruct (nz (Z.land (m_iol s) Z180_DREQ0)); cbn;
           first [ left; discriminate
                 | right; left; split; [discriminate | reflexivity]
                 | right; right; left; split; [discriminate | reflexivity]
                 | right; right; right; reflexivity ] |]).
  destruct C.
Qed.

(** * The flag tables built by [device_start] *)

Lemma for_range_ind {A : Type} (P : Z -> A -> Prop) (body : Z -> A -> A) :
  forall n lo a,
    P lo a ->
    (forall i x, lo <= i < lo + Z.of_nat n -> P i x -> P (i + 1) (body i x)) ->
    P (lo + Z.of_nat n) (for_range n lo body a).
Proof.
  induction n as [|n IH]; intros lo a H0 Hstep.
  - simpl. replace (lo + 0) with lo by lia. exact H0.
  - cbn [for_range].
    replace (lo + Z.of_nat (S n)) with ((lo + 1) + Z.of_nat n) by lia.
    apply IH.
    + apply Hstep; [lia | exact H0].
    + intros i x Hi HP. apply Hstep; [lia | exact HP].
Qed.

Lemma fill_body_inv o n st :
  0 <= o < 256 -> 0 <= n < 256 ->
  fill_inv (o * 256 + n) st -> fill_inv (o * 256 + (n + 1)) (fill_body o n st).
Proof.
  intros Ho Hn (Ha & Hc & Hs & Hb & Hfill).
  unfold fill_inv, fill_body; cbn [padd padc psub psbc arr_add arr_sub].
  rewrite Ha, Hc, Hs, Hb.
  split; [lia|]. split; [lia|]. split; [lia|]. split; [lia|].
  intros o0 n0 Ho0 Hn0 Hlt.
  destruct (Z.eq_dec (o0 * 256 + n0) (o * 256 + n)) as [E|E].
  - assert (o0 = o /\ n0 = n) as [-> ->] by lia.
    repeat split.
    all: repeat first [rewrite upd_eq by lia | rewrite upd_other by lia]; reflexivity.
  - rewrite !upd_other by lia. apply Hfill; lia.
Qed.

Lemma fill_szhvc_inv : fill_inv 65536 fill_szhvc.
Proof.
  unfold fill_szhvc.
  change 65536 with (256 * 256 + 0).
  pose (P := fun o st => fill_inv (o * 256 + 0) st).
  change (P (0 + Z.of_nat 256) (for_range 256 0
     (fun oldval => for_range 256 0 (fun newval => fill_body oldval newval)) fill_start)).
  apply for_range_ind.
  - unfold P, fill_inv, fill_start; cbn. repeat split; intros; lia.
  - intros o st Ho HP. unfold P in *.
    replace ((o + 1) * 256 + 0) with (o * 256 + (0 + Z.of_nat 256)) by lia.
    apply (for_range_ind (fun n st => fill_inv (o * 256 + n) st)).
    + exact HP.
    + intros n x Hn Hx. apply fill_body_inv; [lia | lia | exact Hx].
Qed.

Lemma small_body_big n i t :
  SZHVC_add (for_range n i small_body t) = SZHVC_add t /\
  SZHVC_sub (for_range n i small_body t) = SZHVC_sub t.
Proof.
  revert i t; induction n as [|n IH]; intros i t; [split; reflexivity|].
  cbn [for_range]. destruct (IH (i + 1) (small_body i t)) as [-> ->].
  split; reflexivity.
Qed.

Lemma szhvc_entries o n :
  0 <= o < 256 -> 0 <= n < 256 ->
  SZHVC_add device_start_tables (szhvc_index 0 o n) = padd_entry o n /\
  SZHVC_add device_start_tables (szhvc_index 1 o n) = padc_entry o n /\
  SZHVC_sub device_start_tables (szhvc_index 0 o n) = psub_entry o n /\
  SZHVC_sub device_start_tables (szhvc_index 1 o n) = psbc_entry o n.
Proof.
  intros Ho Hn. unfold device_start_tables.
  destruct (small_body_big 256 0
    (mk_flag_tables zeros zeros zeros zeros zeros (arr_add fill_szhvc) (arr_sub fill_szhvc)))
    as [-> ->].
  cbn [SZHVC_add SZHVC_sub].
  destruct fill_szhvc_inv as (_ & _ & _ & _ & H).
  specialize (H o n ltac:(lia) Hn ltac:(lia)).
  unfold szhvc_index.
  replace (0 * 65536 + o * 256 + n) with (o * 256 + n) by lia.
  replace (1 * 65536 + o * 256 + n) with (65536 + o * 256 + n) by lia.
  exact H.
Qed.

Lemma in_byte_range a : 0 <= a < 256 -> In a byte_range.
Proof.
  intros H. unfold byte_range. rewrite <- (Z2Nat.id a) by lia.
  apply in_map, in_seq. lia.
Qed.

Lemma entries_match_direct_ok :
  entries_match_direct 0 = true /\ entries_match_direct 1 = true.
Proof. split; vm_compute; reflexivity. Qed.

Lemma entry_matches_all (a b c : Z) :
  0 <= a < 256 -> 0 <= b < 256 -> 0 <= c <= 1 -> entry_matches c a b = true.
Proof.
  intros Ha Hb Hc.
  assert (E : entries_match_direct c = true).
  { destruct entries_match_direct_ok as [E0 E1].
    assert (C : c = 0 \/ c = 1) by lia. destruct C as [-> | ->]; assumption. }
  unfold entries_match_direct in E.
  rewrite forallb_forall in E. specialize (E a (in_byte_range a Ha)).
  rewrite forallb_forall in E. exact (E b (in_byte_range b Hb)).
Qed.

(** C1: for all 8-bit operands [a], [b] and incoming carry [c], the entry of
    [SZHVC_add] (of [SZHVC_sub]) that ADD/ADC (SUB/SBC) look up, indexed by
    the carry, the operand before and the 8-bit result, holds the flags
    obtained by recomputing sign, zero, half-carry, overflow and carry
    directly from the operands; bits 3 and 5 of the entry are bits 3 and 5
    of the result. *)
Theorem szhvc_tables_match_direct (a b c : Z) :
  0 <= a < 256 -> 0 <= b < 256 -> 0 <= c <= 1 ->
  let ra := (a + b + c) mod 256 in
  let rs := (a - b - c) mod 256 in
  let fa := SZHVC_add device_start_tables (szhvc_index c a ra) in
  let fs := SZHVC_sub device_start_tables (szhvc_index c a rs) in
  fa = direct_add_flags a b c /\
  fs = direct_sub_flags a b c /\
  Z.testbit fa 3 = Z.testbit ra 3 /\ Z.testbit fa 5 = Z.testbit ra 5 /\
  Z.testbit fs 3 = Z.testbit rs 3 /\ Z.testbit fs 5 = Z.testbit rs 5.
Proof.
  intros Ha Hb Hc ra rs fa fs.
  assert (Hra : 0 <= ra < 256) by (apply Z.mod_pos_bound; lia).
  assert (Hrs : 0 <= rs < 256) by (apply Z.mod_pos_bound; lia).
  pose proof (entry_matches_all a b c Ha Hb Hc) as M.
  unfold entry_matches in M. fold ra rs in M.
  destruct (szhvc_entries a ra Ha Hra) as (A0 & A1 & _ & _).
  destruct (szhvc_entries a rs Ha Hrs) as (_ & _ & S0 & S1).
  assert (Ea : fa = (if c =? 0 then padd_entry else padc_entry) a ra).
  { unfold fa. assert (C : c = 0 \/ c = 1) by lia. destruct C as [-> | ->]; assumption. }
  assert (Es : fs = (if c =? 0 then psub_entry else psbc_entry) a rs).
  { unfold fs. assert (C : c = 0 \/ c = 1) by lia. destruct C as [-> | ->]; assumption. }
  rewrite <- Ea, <- Es in M.
  repeat (apply andb_prop in M; destruct M as [M ?]).
  repeat split;
    first [ apply Z.eqb_eq; assumption | apply Bool.eqb_prop; assumption ].
Qed.

Lemma szhvc_tables_match_direct_witness :
  SZHVC_add device_start_tables (szhvc_index 1 0x7f ((0x7f + 0x00 + 1) mod 256))
    = direct_add_flags 0x7f 0x00 1.
Proof.
  exact (proj1 (szhvc_tables_match_direct 0x7f 0x00 1 ltac:(lia) ltac:(lia) ltac:(lia))).
Defined.

(** * Interrupt priorities: [check_interrupts] *)

Section Interrupts.
Variable take_interrupt : Z -> z180_device -> Z * z180_device.

Local Abbreviation take_first_pending := (take_first_pending take_interrupt).
Local Abbreviation check_interrupts := (check_interrupts take_interrupt).

Lemma take_first_pending_none (n : nat) (i cycles : Z) (s : z180_device) :
  (forall j, i <= j < i + Z.of_nat n -> m_int_pending s j = 0) ->
  take_first_pending n i cycles s = (cycles, s).
Proof.
  revert i. induction n as [|n IH]; intros i H; [reflexivity|].
  cbn [Z180.take_first_pending].
  rewrite nz_zero by (apply H; lia).
  apply IH. intros j Hj. apply H. lia.
Qed.

Lemma take_first_pending_some (n : nat) (i cycles k : Z) (s : z180_device) :
  i <= k < i + Z.of_nat n ->
  nz (m_int_pending s k) = true ->
  (forall j, i <= j < k -> m_int_pending s j = 0) ->
  take_first_pending n i cycles s
  = (cycles + fst (take_interrupt k s),
     (snd (take_interrupt k s))
       <| m_int_pending := upd (m_int_pending (snd (take_interrupt k s))) k 0 |>).
Proof.
  revert i. induction n as [|n IH]; intros i Hk Hp Hlow; [lia|].
  cbn [Z180.take_first_pending].
  destruct (Z.eq_dec i k) as [->|Hne].
  - rewrite Hp. destruct (take_interrupt k s); reflexivity.
  - rewrite nz_zero by (apply Hlow; lia).
    apply IH; [lia | exact Hp | intros j Hj; apply Hlow; lia].
Qed.

(** the pending flags after the promotion of the IRQ lines *)
Lemma check_irqs_pending (s : z180_device) (j : Z) :
  j <> Z180_INT_IRQ0 -> j <> Z180_INT_IRQ1 -> j <> Z180_INT_IRQ2 ->
  m_int_pending (check_irqs s) j = m_int_pending s j.
Proof.
  intros H0 H1 H2. unfold check_irqs, promote_irq.
  destruct (nz (m_IFF1 s) && negb (nz (m_after_EI s))); [|reflexivity].
  cbv zeta.
  repeat match goal with
         | |- context [if ?c then _ else _] =>
             lazymatch c with true => fail | false => fail | _ => destruct c end
         end; z180_cbn; rewrite ?upd_other by assumption; reflexivity.
Qed.

(** the three flags after the promotion, and the rest of the state *)
Lemma check_irqs_promoted (s : z180_device) :
  let s1 := check_irqs s in
  let armed := nz (m_IFF1 s) && negb (nz (m_after_EI s)) in
  m_int_pending s1 Z180_INT_IRQ0
  = (if armed && negb (m_irq_state s 0 =? CLEAR_LINE)
        && (Z.land (m_itc s) Z180_ITC_ITE0 =? Z180_ITC_ITE0)
     then 1 else m_int_pending s Z180_INT_IRQ0) /\
  m_int_pending s1 Z180_INT_IRQ1
  = (if armed && negb (m_irq_state s 1 =? CLEAR_LINE)
        && (Z.land (m_itc s) Z180_ITC_ITE1 =? Z180_ITC_ITE1)
     then 1 else m_int_pending s Z180_INT_IRQ1) /\
  m_int_pending s1 Z180_INT_IRQ2
  = (if armed && negb (m_irq_state s 2 =? CLEAR_LINE)
        && (Z.land (m_itc s) Z180_ITC_ITE2 =? Z180_ITC_ITE2)
     then 1 else m_int_pending s Z180_INT_IRQ2) /\
  s1 = s <| m_int_pending := m_int_pending s1 |>.
Proof.
  cbv zeta. unfold check_irqs, promote_irq.
  destruct (nz (m_IFF1 s) && negb (nz (m_after_EI s))); cbn [andb].
  2: { repeat split. destruct s; reflexivity. }
  cbv zeta.
  destruct (negb (m_irq_state s 0 =? CLEAR_LINE)
            && (Z.land (m_itc s) Z180_ITC_ITE0 =? Z180_ITC_ITE0));
    z180_cbn;
    destruct (negb (m_irq_state s 1 =? CLEAR_LINE)
              && (Z.land (m_itc s) Z180_ITC_ITE1 =? Z180_ITC_ITE1));
    z180_cbn;
    destruct (negb (m_irq_state s 2 =? CLEAR_LINE)
              && (Z.land (m_itc s) Z180_ITC_ITE2 =? Z180_ITC_ITE2));
    z180_cbn.
  all: repeat split; try reflexivity; destruct s; reflexivity.
Qed.

Lemma check_irqs_idle (s : z180_device) :
  nz (m_IFF1 s) && negb (nz (m_after_EI s)) = false -> check_irqs s = s.
Proof. intros H. unfold check_irqs. rewrite H. reflexivity. Qed.

(** C2 (amended): [check_interrupts] first promotes the asserted and enabled
    IRQ lines to pending flags: when IFF1 is set and no EI has just been
    executed, the flag of IRQ0, IRQ1 or IRQ2 becomes 1 if the line is not at
    [CLEAR_LINE] and its enable bit of ITC is set, and stays as it is
    otherwise; the promotion touches nothing else, neither another flag nor
    another member of the state.  Of the flags as they stand then, the call
    services the pending one of lowest index and clears exactly that flag,
    every other flag staying as promoted; with none pending it services
    nothing and returns 0 cycles.  The handler [take_interrupt] is assumed
    not to touch the flags. *)
Theorem check_interrupts_services_lowest_pending (s : z180_device) (i : Z) :
  (forall k t, m_int_pending (snd (take_interrupt k t)) = m_int_pending t) ->
  let s1 := check_irqs s in
  let s' := snd (check_interrupts s) in
  ((forall j, 0 <= j <= Z180_INT_MAX -> m_int_pending s1 j = 0) ->
   check_interrupts s = (0, s1)) /\
  (0 <= i <= Z180_INT_MAX ->
   nz (m_int_pending s1 i) = true ->
   (forall j, 0 <= j < i -> m_int_pending s1 j = 0) ->
   check_interrupts s
   = (0 + fst (take_interrupt i s1),
      (snd (take_interrupt i s1))
        <| m_int_pending := upd (m_int_pending (snd (take_interrupt i s1))) i 0 |>) /\
   forall j, m_int_pending s' j = if j =? i then 0 else m_int_pending s1 j) /\
  (forall j, j <> Z180_INT_IRQ0 -> j <> Z180_INT_IRQ1 -> j <> Z180_INT_IRQ2 ->
     m_int_pending s1 j = m_int_pending s j) /\
  (nz (m_IFF1 s) && negb (nz (m_after_EI s)) = false -> s1 = s) /\
  m_int_pending s1 Z180_INT_IRQ0
  = (if nz (m_IFF1 s) && negb (nz (m_after_EI s))
        && negb (m_irq_state s 0 =? CLEAR_LINE)
        && (Z.land (m_itc s) Z180_ITC_ITE0 =? Z180_ITC_ITE0)
     then 1 else m_int_pending s Z180_INT_IRQ0) /\
  m_int_pending s1 Z180_INT_IRQ1
  = (if nz (m_IFF1 s) && negb (nz (m_after_EI s))
        && negb (m_irq_state s 1 =? CLEAR_LINE)
        && (Z.land (m_itc s) Z180_ITC_ITE1 =? Z180_ITC_ITE1)
     then 1 else m_int_pending s Z180_INT_IRQ1) /\
  m_int_pending s1 Z180_INT_IRQ2
  = (if nz (m_IFF1 s) && negb (nz (m_after_EI s))
        && negb (m_irq_state s 2 =? CLEAR_LINE)
        && (Z.land (m_itc s) Z180_ITC_ITE2 =? Z180_ITC_ITE2)
     then 1 else m_int_pending s Z180_INT_IRQ2) /\
  s1 = s <| m_int_pending := m_int_pending s1 |>.
Proof.
  intros Hti s1 s'. split; [|split; [|split; [|split]]].
  - intros Hnone. unfold Z180.check_interrupts. fold s1.
    apply take_first_pending_none.
    intros j Hj. apply Hnone. unfold Z180_INT_MAX, Z180_INT_ASCI1 in *.
    change (Z.of_nat (Z.to_nat (11 + 1))) with 12 in Hj. lia.
  - intros Hi Hp Hlow.
    assert (E : check_interrupts s
      = (0 + fst (take_interrupt i s1),
         (snd (take_interrupt i s1))
           <| m_int_pending := upd (m_int_pending (snd (take_interrupt i s1))) i 0 |>)).
    { unfold Z180.check_interrupts. fold s1.
      apply take_first_pending_some; [|exact Hp|exact Hlow].
      unfold Z180_INT_MAX, Z180_INT_ASCI1 in *.
      change (Z.of_nat (Z.to_nat (11 + 1))) with 12. lia. }
    split; [exact E|].
    intros j. subst s'. rewrite E. cbn [snd]. z180_cbn.
    rewrite upd_read, Hti. reflexivity.
  - apply check_irqs_pending.
  - apply check_irqs_idle.
  - apply check_irqs_promoted.
Qed.
End Interrupts.

Lemma check_interrupts_services_lowest_pending_witness :
  m_int_pending (snd (check_interrupts take_interrupt_ack prt0_and_prt1_pending))
    Z180_INT_PRT0 = 0 /\
  m_int_pending (snd (check_interrupts take_interrupt_ack prt0_and_prt1_pending))
    Z180_INT_PRT1 = m_int_pending (check_irqs prt0_and_prt1_pending) Z180_INT_PRT1.
Proof.
  assert (H : forall j,
    m_int_pending (snd (check_interrupts take_interrupt_ack prt0_and_prt1_pending)) j
    = if j =? Z180_INT_PRT0 then 0
      else m_int_pending (check_irqs prt0_and_prt1_pending) j).
  { refine (proj2 (proj1 (proj2
      (check_interrupts_services_lowest_pending take_interrupt_ack
         prt0_and_prt1_pending Z180_INT_PRT0 _)) _ _ _)).
    - intros k t. reflexivity.
    - vm_compute. split; discriminate.
    - reflexivity.
    - intros j Hj.
      assert (C : j = 0 \/ j = 1 \/ j = 2 \/ j = 3 \/ j = 4)
        by (change Z180_INT_PRT0 with 5 in Hj; lia).
      destruct C as [-> | [-> | [-> | [-> | ->]]]]; reflexivity. }
  split; [exact (H Z180_INT_PRT0) | exact (H Z180_INT_PRT1)].
Defined.

(** With IRQ0 asserted and enabled and a timer 0 interrupt pending on entry,
    the call services IRQ0: the flag that was the lowest pending one on
    entry stays set. *)
Lemma services_lowest_pending_on_entry_fails :
  services_lowest_pending_on_entry take_interrupt_ack irq0_line_and_prt0_pending = false.
Proof. vm_compute. reflexivity. Qed.

(** * Reset: [device_reset] *)

Lemma lor_page_offset page addr :
  0 <= addr < 65536 ->
  page = Z.land (Z.shiftr addr 12) 15 ->
  Z.lor (Z.land (Z.shiftl page 12 + Z.shiftl 0 12) 0xfffff) (Z.land addr 4095) = addr.
Proof.
  intros Ha ->.
  rewrite Z.shiftl_0_l, Z.add_0_r.
  apply Z.bits_inj'; intros n Hn.
  rewrite Z.lor_spec, !Z.land_spec.
  change 0xfffff with (Z.ones 20). change 4095 with (Z.ones 12). change 15 with (Z.ones 4).
  rewrite !Z.testbit_ones_nonneg by lia.
  destruct (Z.ltb_spec n 12).
  - rewrite Z.shiftl_spec_low by lia. rewrite andb_true_r. reflexivity.
  - rewrite Z.shiftl_spec by lia. rewrite Z.land_spec, Z.shiftr_spec by lia.
    rewrite Z.testbit_ones_nonneg by lia.
    replace (n - 12 + 12) with n by lia.
    rewrite andb_false_r, orb_false_r.
    destruct (Z.ltb_spec (n - 12) 4); destruct (Z.ltb_spec n 20); try lia.
    + rewrite !andb_true_r. reflexivity.
    + rewrite andb_false_r. symmetry.
      destruct (Z.eq_dec addr 0) as [->|Hz]; [apply Z.testbit_0_l|].
      apply Z.bits_above_log2; [lia|].
      assert (Z.log2 addr < 16); [apply Z.log2_lt_pow2; lia | lia].
    + rewrite andb_false_r. symmetry.
      destruct (Z.eq_dec addr 0) as [->|Hz]; [apply Z.testbit_0_l|].
      apply Z.bits_above_log2; [lia|].
      assert (Z.log2 addr < 16); [apply Z.log2_lt_pow2; lia | lia].
Qed.

Lemma page_cases addr :
  0 <= Z.land (Z.shiftr addr 12) 15 < 16.
Proof.
  change 15 with (Z.ones 4). rewrite Z.land_ones by lia.
  apply Z.mod_pos_bound. lia.
Qed.

Section Reset.
Variable cc_default : Z -> array.

Lemma device_reset_mmu (s : z180_device) (page : Z) :
  0 <= page < 16 ->
  m_mmu (device_reset cc_default s) page
  = Z.land (Z.shiftl page 12 + Z.shiftl 0 12) 0xfffff.
Proof.
  intros Hp.
  assert (page = 0 \/ page = 1 \/ page = 2 \/ page = 3 \/ page = 4 \/ page = 5 \/
          page = 6 \/ page = 7 \/ page = 8 \/ page = 9 \/ page = 10 \/ page = 11 \/
          page = 12 \/ page = 13 \/ page = 14 \/ page = 15) as H by lia.
  repeat (destruct H as [-> | H]); try subst page; vm_compute; reflexivity.
Qed.

(** C3: after [device_reset], IX and IY are 0xFFFF, the zero flag of F is
    set, DE0 and DE1 of DSTAT and TDE0 and TDE1 of TCR are clear, CBR and BBR
    are 0, CBAR is 0xF0, and the translation maps every 16-bit logical
    address to itself. *)
Theorem device_reset_state (s : z180_device) (addr : Z) :
  0 <= addr < 65536 ->
  let s' := device_reset cc_default s in
  _IX s' = 0xffff /\ _IY s' = 0xffff /\
  Z.land (_F s') ZF = ZF /\
  Z.land (m_dstat s') Z180_DSTAT_DE0 = 0 /\
  Z.land (m_dstat s') Z180_DSTAT_DE1 = 0 /\
  Z.land (m_tcr s') Z180_TCR_TDE0 = 0 /\
  Z.land (m_tcr s') Z180_TCR_TDE1 = 0 /\
  m_mmu_cbr s' = 0 /\ m_mmu_bbr s' = 0 /\ m_mmu_cbar s' = 0xf0 /\
  memory_translate true addr s' = addr.
Proof.
  intros Ha s'.
  repeat (split; [vm_compute; reflexivity|]).
  unfold memory_translate, MMU_REMAP_ADDR. subst s'.
  rewrite device_reset_mmu by apply page_cases.
  apply lor_page_offset; [exact Ha | reflexivity].
Qed.
End Reset.

Lemma device_reset_state_witness :
  memory_translate true 0x1234 (device_reset cc_zeros z180_device_ctor) = 0x1234.
Proof.
  pose proof (device_reset_state cc_zeros z180_device_ctor 0x1234 ltac:(lia)) as H.
  cbv zeta in H. apply H.
Defined.

(** * DMA: [z180_dma0], [z180_dma1] *)

Lemma memory_wait_states_dcntl_le (t : z180_device) : memory_wait_states_dcntl t <= 3.
Proof.
  unfold memory_wait_states_dcntl.
  rewrite Z.shiftr_land. change (Z.shiftr 0xc0 6) with 3.
  pose proof (land_3_range (Z.shiftr (m_dcntl t) 6)). lia.
Qed.

Section DmaCount.
Variable memory_wait_states : z180_device -> Z.
Variable IN : Z -> z180_device -> Z * z180_device.
Variable OUT : Z -> Z -> z180_device -> z180_device.
Variables (W max_cycles ss ds : Z).
Hypothesis Hwait : forall t, memory_wait_states t <= W.
Hypothesis HW : 0 <= W.

Local Abbreviation dma0_loop := (dma0_loop memory_wait_states IN OUT).
Local Abbreviation z180_dma0 := (z180_dma0 memory_wait_states IN OUT).
Local Abbreviation z180_dma1 := (z180_dma1 memory_wait_states).
Local Abbreviation dma0_pass := (dma0_pass memory_wait_states IN OUT).

(** C4 (amended): channel 0 enabled, in burst mode, in a memory to memory
    mode with address steps [ss] and [ds], with a count of 4 and a budget
    that covers the first three bytes (a memory access waits at most [W]
    states): one dispatch copies exactly 4 bytes from the source to the
    destination address, each address stepping by its own increment,
    decrement or not at all; the count is then 0; the transfer-end output
    TEND0 is asserted for the last byte only: after three passes of the
    loop the lines are as they were, the bit is set in [m_iol] when the
    loop is left after the fourth, and it is cleared again by the
    statements for the terminal count, so that TEND0 is not asserted when
    the dispatch returns; DE0 is cleared; the DMA0 interrupt is queued
    exactly if DIE0 and IFF1 are set. *)
Theorem dma0_burst_copies_four_bytes (s : z180_device) :
  m_dma_bcr s 0 = 4 ->
  3 * (2 * W + 6) <= max_cycles ->
  nz (Z.land (m_dstat s) Z180_DSTAT_DE0) = true ->
  nz (Z.land (m_dmode s) Z180_DMODE_MMOD) = true ->
  mem_to_mem_steps (Z.land (m_dmode s) (Z.lor Z180_DMODE_SM Z180_DMODE_DM)) = Some (ss, ds) ->
  let s' := snd (z180_dma0 max_cycles s) in
  let sl := snd (dma0_loop 4 max_cycles (dma0_entry s) s) in
  m_program s' = copy_bytes 4 (m_dma_sar0 s) (m_dma_dar0 s) ss ds (m_program s) /\
  m_dma_sar0 s' = step_addr 4 (m_dma_sar0 s) ss /\
  m_dma_dar0 s' = step_addr 4 (m_dma_dar0 s) ds /\
  m_dma_bcr s' 0 = 0 /\
  Z.land (m_iol sl) Z180_TEND0 = Z180_TEND0 /\
  Z.land (m_iol s') Z180_TEND0 = 0 /\
  Z.land (m_dstat s') Z180_DSTAT_DE0 = 0 /\
  (forall j, m_int_pending s' j
     = if (j =? Z180_INT_DMA0) && nz (Z.land (m_dstat s) Z180_DSTAT_DIE0) && nz (m_IFF1 s)
       then 1 else m_int_pending s j) /\
  m_iol (snd (Nat.iter 3 dma0_pass (dma0_entry s, s))) = m_iol s /\
  get_tend0 sl = true /\
  get_tend0 s' = false.
Proof.
  intros Hb Hbud Hde Hmm Hm.
  pose proof (dma0_burst_all memory_wait_states IN OUT W max_cycles ss ds Hwait HW s 4
                ltac:(lia) ltac:(rewrite Hb; reflexivity) ltac:(lia) Hde Hmm Hm) as H.
  cbv zeta in H |- *.
  destruct H as (H1 & H2 & H3 & H4 & H5 & H6 & H7 & H8).
  pose proof (dma0_passes_mem memory_wait_states IN OUT W ss ds Hwait 3 (dma0_entry s) s Hm)
    as P.
  cbv zeta in P. destruct P as (_ & _ & _ & _ & _ & P6 & _).
  assert (Eb : bcr0 (dma0_entry s) = 4) by (unfold dma0_entry; rewrite Hb; reflexivity).
  rewrite Eb in P6. change ((1 <=? 4) && (4 <=? Z.of_nat 3)) with false in P6.
  unfold get_tend0. change (Z.to_nat 4) with 4%nat in H5. rewrite H5, H6.
  repeat split; assumption.
Qed.

(** C5: a dispatch entered with the 16-bit count register at 0 proceeds as
    with a count of 65536, never as with nothing to move or as at the
    terminal count.

    Channel 0, enabled.  Every selection of the source and destination
    modes is of one of four kinds.  Memory to memory: in cycle steal mode
    one byte is moved, the register is left at 0xFFFF and the channel stays
    enabled with nothing queued; a burst moves [k] bytes, at least one and
    at most 65536, leaves 65536 - [k] in the register, stops short of 65536
    only on its budget, and reaches the terminal count at 65536, which a
    budget covering 65535 bytes ensures.  An I/O end with DREQ0 asserted:
    the first unit is moved through [IN] or [OUT] with 65535 left to go;
    in cycle steal mode, with an edge sensitive DREQ0, or with the budget
    spent, the dispatch ends there, the register at 0xFFFF; otherwise the
    loop goes on from there with a count of 65535, and when the handler of
    the port leaves the control members of the channel alone, the burst
    moves [k] units as a memory to memory burst does.  A reserved
    selection, or an I/O end with DREQ0 low: nothing is moved, the register
    stays 0 and the channel stays enabled, while the passes of a count of
    65536 (one in cycle steal mode) are charged six cycles each as far as
    the budget allows.

    Channel 1, requested and enabled, moves one unit between memory and I/O
    and stays enabled, with TEND1 and the pending interrupts as they
    were.

    A dispatch of a channel that is not enabled (or, for channel 1, not
    requested) does nothing, whatever its count. *)
Theorem dma_count_zero_is_65536 (s : z180_device) (dstep sstep : Z) :
  let sel := Z.land (m_dmode s) (Z.lor Z180_DMODE_SM Z180_DMODE_DM) in
  let burst := nz (Z.land (m_dmode s) Z180_DMODE_MMOD) in
  let dreq0 := nz (Z.land (m_iol s) Z180_DREQ0) in
  let sar := m_dma_sar0 s in
  let dar := m_dma_dar0 s in
  let r := z180_dma0 max_cycles s in
  let s' := snd r in
  (nz (Z.land (m_dstat s) Z180_DSTAT_DE0) = false -> r = (0, s)) /\
  (nz (Z.land (m_iol s) Z180_DREQ1) = false \/
   nz (Z.land (m_dstat s) Z180_DSTAT_DE1) = false -> z180_dma1 s = (0, s)) /\
  (m_dma_bcr s 0 = 0 ->
   nz (Z.land (m_dstat s) Z180_DSTAT_DE0) = true ->
   (* the four kinds of selection *)
   (mem_to_mem_steps sel <> None \/
    (io_to_mem_step sel <> None /\ dreq0 = true) \/
    (mem_to_io_step sel <> None /\ dreq0 = true) \/
    dma0_idles s = true) /\
   (* memory to memory *)
   (mem_to_mem_steps sel = Some (ss, ds) ->
    (burst = false ->
     m_program s' = copy_bytes 1 sar dar ss ds (m_program s) /\
     m_dma_sar0 s' = step_addr 1 sar ss /\
     m_dma_dar0 s' = step_addr 1 dar ds /\
     m_dma_bcr s' 0 = 0xffff /\
     m_dstat s' = m_dstat s /\ m_iol s' = m_iol s /\
     m_int_pending s' = m_int_pending s) /\
    (burst = true ->
     exists k : Z, 1 <= k <= 65536 /\
       m_program s' = copy_bytes (Z.to_nat k) sar dar ss ds (m_program s) /\
       m_dma_sar0 s' = step_addr (Z.to_nat k) sar ss /\
       m_dma_dar0 s' = step_addr (Z.to_nat k) dar ds /\
       counted_from_65536 k max_cycles s r /\
       (65535 * (2 * W + 6) <= max_cycles -> k = 65536))) /\
   (* an I/O port to memory, DREQ0 asserted *)
   (io_to_mem_step sel = Some dstep -> dreq0 = true ->
    let t0 := s <| m_extra_cycles := 0 |> in
    let v := fst (IN sar t0) in
    let t1 := program_write_byte dar v (snd (IN sar t0)) in
    let edge := nz (Z.land (m_dcntl t1) Z180_DCNTL_DMS0) in
    let t2 := if edge then t1 <| m_iol := Z.land (m_iol t1) (Z.lnot Z180_DREQ0) |> else t1 in
    let c1 := memory_wait_states t1 + (6 + m_extra_cycles t2) in
    (burst = false \/ edge = true \/ max_cycles < c1 ->
     r = (c1, t2 <| m_dma_sar0 := sar |> <| m_dma_dar0 := u32 (dar + dstep) |>
                <| m_dma_bcr := upd (m_dma_bcr t2) 0 0xffff |>)) /\
    (burst = true -> edge = false -> c1 <= max_cycles ->
     r = (let '(l, t) := dma0_loop (Z.to_nat 65535) max_cycles
                           (mk_dma0 sar (u32 (dar + dstep)) 65535 65535 c1) t2 in
          dma0_exit l t)) /\
    (burst = true ->
     nz (Z.land (m_dcntl s) Z180_DCNTL_DMS0) = false ->
     (forall t, keeps dma0_ctl_view t (snd (IN sar t))) ->
     exists k : Z, 1 <= k <= 65536 /\
       m_dma_sar0 s' = sar /\
       m_dma_dar0 s' = step_addr (Z.to_nat k) dar dstep /\
       counted_from_65536 k max_cycles s r)) /\
   (* memory to an I/O port, DREQ0 asserted *)
   (mem_to_io_step sel = Some sstep -> dreq0 = true ->
    let t0 := s <| m_extra_cycles := 0 |> in
    let t1 := OUT dar (program_read_byte sar t0) t0 in
    let edge := nz (Z.land (m_dcntl t1) Z180_DCNTL_DMS0) in
    let t2 := if edge then t1 <| m_iol := Z.land (m_iol t1) (Z.lnot Z180_DREQ0) |> else t1 in
    let c1 := memory_wait_states t1 + (6 + m_extra_cycles t2) in
    (burst = false \/ edge = true \/ max_cycles < c1 ->
     r = (c1, t2 <| m_dma_sar0 := u32 (sar + sstep) |> <| m_dma_dar0 := dar |>
                <| m_dma_bcr := upd (m_dma_bcr t2) 0 0xffff |>)) /\
    (burst = true -> edge = false -> c1 <= max_cycles ->
     r = (let '(l, t) := dma0_loop (Z.to_nat 65535) max_cycles
                           (mk_dma0 (u32 (sar + sstep)) dar 65535 65535 c1) t2 in
          dma0_exit l t)) /\
    (burst = true ->
     nz (Z.land (m_dcntl s) Z180_DCNTL_DMS0) = false ->
     (forall v t, keeps dma0_ctl_view t (OUT dar v t)) ->
     exists k : Z, 1 <= k <= 65536 /\
       m_dma_sar0 s' = step_addr (Z.to_nat k) sar sstep /\
       m_dma_dar0 s' = dar /\
       counted_from_65536 k max_cycles s r)) /\
   (* nothing to move *)
   (dma0_idles s = true ->
    let passes := if burst then 65536 else 1 in
    m_program s' = m_program s /\ m_iospace s' = m_iospace s /\
    m_io_trace s' = m_io_trace s /\
    m_dma_sar0 s' = sar /\ m_dma_dar0 s' = dar /\
    (forall j, m_dma_bcr s' j = m_dma_bcr s j) /\
    m_dstat s' = m_dstat s /\ m_int_pending s' = m_int_pending s /\
    m_iol s' = m_iol s /\
    exists p : Z, 1 <= p <= passes /\ fst r = 6 * p /\
                  (p < passes -> max_cycles < 6 * p))) /\
  (m_dma_bcr s 1 = 0 ->
   nz (Z.land (m_iol s) Z180_DREQ1) = true ->
   nz (Z.land (m_dstat s) Z180_DSTAT_DE1) = true ->
   let s' := snd (z180_dma1 s) in
   let mar1 := m_dma_mar1 s in
   let iar1 := pair_w_l (m_dma_iar1 s) in
   let mode := Z.land (m_dcntl s) (Z.lor Z180_DCNTL_DIM1 Z180_DCNTL_DIM0) in
   m_dstat s' = m_dstat s /\
   m_int_pending s' = m_int_pending s /\
   Z.land (m_iol s') Z180_TEND1 = Z.land (m_iol s) Z180_TEND1 /\
   m_dma_bcr s' 1 = 0 /\
   (mode < 2 ->
    m_io_trace s' = IoWrite iar1 (m_program s (Z.land mar1 0xfffff)) :: m_io_trace s /\
    m_iospace s' = upd (m_iospace s) (Z.land iar1 0xffff) (m_program s (Z.land mar1 0xfffff)) /\
    m_program s' = m_program s) /\
   (2 <= mode ->
    m_io_trace s' = IoRead iar1 :: m_io_trace s /\
    m_iospace s' = m_iospace s /\
    m_program s' = upd (m_program s) (Z.land mar1 0xfffff) (m_iospace s (Z.land iar1 0xffff))) /\
   m_dma_mar1 s' = u32 (mar1 + (if Z.testbit mode 0 then -1 else 1))).
Proof.
  cbv zeta. split; [|split; [|split]].
  - intros Hde. unfold Z180.z180_dma0. cbv zeta. rewrite Hde. reflexivity.
  - intros Hoff. cbv beta delta [Z180.z180_dma1]. cbv zeta.
    replace (Z.land (m_iol s) Z180_DREQ1 =? 0)
      with (negb (nz (Z.land (m_iol s) Z180_DREQ1)))
      by (unfold nz; apply negb_involutive).
    destruct Hoff as [H | H]; rewrite H; cbn [negb]; [reflexivity|].
    destruct (nz (Z.land (m_iol s) Z180_DREQ1)); reflexivity.
  - intros Hb Hde.
    split; [apply dma0_selection_kinds|].
    split; [|split; [|split]].
    + intros Hm. split.
      * intros Hmm.
        pose proof (dma0_cycle_steal memory_wait_states IN OUT max_cycles ss ds s 0x10000
                      ltac:(lia) ltac:(rewrite Hb; reflexivity) ltac:(lia) Hde Hmm Hm) as H.
        cbv zeta in H.
        destruct H as (H1 & H2 & H3 & H4 & H5 & H6 & H7).
        repeat split; assumption.
      * intros Hmm.
        exact (dma0_burst_mem_any memory_wait_states IN OUT W max_cycles Hwait HW
                 ss ds s Hb Hde Hmm Hm).
    + intros Hm Hq.
      pose proof (dma0_io_in_first memory_wait_states IN OUT max_cycles dstep s
                    Hb Hde Hm Hq) as [F1 F2].
      split; [exact F1|]. split; [exact F2|].
      intros Hmm Hlv Hfr.
      exact (dma0_burst_io_in_any memory_wait_states IN OUT max_cycles dstep s
               Hb Hde Hmm Hm Hq Hlv Hfr).
    + intros Hm Hq.
      pose proof (dma0_io_out_first memory_wait_states IN OUT max_cycles sstep s
                    Hb Hde Hm Hq) as [F1 F2].
      split; [exact F1|]. split; [exact F2|].
      intros Hmm Hlv Hfr.
      exact (dma0_burst_io_out_any memory_wait_states IN OUT max_cycles sstep s
               Hb Hde Hmm Hm Hq Hlv Hfr).
    + intros Hi.
      exact (dma0_idle_zero memory_wait_states IN OUT max_cycles s Hb Hde Hi).
  - intros Hb Hq He. exact (dma1_count_zero memory_wait_states s Hb Hq He).
Qed.
End DmaCount.

Lemma dma0_burst_copies_four_bytes_witness :
  m_program (snd (z180_dma0 memory_wait_states_dcntl IN_external OUT_external 100
                    (dma0_burst_setup 4)))
  = copy_bytes 4 0x1000 0x2000 1 1 (m_program (dma0_burst_setup 4)) /\
  m_dma_bcr (snd (z180_dma0 memory_wait_states_dcntl IN_external OUT_external 100
                    (dma0_burst_setup 4))) 0 = 0 /\
  Z.land (m_dstat (snd (z180_dma0 memory_wait_states_dcntl IN_external OUT_external 100
                          (dma0_burst_setup 4)))) Z180_DSTAT_DE0 = 0.
Proof.
  pose proof (dma0_burst_copies_four_bytes memory_wait_states_dcntl IN_external
                OUT_external 3 100 1 1 memory_wait_states_dcntl_le ltac:(lia)
                (dma0_burst_setup 4) ltac:(reflexivity) ltac:(lia) ltac:(reflexivity)
                ltac:(reflexivity) ltac:(reflexivity)) as H.
  cbv zeta in H. destruct H as (H1 & _ & _ & H4 & _ & _ & H7 & _).
  split; [exact H1 | split; [exact H4 | exact H7]].
Defined.

(** the external port accesses leave the control members of channel 0
    alone *)
Lemma IN_external_keeps_ctl (port : Z) (t : z180_device) :
  keeps dma0_ctl_view t (snd (IN_external port t)).
Proof. reflexivity. Qed.

Lemma OUT_external_keeps_ctl (port v : Z) (t : z180_device) :
  keeps dma0_ctl_view t (OUT_external port v t).
Proof. reflexivity. Qed.

Lemma dma_count_zero_is_65536_witness :
  m_dma_bcr (snd (z180_dma0 memory_wait_states_dcntl IN_external OUT_external 100
                    (dma0_steal_setup 0))) 0 = 0xffff /\
  snd (z180_dma0 memory_wait_states_dcntl IN_external OUT_external 100 dma0_io_setup)
  = (program_write_byte 0x2000 (m_iospace dma0_io_setup 0x40)
       (snd (IN_external 0x40 dma0_io_setup)))
      <| m_dma_sar0 := 0x40 |> <| m_dma_dar0 := 0x2001 |>
      <| m_dma_bcr := upd (m_dma_bcr dma0_io_setup) 0 0xffff |> /\
  m_dma_sar0 (snd (z180_dma0 memory_wait_states_dcntl IN_external OUT_external 100
                     dma0_io_burst_setup)) = 0x40 /\
  m_dstat (snd (z180_dma1 memory_wait_states_dcntl (dma1_setup 0)))
  = m_dstat (dma1_setup 0).
Proof.
  pose proof (dma_count_zero_is_65536 memory_wait_states_dcntl IN_external OUT_external
                3 100 1 1 memory_wait_states_dcntl_le ltac:(lia) (dma0_steal_setup 0) 1 1)
    as H0.
  pose proof (dma_count_zero_is_65536 memory_wait_states_dcntl IN_external OUT_external
                3 100 1 1 memory_wait_states_dcntl_le ltac:(lia) dma0_io_setup 1 1)
    as H2.
  pose proof (dma_count_zero_is_65536 memory_wait_states_dcntl IN_external OUT_external
                3 100 1 1 memory_wait_states_dcntl_le ltac:(lia) dma0_io_burst_setup 1 1)
    as H3.
  pose proof (dma_count_zero_is_65536 memory_wait_states_dcntl IN_external OUT_external
                3 100 1 1 memory_wait_states_dcntl_le ltac:(lia) (dma1_setup 0) 1 1)
    as H1.
  cbv zeta in H0, H1, H2, H3.
  destruct H0 as (_ & _ & H0 & _). destruct H1 as (_ & _ & _ & H1).
  destruct H2 as (_ & _ & H2 & _). destruct H3 as (_ & _ & H3 & _).
  specialize (H0 ltac:(reflexivity) ltac:(reflexivity)).
  specialize (H2 ltac:(reflexivity) ltac:(reflexivity)).
  specialize (H3 ltac:(reflexivity) ltac:(reflexivity)).
  specialize (H1 ltac:(reflexivity) ltac:(reflexivity) ltac:(reflexivity)).
  destruct H0 as (_ & H0 & _).
  specialize (H0 ltac:(reflexivity)). destruct H0 as [H0 _].
  specialize (H0 ltac:(reflexivity)).
  destruct H2 as (_ & _ & H2 & _).
  specialize (H2 ltac:(reflexivity) ltac:(reflexivity)). destruct H2 as [H2 _].
  specialize (H2 ltac:(left; reflexivity)).
  destruct H3 as (_ & _ & H3 & _).
  specialize (H3 ltac:(reflexivity) ltac:(reflexivity)). destruct H3 as (_ & _ & H3).
  specialize (H3 ltac:(reflexivity) ltac:(reflexivity)
                 (IN_external_keeps_ctl (m_dma_sar0 dma0_io_burst_setup))).
  destruct H3 as (k & _ & H3 & _).
  split; [apply H0 |
    split; [rewrite H2; vm_compute; reflexivity | split; [exact H3 | apply H1]]].
Defined.

(** With a count of 4 moved in one burst, the count is 0 and DE0 is clear
    when the dispatch returns, but TEND0 is not asserted: it was lowered
    again at the terminal count. *)
Lemma burst_ends_with_tend0_asserted_fails :
  burst_ends_with_tend0_asserted memory_wait_states_dcntl IN_external OUT_external 100
    (dma0_burst_setup 4) = false.
Proof. vm_compute. reflexivity. Qed.

(** * Programmable reload timers: [clock_timers], [z180_writecontrol] *)

(** one timer clock, seen from timer 1 *)
Lemma tick_timer1 (v : timer_view) :
  tv_cnt v = 0 ->
  let v' := Nat.iter 20 clock_view v in
  tv_cnt v' = 0 /\ tv_rldr1 v' = tv_rldr1 v /\
  Z.testbit (tv_tcr v') 1 = Z.testbit (tv_tcr v) 1 /\
  (Z.testbit (tv_tcr v) 1 = true ->
   (tv_tmdr1 v = 0 -> tv_tmdr1 v' = tv_rldr1 v /\ Z.testbit (tv_tcr v') 7 = true) /\
   (tv_tmdr1 v <> 0 ->
    tv_tmdr1 v' = u16 (tv_tmdr1 v - 1) /\
    Z.testbit (tv_tcr v') 7 = Z.testbit (tv_tcr v) 7)).
Proof.
  destruct v as [c tcr t0 t1 r0 r1]. cbn [tv_cnt tv_tcr tv_tmdr1 tv_rldr1].
  intros ->. cbv zeta. rewrite tick_view. unfold clock_view.
  cbn [tv_cnt tv_tcr tv_tmdr0 tv_tmdr1 tv_rldr0 tv_rldr1].
  change (19 + 1 >=? 20) with true. cbv iota.
  destruct (nz (Z.land tcr Z180_TCR_TDE0)); destruct (t0 =? 0); cbv iota beta.
  all: rewrite (nz_bit _ Z180_TCR_TDE1 1) by (reflexivity || lia).
  all: rewrite ?testbit_lor_const.
  all: change (Z.testbit Z180_TCR_TIF0 1) with false.
  all: rewrite ?orb_false_r.
  all: destruct (Z.testbit tcr 1) eqn:B1; destruct (Z.eqb_spec t1 0) as [E1|E1];
    cbv iota beta.
  all: cbn [tv_cnt tv_tcr tv_tmdr1 tv_rldr1].
  all: rewrite ?testbit_lor_const.
  all: change (Z.testbit Z180_TCR_TIF0 1) with false;
       change (Z.testbit Z180_TCR_TIF1 1) with false;
       change (Z.testbit Z180_TCR_TIF0 7) with false;
       change (Z.testbit Z180_TCR_TIF1 7) with true.
  all: rewrite ?orb_false_r, ?orb_true_r, ?B1.
  all: repeat split; try reflexivity; try congruence; intros; try congruence.
  all: repeat split; try reflexivity; try congruence.
Qed.

Lemma ticks_view (k : nat) (s : z180_device) :
  view_of (Nat.iter k (Nat.iter 20 clock_timers) s)
  = Nat.iter k (Nat.iter 20 clock_view) (view_of s).
Proof.
  induction k as [|k IH]; [reflexivity|].
  rewrite !(Nat.iter_succ k), iter_view, IH. reflexivity.
Qed.

(** timer 0 enabled with its counter at zero: reload on the first timer
    clock, then count down *)
Lemma timer0_run (R : Z) (v : timer_view) (k : nat) :
  0 <= R < 65536 -> tv_cnt v = 0 -> tv_rldr0 v = R ->
  Z.testbit (tv_tcr v) 0 = true -> tv_tmdr0 v = 0 ->
  Z.of_nat k <= R ->
  let vk := Nat.iter (S k) (Nat.iter 20 clock_view) v in
  tv_cnt vk = 0 /\ tv_rldr0 vk = R /\ Z.testbit (tv_tcr vk) 0 = true /\
  tv_tmdr0 vk = R - Z.of_nat k /\ Z.testbit (tv_tcr vk) 6 = true.
Proof.
  intros HR Hc Hr Hb Ht. induction k as [|k IH]; intros Hk; cbv zeta.
  - rewrite (Nat.iter_succ 0). change (Nat.iter 0 (Nat.iter 20 clock_view) v) with v.
    destruct (tick_timer0 v Hc) as (A & B & C & D).
    destruct (D Hb) as [D0 _]. destruct (D0 Ht) as [D1 D2].
    repeat split; try congruence. rewrite D1, Hr. cbn. lia.
  - rewrite (Nat.iter_succ (S k)).
    destruct (IH ltac:(lia)) as (A & B & C & D & E).
    set (w := Nat.iter (S k) (Nat.iter 20 clock_view) v) in *.
    destruct (tick_timer0 w A) as (A' & B' & C' & D').
    destruct (D' C) as [_ D1]. destruct (D1 ltac:(lia)) as [D2 D3].
    repeat split; try congruence.
    rewrite D2, D, u16_small by lia. lia.
Qed.

Lemma timer1_run (R : Z) (v : timer_view) (k : nat) :
  0 <= R < 65536 -> tv_cnt v = 0 -> tv_rldr1 v = R ->
  Z.testbit (tv_tcr v) 1 = true -> tv_tmdr1 v = 0 ->
  Z.of_nat k <= R ->
  let vk := Nat.iter (S k) (Nat.iter 20 clock_view) v in
  tv_cnt vk = 0 /\ tv_rldr1 vk = R /\ Z.testbit (tv_tcr vk) 1 = true /\
  tv_tmdr1 vk = R - Z.of_nat k /\ Z.testbit (tv_tcr vk) 7 = true.
Proof.
  intros HR Hc Hr Hb Ht. induction k as [|k IH]; intros Hk; cbv zeta.
  - rewrite (Nat.iter_succ 0). change (Nat.iter 0 (Nat.iter 20 clock_view) v) with v.
    destruct (tick_timer1 v Hc) as (A & B & C & D).
    destruct (D Hb) as [D0 _]. destruct (D0 Ht) as [D1 D2].
    repeat split; try congruence. rewrite D1, Hr. cbn. lia.
  - rewrite (Nat.iter_succ (S k)).
    destruct (IH ltac:(lia)) as (A & B & C & D & E).
    set (w := Nat.iter (S k) (Nat.iter 20 clock_view) v) in *.
    destruct (tick_timer1 w A) as (A' & B' & C' & D').
    destruct (D' C) as [_ D1]. destruct (D1 ltac:(lia)) as [D2 D3].
    repeat split; try congruence.
    rewrite D2, D, u16_small by lia. lia.
Qed.



Lemma remap_port_base0 (s : z180_device) (port : Z) :
  Z.land (m_iocr s) 0xc0 = 0 -> remap_port s port = port.
Proof.
  intros H. unfold remap_port. rewrite H, Z.land_0_r. cbn. lia.
Qed.

Lemma writecontrol_base0 (s : z180_device) (port d : Z) :
  Z.land (m_iocr s) 0xc0 = 0 ->
  z180_writecontrol port d s = writecontrol_switch port d (io_write_byte port d s).
Proof.
  intros H. unfold z180_writecontrol. cbv zeta.
  change (remap_port (io_write_byte port d s) port) with (remap_port s port).
  rewrite remap_port_base0 by exact H. reflexivity.
Qed.




Section TimerProgram.
Variables (s : z180_device) (R d : Z).
Hypothesis Hbase : Z.land (m_iocr s) 0xc0 = 0.
Hypothesis HR : 0 <= R < 65536.
Hypothesis Hcnt : m_timer_cnt s = 0.


End TimerProgram.

Lemma handle_io_timers_view (k : Z) (s : z180_device) :
  0 <= k ->
  view_of (handle_io_timers (20 * k) s)
  = Nat.iter (Z.to_nat k) (Nat.iter 20 clock_view) (view_of s).
Proof. intros Hk. rewrite handle_io_timers_ticks by exact Hk. apply ticks_view. Qed.




(** * Non-maskable interrupt: [execute_run], [execute_set_input] *)

Lemma pair_w_l_set v d : pair_w_l (pair_set_w_l v d) = u16 v.
Proof.
  unfold pair_w_l, pair_set_w_l, u16.
  change 65536 with (2 ^ 16). rewrite <- Z.land_ones by lia.
  change (Z.ones 16) with 0xffff.
  rewrite Z.land_lor_distr_l, <- !Z.land_assoc.
  change (Z.land 0xffff0000 0xffff) with 0. change (Z.land 0xffff 0xffff) with 0xffff.
  rewrite Z.land_0_r. reflexivity.
Qed.

Lemma u16_idem x : u16 (u16 x) = u16 x.
Proof. unfold u16. apply Z.mod_mod. lia. Qed.

Section Run.
Variable memory_wait_states : z180_device -> Z.
Variable IN : Z -> z180_device -> Z * z180_device.
Variable OUT : Z -> Z -> z180_device -> z180_device.
Variable take_interrupt : Z -> z180_device -> Z * z180_device.
Variable exec_op : z180_device -> Z * z180_device.
Variable INPUT_LINE_NMI : Z.
Variable Z180_INPUT_LINE_IRQ0 Z180_INPUT_LINE_IRQ1 Z180_INPUT_LINE_IRQ2 : Z.
Variable Z180_INPUT_LINE_DREQ0 Z180_INPUT_LINE_DREQ1 : Z.
Variable daisy_chain_present : bool.
Variable daisy_update_irq_state : z180_device -> Z.

Local Abbreviation execute_run := (execute_run memory_wait_states IN OUT take_interrupt exec_op).
Local Abbreviation run_from := (run_from memory_wait_states IN OUT take_interrupt exec_op).
Local Abbreviation execute_set_input :=
  (execute_set_input INPUT_LINE_NMI Z180_INPUT_LINE_IRQ0 Z180_INPUT_LINE_IRQ1
     Z180_INPUT_LINE_IRQ2 Z180_INPUT_LINE_DREQ0 Z180_INPUT_LINE_DREQ1
     daisy_chain_present daisy_update_irq_state).

Lemma execute_set_input_nmi_pending (irqline state : Z) (s : z180_device) :
  m_nmi_pending (execute_set_input irqline state s)
  = if (irqline =? INPUT_LINE_NMI) && (m_nmi_state s =? CLEAR_LINE)
       && negb (state =? CLEAR_LINE)
    then 1 else m_nmi_pending s.
Proof.
  cbv beta delta [Z180.execute_set_input].
  destruct (irqline =? INPUT_LINE_NMI).
  - cbn [andb]. cbv zeta.
    destruct ((m_nmi_state s =? CLEAR_LINE) && negb (state =? CLEAR_LINE)); reflexivity.
  - cbn [andb].
    change (keeps m_nmi_pending s
      (if (irqline =? Z180_INPUT_LINE_IRQ0) || (irqline =? Z180_INPUT_LINE_IRQ1)
          || (irqline =? Z180_INPUT_LINE_IRQ2)
       then
         let s0 := s <| m_irq_state := upd (m_irq_state s) irqline (u8 state) |> in
         if daisy_chain_present
         then s0 <| m_irq_state := upd (m_irq_state s0) 0 (u8 (daisy_update_irq_state s0)) |>
         else s0
       else if irqline =? Z180_INPUT_LINE_DREQ0
       then
         let iol := Z.land (m_iol s) (Z.lnot Z180_DREQ0) in
         let iol0 := if state =? ASSERT_LINE then Z.lor iol Z180_DREQ0 else iol in
         z180_write_iolines iol0 s
       else if irqline =? Z180_INPUT_LINE_DREQ1
       then
         let iol := Z.land (m_iol s) (Z.lnot Z180_DREQ1) in
         let iol0 := if state =? ASSERT_LINE then Z.lor iol Z180_DREQ1 else iol in
         z180_write_iolines iol0 s
       else s)).
    frame_walk ltac:(first [keeps_leaf | apply write_iolines_nmi]).
Qed.

Lemma write_iolines_nmi_state data s : keeps m_nmi_state s (z180_write_iolines data s).
Proof.
  cbv beta delta [z180_write_iolines write_ioline]. frame_walk keeps_leaf.
Qed.

Lemma execute_set_input_nmi_state (irqline state : Z) (s : z180_device) :
  m_nmi_state (execute_set_input irqline state s)
  = if irqline =? INPUT_LINE_NMI then u8 state else m_nmi_state s.
Proof.
  cbv beta delta [Z180.execute_set_input].
  destruct (irqline =? INPUT_LINE_NMI).
  - cbv zeta.
    destruct ((m_nmi_state s =? CLEAR_LINE) && negb (state =? CLEAR_LINE)); reflexivity.
  - change (keeps m_nmi_state s
      (if (irqline =? Z180_INPUT_LINE_IRQ0) || (irqline =? Z180_INPUT_LINE_IRQ1)
          || (irqline =? Z180_INPUT_LINE_IRQ2)
       then
         let s0 := s <| m_irq_state := upd (m_irq_state s) irqline (u8 state) |> in
         if daisy_chain_present
         then s0 <| m_irq_state := upd (m_irq_state s0) 0 (u8 (daisy_update_irq_state s0)) |>
         else s0
       else if irqline =? Z180_INPUT_LINE_DREQ0
       then
         let iol := Z.land (m_iol s) (Z.lnot Z180_DREQ0) in
         let iol0 := if state =? ASSERT_LINE then Z.lor iol Z180_DREQ0 else iol in
         z180_write_iolines iol0 s
       else if irqline =? Z180_INPUT_LINE_DREQ1
       then
         let iol := Z.land (m_iol s) (Z.lnot Z180_DREQ1) in
         let iol0 := if state =? ASSERT_LINE then Z.lor iol Z180_DREQ1 else iol in
         z180_write_iolines iol0 s
       else s)).
    frame_walk ltac:(first [keeps_leaf | apply write_iolines_nmi_state]).
Qed.

(** C7: when [execute_run] is entered with an NMI pending, it runs from the
    head of its loop in the state [take_nmi s], that is before any interrupt
    check, DMA service or instruction: the halt flag is clear, DME is
    clear, IFF2 holds the former IFF1, IFF1 is clear, the former PC is
    pushed (SP lowered by two, low byte at SP, high byte at SP + 1), PC is
    0x0066, the NMI latch is clear and 11 T-states are accounted.  The latch
    is set by [execute_set_input] only on a rising edge of the NMI line:
    only for the NMI line, found at [CLEAR_LINE], being given another
    level; the call records the level given as the state of the line (and
    a call for any other line leaves that state alone), so that once the
    latch has been cleared, a further call finds the line raised and sets
    the latch again only after the line has been back at [CLEAR_LINE]. *)
Theorem execute_run_takes_nmi_first
    (fuel : nat) (irqline state : Z) (s t : z180_device) :
  nz (m_nmi_pending s) = true ->
  let sp := u16 (_SP s - 2) in
  let s' := take_nmi s in
  execute_run fuel s = run_from fuel At_again s' /\
  m_HALT s' = 0 /\
  Z.land (m_dstat s') Z180_DSTAT_DME = 0 /\
  m_IFF2 s' = m_IFF1 s /\
  m_IFF1 s' = 0 /\
  _SP s' = sp /\
  m_program s'
    = upd (upd (m_program s) (Z.land (MMU_REMAP_ADDR s sp) 0xfffff) (pair_b_l (m_PC s)))
        (Z.land (MMU_REMAP_ADDR s (u16 (sp + 1))) 0xfffff) (pair_b_h (m_PC s)) /\
  m_PC s' = 0x0066 /\
  m_nmi_pending s' = 0 /\
  m_icount s' = m_icount s - 11 /\
  (m_nmi_pending (execute_set_input irqline state t)
   = if (irqline =? INPUT_LINE_NMI) && (m_nmi_state t =? CLEAR_LINE)
        && negb (state =? CLEAR_LINE)
     then 1 else m_nmi_pending t) /\
  (m_nmi_state (execute_set_input irqline state t)
   = if irqline =? INPUT_LINE_NMI then u8 state else m_nmi_state t) /\
  (forall state2 : Z,
     u8 state <> CLEAR_LINE ->
     m_nmi_pending
       (execute_set_input INPUT_LINE_NMI state2
          ((execute_set_input INPUT_LINE_NMI state t) <| m_nmi_pending := 0 |>)) = 0).
Proof.
  intros Hp sp s'.
  split; [unfold Z180.execute_run; rewrite Hp; reflexivity|].
  split; [|split; [|split; [|split; [|split; [|split; [|split; [|split; [|split]]]]]]]];
    [..|split; [apply execute_set_input_nmi_pending
               |split; [apply execute_set_input_nmi_state|]]].
  10: { intros state2 Hs.
        rewrite execute_set_input_nmi_pending. z180_cbn.
        rewrite execute_set_input_nmi_state, Z.eqb_refl. cbn [andb].
        replace (u8 state =? CLEAR_LINE) with false
          by (symmetry; apply Z.eqb_neq; exact Hs).
        reflexivity. }
  all: subst s' sp; unfold take_nmi.
  all: pose proof (timers_view_kept _ _ (handle_io_timers_frame 11 (nmi_entry s))) as F;
    destruct F as (F1 & F2 & F3 & F4 & F5 & F6 & F7 & F8 & F9 & _).
  all: pose proof (nmi_entry_view s) as V; cbv zeta in V;
    destruct V as (V1 & V2 & V3 & V4 & V5 & V6 & V7 & V8 & V9).
  all: assert (K : m_IFF1 (LEAVE_HALT s) = m_IFF1 s /\ m_SP (LEAVE_HALT s) = m_SP s /\
              m_program (LEAVE_HALT s) = m_program s /\
              m_PC (LEAVE_HALT s) = m_PC s /\ m_icount (LEAVE_HALT s) = m_icount s /\
              m_mmu (LEAVE_HALT s) = m_mmu s)
    by (unfold LEAVE_HALT; destruct (nz (m_HALT s)); repeat split; reflexivity).
  all: destruct K as (K1 & K2 & K3 & K4 & K5 & K6).
  all: unfold _SP, MMU_REMAP_ADDR in *.
  all: generalize dependent (handle_io_timers 11 (nmi_entry s)); intros s'.
  all: generalize dependent (nmi_entry s); intros e.
  all: pose proof (LEAVE_HALT_halt s) as K0.
  all: generalize dependent (LEAVE_HALT s); intros s1.
  all: intros; try congruence.
  - rewrite F2, V2. apply land_clear_mask.
  - rewrite F6, V5, pair_w_l_set, u16_idem. congruence.
Qed.
End Run.

Lemma execute_run_takes_nmi_first_witness :
  m_HALT (take_nmi nmi_latched) = 0 /\
  m_PC (take_nmi nmi_latched) = 0x0066 /\
  m_icount (take_nmi nmi_latched) = m_icount nmi_latched - 11.
Proof.
  pose proof (execute_run_takes_nmi_first memory_wait_states_dcntl IN_external
                OUT_external take_interrupt_ack exec_nop 32 0 1 2 3 4 false
                no_daisy_irq_state 10 32 ASSERT_LINE nmi_latched nmi_latched
                ltac:(reflexivity)) as H.
  cbv zeta in H.
  destruct H as (_ & H1 & _ & _ & _ & _ & _ & H7 & _ & H9 & _).
  split; [exact H1 | split; [exact H7 | exact H9]].
Defined.

(** * The internal I/O window: [z180_readcontrol], [z180_writecontrol] *)

(** case analysis on a port number down to the 64 registers of the bank *)
Ltac split_pos p n :=
  lazymatch n with
  | O => idtac
  | S ?n' => try (destruct p as [p|p|]; split_pos p n')
  end.

Ltac port_cases port :=
  destruct port as [|port|port]; [ | split_pos port 6%nat | ].

Ltac switch_leaf :=
  try lia;
  cbv beta iota zeta delta [readcontrol_switch writecontrol_switch
                            read_tcr_tmdr_toggle z180_mmu];
  z180_cbn; repeat (progress (case_ifs; cbv beta iota zeta; z180_cbn)); try reflexivity.

Lemma readcontrol_switch_outside (port data : Z) (s : z180_device) :
  ~ (0 <= port <= 0x3f) -> readcontrol_switch port data s = (data, s).
Proof. intros H. port_cases port; switch_leaf. Qed.

Lemma writecontrol_switch_outside (port data : Z) (s : z180_device) :
  ~ (0 <= port <= 0x3f) -> writecontrol_switch port data s = s.
Proof. intros H. port_cases port; switch_leaf. Qed.

Lemma readcontrol_switch_trace (port data : Z) (s : z180_device) :
  m_io_trace (snd (readcontrol_switch port data s)) = m_io_trace s.
Proof. port_cases port; switch_leaf. Qed.

Lemma writecontrol_switch_trace (port data : Z) (s : z180_device) :
  m_io_trace (writecontrol_switch port data s) = m_io_trace s.
Proof. port_cases port; switch_leaf. Qed.

Lemma readcontrol_switch_inside (port d1 d2 : Z) (m : array) (s : z180_device) :
  0 <= port <= 0x3f ->
  fst (readcontrol_switch port d1 (s <| m_iospace := m |>))
  = fst (readcontrol_switch port d2 s).
Proof. intros H. port_cases port; switch_leaf. Qed.

(** C8 (amended): [z180_readcontrol] and [z180_writecontrol] first access
    the external I/O space at the port as given, so the external handler
    sees every access; the base field of IOCR is subtracted from the port
    exactly when the port's bits selected by the field match it; the
    access is then serviced from the register bank exactly when the
    resulting port lies in 0x00..0x3F, whether or not the subtraction took
    place.  Outside that range the access is the external one and nothing
    else.  Inside it a read returns a value that does not depend on the
    external space, and the bank holds what is written: a byte written to a
    plain register is the byte read back at that port, whatever the
    external space holds by then; at a port of the range without a register
    a read returns 0xFF and a write is the external one alone. *)
Theorem internal_io_window (s : z180_device) (port d : Z) (m : array) :
  let base := Z.land (m_iocr s) 0xc0 in
  let port' := remap_port s port in
  m_io_trace (snd (z180_readcontrol port s)) = IoRead port :: m_io_trace s /\
  m_io_trace (z180_writecontrol port d s) = IoWrite port d :: m_io_trace s /\
  port' = (if Z.land port base =? base then port - base else port) /\
  (~ (0 <= port' <= 0x3f) ->
   z180_readcontrol port s = io_read_byte port s /\
   z180_writecontrol port d s = io_write_byte port d s) /\
  (0 <= port' <= 0x3f ->
   fst (z180_readcontrol port (s <| m_iospace := m |>)) = fst (z180_readcontrol port s)) /\
  (0 <= d < 256 -> In port' plain_ports ->
   fst (z180_readcontrol port ((z180_writecontrol port d s) <| m_iospace := m |>)) = d) /\
  (In port' absent_ports ->
   fst (z180_readcontrol port s) = 0xff /\
   z180_writecontrol port d s = io_write_byte port d s).
Proof.
  intros base port'.
  assert (RT : (0 <= d < 256 -> In port' plain_ports ->
                fst (z180_readcontrol port
                       ((z180_writecontrol port d s) <| m_iospace := m |>)) = d) /\
               (In port' absent_ports ->
                fst (z180_readcontrol port s) = 0xff /\
                z180_writecontrol port d s = io_write_byte port d s)).
  { split; [intros Hd Hin; apply bank_round_trip; assumption
           | intros Hin; apply bank_absent; exact Hin]. }
  revert RT.
  unfold z180_readcontrol, z180_writecontrol. cbv zeta.
  change (remap_port (snd (io_read_byte port s)) port) with port'.
  change (remap_port (snd (io_read_byte port (s <| m_iospace := m |>))) port) with port'.
  change (remap_port (io_write_byte port d s) port) with port'.
  unfold io_read_byte.
  intros RT.
  split; [|split; [|split; [|split; [|split; [|exact RT]]]]].
  - rewrite readcontrol_switch_trace. reflexivity.
  - rewrite writecontrol_switch_trace. reflexivity.
  - reflexivity.
  - intros H. split.
    + apply readcontrol_switch_outside. assumption.
    + apply writecontrol_switch_outside. assumption.
  - intros H.
    rewrite <- (readcontrol_switch_inside port' (m (Z.land port 0xffff))
                  (m_iospace s (Z.land port 0xffff)) m
                  (s <| m_io_trace := IoRead port :: m_io_trace s |>) H).
    reflexivity.
Qed.

Lemma internal_io_window_witness :
  z180_readcontrol 0x80 bank_at_0x40 = io_read_byte 0x80 bank_at_0x40 /\
  z180_writecontrol 0x80 0x55 bank_at_0x40 = io_write_byte 0x80 0x55 bank_at_0x40.
Proof.
  refine (proj1 (proj2 (proj2 (proj2
    (internal_io_window bank_at_0x40 0x80 0x55 zeros)))) _).
  vm_compute. intros [_ H]. apply H. reflexivity.
Defined.

(** With the bank based at 0x40, port 0x10 does not match the base field
    and is not remapped, yet the read is answered by TCR, not by the
    external space. *)
Lemma internal_read_only_when_matching_fails :
  internal_read_only_when_matching bank_at_0x40 0x10 = false.
Proof. vm_compute. reflexivity. Qed.

(** * Timer data registers: [z180_writecontrol] *)

(** C9: a write of the byte [d] to the remapped port 0x15 (TMDR1H) leaves
    the 16-bit down counter of timer 1 at (old value AND 0x00FF) OR [d], the
    byte not being shifted into bits 8 to 15, whereas the write to port 0x0D
    (TMDR0H) leaves the counter of timer 0 at (old value AND 0x00FF) OR
    ([d] shifted left by 8). *)
Theorem writecontrol_TMDR1H_not_shifted (s : z180_device) (p1 p0 d : Z) :
  0 <= d < 256 ->
  remap_port s p1 = 0x15 ->
  remap_port s p0 = 0x0d ->
  m_tmdr_value (z180_writecontrol p1 d s) 1
    = Z.lor (Z.land (m_tmdr_value s 1) 0x00ff) d /\
  m_tmdr_value (z180_writecontrol p0 d s) 0
    = Z.lor (Z.land (m_tmdr_value s 0) 0x00ff) (Z.shiftl d 8).
Proof.
  intros Hd H1 H0. unfold z180_writecontrol.
  change (remap_port (io_write_byte p1 d s) p1) with (remap_port s p1).
  change (remap_port (io_write_byte p0 d s) p0) with (remap_port s p0).
  rewrite H1, H0. cbn [writecontrol_switch].
  split.
  - cbn. rewrite pair16_b_h_set by exact Hd. reflexivity.
  - cbn. rewrite pair16_b_h_set by exact Hd. reflexivity.
Qed.

Lemma writecontrol_TMDR1H_not_shifted_witness :
  m_tmdr_value (z180_writecontrol 0x15 0x12 z180_device_ctor) 1
    = Z.lor (Z.land (m_tmdr_value z180_device_ctor 1) 0x00ff) 0x12 /\
  m_tmdr_value (z180_writecontrol 0x0d 0x12 z180_device_ctor) 0
    = Z.lor (Z.land (m_tmdr_value z180_device_ctor 0) 0x00ff) (Z.shiftl 0x12 8).
Proof.
  apply (writecontrol_TMDR1H_not_shifted z180_device_ctor 0x15 0x0d 0x12);
    [lia | reflexivity | reflexivity].
Defined.

(** * DMA status register: [z180_writecontrol] *)

(** C10: a write of the byte [d] to the remapped port 0x30 (DSTAT) never
    clears DME (bit 0): the new bit is the old one, or set when [d] has DE1
    (bit 7) set with DWE1 (bit 5) clear, or DE0 (bit 6) set with DWE0
    (bit 4) clear. *)
Theorem writecontrol_DSTAT_keeps_DME (s : z180_device) (port d : Z) :
  0 <= d < 256 ->
  remap_port s port = 0x30 ->
  Z.testbit (m_dstat (z180_writecontrol port d s)) 0
  = Z.testbit (m_dstat s) 0
    || (Z.testbit d 7 && negb (Z.testbit d 5))
    || (Z.testbit d 6 && negb (Z.testbit d 4)).
Proof.
  intros Hd Hp. unfold z180_writecontrol.
  change (remap_port (io_write_byte port d s) port) with (remap_port s port).
  rewrite Hp. cbn [writecontrol_switch].
  assert (E1 : (Z.land d (Z.lor Z180_DSTAT_DE1 Z180_DSTAT_DWE1) =? Z180_DSTAT_DE1)
               = Z.testbit d 7 && negb (Z.testbit d 5)).
  { change (Z.lor Z180_DSTAT_DE1 Z180_DSTAT_DWE1) with (Z.lor (2 ^ 7) (2 ^ 5)).
    change Z180_DSTAT_DE1 with (2 ^ 7).
    rewrite Z.land_lor_distr_r, !land_pow2 by lia.
    destruct (Z.testbit d 7), (Z.testbit d 5); reflexivity. }
  assert (E0 : (Z.land d (Z.lor Z180_DSTAT_DE0 Z180_DSTAT_DWE0) =? Z180_DSTAT_DE0)
               = Z.testbit d 6 && negb (Z.testbit d 4)).
  { change (Z.lor Z180_DSTAT_DE0 Z180_DSTAT_DWE0) with (Z.lor (2 ^ 6) (2 ^ 4)).
    change Z180_DSTAT_DE0 with (2 ^ 6).
    rewrite Z.land_lor_distr_r, !land_pow2 by lia.
    destruct (Z.testbit d 6), (Z.testbit d 4); reflexivity. }
  rewrite E1, E0.
  destruct (Z.testbit d 7 && negb (Z.testbit d 5)),
           (Z.testbit d 6 && negb (Z.testbit d 4)).
  all: cbn [m_dstat set set_m_dstat].
  all: change (m_dstat (io_write_byte port d s)) with (m_dstat s).
  all: rewrite !Z.lor_spec, !Z.land_spec.
  all: change (Z.testbit Z180_DSTAT_DME 0) with true.
  all: change (Z.testbit (Z.lnot Z180_DSTAT_DME) 0) with false.
  all: destruct (Z.testbit (m_dstat s) 0); rewrite ?andb_false_r; reflexivity.
Qed.

Lemma writecontrol_DSTAT_keeps_DME_witness :
  Z.testbit (m_dstat (z180_writecontrol 0x30 0x80 z180_device_ctor)) 0
  = Z.testbit (m_dstat z180_device_ctor) 0
    || (Z.testbit 0x80 7 && negb (Z.testbit 0x80 5))
    || (Z.testbit 0x80 6 && negb (Z.testbit 0x80 4)).
Proof.
  apply (writecontrol_DSTAT_keeps_DME z180_device_ctor 0x30 0x80); [lia | reflexivity].
Defined.

(** * Further properties of the flag tables *)

Lemma small_body_other (i j : Z) (t : flag_tables) :
  j <> i ->
  SZ (small_body i t) j = SZ t j /\ SZ_BIT (small_body i t) j = SZ_BIT t j /\
  SZP (small_body i t) j = SZP t j /\ SZHV_inc (small_body i t) j = SZHV_inc t j /\
  SZHV_dec (small_body i t) j = SZHV_dec t j.
Proof.
  intros H. unfold small_body. cbv zeta.
  cbn [SZ SZ_BIT SZP SZHV_inc SZHV_dec].
  rewrite !upd_other by exact H. repeat split.
Qed.

Lemma small_body_at (i : Z) (t : flag_tables) :
  SZ (small_body i t) i = SZ (small_body i empty_tables) i /\
  SZ_BIT (small_body i t) i = SZ_BIT (small_body i empty_tables) i /\
  SZP (small_body i t) i = SZP (small_body i empty_tables) i /\
  SZHV_inc (small_body i t) i = SZHV_inc (small_body i empty_tables) i /\
  SZHV_dec (small_body i t) i = SZHV_dec (small_body i empty_tables) i.
Proof.
  unfold small_body. cbv zeta. cbn [SZ SZ_BIT SZP SZHV_inc SZHV_dec].
  rewrite !upd_same. repeat split.
Qed.

(** the loop over [i] leaves the entries below its start alone *)
Lemma small_loop_below (n : nat) :
  forall lo t j, j < lo ->
    SZ (for_range n lo small_body t) j = SZ t j /\
    SZ_BIT (for_range n lo small_body t) j = SZ_BIT t j /\
    SZP (for_range n lo small_body t) j = SZP t j /\
    SZHV_inc (for_range n lo small_body t) j = SZHV_inc t j /\
    SZHV_dec (for_range n lo small_body t) j = SZHV_dec t j.
Proof.
  induction n as [|n IH]; intros lo t j Hj; [repeat split|].
  cbn [for_range].
  destruct (IH (lo + 1) (small_body lo t) j ltac:(lia)) as (-> & -> & -> & -> & ->).
  apply small_body_other. lia.
Qed.

(** each entry in the range of the loop is the one written for its index *)
Lemma small_loop_entry (n : nat) :
  forall lo t i, lo <= i < lo + Z.of_nat n ->
    SZ (for_range n lo small_body t) i = SZ (small_body i empty_tables) i /\
    SZ_BIT (for_range n lo small_body t) i = SZ_BIT (small_body i empty_tables) i /\
    SZP (for_range n lo small_body t) i = SZP (small_body i empty_tables) i /\
    SZHV_inc (for_range n lo small_body t) i = SZHV_inc (small_body i empty_tables) i /\
    SZHV_dec (for_range n lo small_body t) i = SZHV_dec (small_body i empty_tables) i.
Proof.
  induction n as [|n IH]; intros lo t i Hi; [lia|].
  cbn [for_range].
  destruct (Z.eq_dec i lo) as [-> | Hne].
  - destruct (small_loop_below n (lo + 1) (small_body lo t) lo ltac:(lia))
      as (-> & -> & -> & -> & ->).
    apply small_body_at.
  - apply IH. lia.
Qed.

Lemma device_start_small_entry (i : Z) :
  0 <= i < 256 ->
  SZ device_start_tables i = SZ (small_body i empty_tables) i /\
  SZ_BIT device_start_tables i = SZ_BIT (small_body i empty_tables) i /\
  SZP device_start_tables i = SZP (small_body i empty_tables) i /\
  SZHV_inc device_start_tables i = SZHV_inc (small_body i empty_tables) i /\
  SZHV_dec device_start_tables i = SZHV_dec (small_body i empty_tables) i.
Proof.
  intros Hi. unfold device_start_tables. cbv zeta.
  apply small_loop_entry. lia.
Qed.

Lemma small_entries_match : forallb small_entry_matches byte_range = true.
Proof. vm_compute. reflexivity. Qed.

Lemma inc_dec_entries_match : forallb inc_dec_entry_matches byte_range = true.
Proof. vm_compute. reflexivity. Qed.

(** For every byte [i], [SZ[i]] holds the sign (bit 7), the zero flag
    exactly for [i = 0] and bits 5 and 3 of [i]; [SZ_BIT[i]] is the same with
    the parity flag added for [i = 0]; [SZP[i]] is [SZ[i]] with the parity
    flag added exactly when [i] has an even number of one bits. *)
Theorem sz_tables_sign_zero_parity (i : Z) :
  0 <= i < 256 ->
  let t := device_start_tables in
  let sz := flag_bit (Z.testbit i 7) SF + flag_bit (i =? 0) ZF
            + flag_bit (Z.testbit i 5) YF + flag_bit (Z.testbit i 3) XF in
  SZ t i = sz /\
  SZ_BIT t i = sz + flag_bit (i =? 0) PF /\
  SZP t i = sz + flag_bit (even_parity i) PF.
Proof.
  intros Hi t sz. subst t.
  destruct (device_start_small_entry i Hi) as (-> & -> & -> & _ & _).
  pose proof small_entries_match as M. rewrite forallb_forall in M.
  specialize (M i (in_byte_range i Hi)). unfold small_entry_matches in M.
  cbv zeta in M. fold sz in M.
  apply andb_prop in M. destruct M as [M M3].
  apply andb_prop in M. destruct M as [M1 M2].
  repeat split; apply Z.eqb_eq; assumption.
Qed.

Lemma sz_tables_sign_zero_parity_witness :
  SZP device_start_tables 0x03
  = flag_bit (Z.testbit 0x03 7) SF + flag_bit (0x03 =? 0) ZF
    + flag_bit (Z.testbit 0x03 5) YF + flag_bit (Z.testbit 0x03 3) XF
    + flag_bit (even_parity 0x03) PF.
Proof.
  pose proof (sz_tables_sign_zero_parity 0x03 ltac:(lia)) as H.
  cbv zeta in H. apply H.
Defined.

(** For every byte [a], the entry of [SZHV_inc] at the result of [a + 1]
    holds the flags of the addition of 1 to [a] recomputed directly (sign,
    zero, half-carry, overflow, bits 5 and 3), [SZHV_dec] at the result of
    [a - 1] those of the subtraction of 1 (with N), the carry flag being
    left out of both. *)
Theorem szhv_inc_dec_match_direct (a : Z) :
  0 <= a < 256 ->
  SZHV_inc device_start_tables ((a + 1) mod 256)
    = Z.land (direct_add_flags a 1 0) (Z.lnot CF) /\
  SZHV_dec device_start_tables ((a - 1) mod 256)
    = Z.land (direct_sub_flags a 1 0) (Z.lnot CF).
Proof.
  intros Ha.
  assert (Hi : 0 <= (a + 1) mod 256 < 256) by (apply Z.mod_pos_bound; lia).
  assert (Hd : 0 <= (a - 1) mod 256 < 256) by (apply Z.mod_pos_bound; lia).
  destruct (device_start_small_entry _ Hi) as (_ & _ & _ & -> & _).
  destruct (device_start_small_entry _ Hd) as (_ & _ & _ & _ & ->).
  pose proof inc_dec_entries_match as M. rewrite forallb_forall in M.
  specialize (M a (in_byte_range a Ha)). unfold inc_dec_entry_matches in M.
  cbv zeta in M. apply andb_prop in M. destruct M as [M1 M2].
  split; apply Z.eqb_eq; assumption.
Qed.

Lemma szhv_inc_dec_match_direct_witness :
  SZHV_inc device_start_tables ((0x7f + 1) mod 256)
    = Z.land (direct_add_flags 0x7f 1 0) (Z.lnot CF).
Proof. exact (proj1 (szhv_inc_dec_match_direct 0x7f ltac:(lia))). Defined.

(** * I/O lines: [z180_write_iolines], [execute_set_input], state import *)

Lemma write_ioline_eq (line changes data : Z) (s : z180_device) :
  write_ioline line changes data s
  = s <| m_iol := if nz (Z.land changes line)
                  then Z.lor (Z.land (m_iol s) (Z.lnot line)) (Z.land data line)
                  else m_iol s |>.
Proof.
  unfold write_ioline. destruct (nz (Z.land changes line)); [reflexivity|].
  destruct s; reflexivity.
Qed.

Lemma set_iol_twice (s : z180_device) (v w : Z) :
  s <| m_iol := v |> <| m_iol := w |> = s <| m_iol := w |>.
Proof. destruct s; reflexivity. Qed.

Lemma write_iolines_merge (data : Z) (s : z180_device) :
  z180_write_iolines data s
  = s <| m_iol := merge_lines input_line_bits (Z.lxor (m_iol s) data) data (m_iol s) |>.
Proof.
  unfold z180_write_iolines. cbv zeta.
  rewrite !write_ioline_eq. z180_cbn. rewrite !set_iol_twice.
  f_equal. unfold merge_lines, input_line_bits. cbn [fold_left].
  rewrite <- !(nz_land_pow2 (Z.lxor (m_iol s) data)) by lia.
  reflexivity.
Qed.

(** a bit of the merged value: taken from [data] where the line is listed
    and differs, else kept *)
Lemma merge_lines_bit (js : list Z) (changes data : Z) :
  forall v n, 0 <= n -> Forall (fun j => 0 <= j) js ->
    Z.testbit (merge_lines js changes data v) n
    = if existsb (Z.eqb n) js && Z.testbit changes n
      then Z.testbit data n else Z.testbit v n.
Proof.
  induction js as [|j js IH]; intros v n Hn Hjs; [reflexivity|].
  inversion Hjs as [|? ? Hj Hjs']; subst.
  unfold merge_lines in *. cbn [fold_left existsb].
  rewrite IH by assumption.
  destruct (Z.eqb_spec n j) as [-> | Hne]; cbn [orb andb].
  - destruct (Z.testbit changes j) eqn:C.
    + rewrite andb_true_r.
      destruct (existsb (Z.eqb j) js); [reflexivity|].
      rewrite Z.lor_spec, !Z.land_spec, Z.lnot_spec, Z.pow2_bits_true by lia.
      cbn. rewrite andb_false_r, andb_true_r. reflexivity.
    + rewrite andb_false_r. reflexivity.
  - destruct (existsb (Z.eqb n) js && Z.testbit changes n); [reflexivity|].
    destruct (Z.testbit changes j); [|reflexivity].
    rewrite Z.lor_spec, !Z.land_spec, Z.lnot_spec, Z.pow2_bits_false by lia.
    cbn. rewrite andb_false_r, andb_true_r, orb_false_r. reflexivity.
Qed.

Lemma input_lines_bit (n : Z) :
  0 <= n -> Z.testbit Z180_INPUT_LINES n = existsb (Z.eqb n) input_line_bits.
Proof.
  intros Hn.
  change Z180_INPUT_LINES with
    (Z.lor (2 ^ 0) (Z.lor (2 ^ 1) (Z.lor (2 ^ 2) (Z.lor (2 ^ 8) (Z.lor (2 ^ 9)
      (Z.lor (2 ^ 10) (Z.lor (2 ^ 11) (Z.lor (2 ^ 12) (Z.lor (2 ^ 13)
        (Z.lor (2 ^ 14) (2 ^ 15))))))))))).
  rewrite !Z.lor_spec, !Z.pow2_bits_eqb by lia.
  unfold input_line_bits. cbn [existsb].
  rewrite orb_false_r.
  rewrite !(Z.eqb_sym n). reflexivity.
Qed.

Lemma merge_input_lines (iol data : Z) :
  merge_lines input_line_bits (Z.lxor iol data) data iol
  = Z.lor (Z.land iol (Z.lnot Z180_INPUT_LINES)) (Z.land data Z180_INPUT_LINES).
Proof.
  apply Z.bits_inj'; intros n Hn.
  rewrite merge_lines_bit
    by (try assumption; unfold input_line_bits; repeat constructor; lia).
  rewrite Z.lor_spec, !Z.land_spec, Z.lnot_spec, Z.lxor_spec, input_lines_bit by assumption.
  destruct (existsb (Z.eqb n) input_line_bits), (Z.testbit iol n), (Z.testbit data n);
    reflexivity.
Qed.

Lemma write_iolines_merged (data : Z) (s : z180_device) :
  z180_write_iolines data s
  = s <| m_iol := Z.lor (Z.land (m_iol s) (Z.lnot Z180_INPUT_LINES))
                        (Z.land data Z180_INPUT_LINES) |>.
Proof. rewrite write_iolines_merge, merge_input_lines. reflexivity. Qed.

(** [z180_write_iolines] replaces the eleven input lines of [m_iol] by those
    of [data] and changes nothing else: the output lines RTS0, TEND0, TEND1,
    TOUT, TXA0, TXA1 and TXS, and every other member, stay as they are.
    Writing the same value a second time changes nothing. *)
Theorem write_iolines_takes_inputs_only (data : Z) (s : z180_device) :
  let s' := z180_write_iolines data s in
  s' = s <| m_iol := Z.lor (Z.land (m_iol s) (Z.lnot Z180_INPUT_LINES))
                           (Z.land data Z180_INPUT_LINES) |> /\
  (forall line, In line [Z180_RTS0; Z180_TEND0; Z180_TEND1; Z180_A18_TOUT;
                         Z180_TXA0; Z180_TXA1; Z180_TXS] ->
     Z.land (m_iol s') line = Z.land (m_iol s) line) /\
  z180_write_iolines data s' = s'.
Proof.
  intros s'.
  pose proof write_iolines_merged as E.
  split; [apply E|]. split.
  - intros line Hl. subst s'. rewrite E. z180_cbn.
    rewrite Z.land_lor_distr_l, <- !Z.land_assoc.
    assert (Z0 : Z.land Z180_INPUT_LINES line = 0)
      by (cbn [In] in Hl; intuition (subst line; reflexivity)).
    assert (Z1 : Z.land (Z.lnot Z180_INPUT_LINES) line = line)
      by (cbn [In] in Hl; intuition (subst line; reflexivity)).
    rewrite Z0, Z1, Z.land_0_r, Z.lor_0_r. reflexivity.
  - subst s'. rewrite !E. z180_cbn. rewrite set_iol_twice. f_equal.
    apply Z.bits_inj'; intros n Hn.
    rewrite !Z.lor_spec, !Z.land_spec, !Z.lor_spec, !Z.land_spec, Z.lnot_spec by assumption.
    destruct (Z.testbit Z180_INPUT_LINES n), (Z.testbit (m_iol s) n), (Z.testbit data n);
      reflexivity.
Qed.

Lemma write_iolines_takes_inputs_only_witness :
  Z.land (m_iol (z180_write_iolines 0xffffffff z180_device_ctor)) Z180_TEND0
  = Z.land (m_iol z180_device_ctor) Z180_TEND0.
Proof.
  pose proof (write_iolines_takes_inputs_only 0xffffffff z180_device_ctor) as H.
  cbv zeta in H. destruct H as (_ & H & _).
  apply H. cbn. auto.
Defined.

Lemma dreq_bit_set (iol line k : Z) (asserted : bool) :
  line = 2 ^ k -> 0 <= k -> Z.testbit Z180_INPUT_LINES k = true ->
  Z.lor (Z.land iol (Z.lnot Z180_INPUT_LINES))
        (Z.land (if asserted then Z.lor (Z.land iol (Z.lnot line)) line
                 else Z.land iol (Z.lnot line)) Z180_INPUT_LINES)
  = if asserted then Z.lor iol line else Z.land iol (Z.lnot line).
Proof.
  intros -> Hk Hin.
  apply Z.bits_inj'; intros n Hn.
  destruct asserted;
    rewrite ?Z.lor_spec, ?Z.land_spec, ?Z.lor_spec, ?Z.land_spec, ?Z.lnot_spec,
            ?Z.pow2_bits_eqb by assumption.
  all: destruct (Z.eqb_spec k n) as [E | Hne].
  all: try (subst n; rewrite Hin; destruct (Z.testbit iol k); reflexivity).
  all: destruct (Z.testbit Z180_INPUT_LINES n), (Z.testbit iol n); reflexivity.
Qed.

Section SetInput.
Variable INPUT_LINE_NMI : Z.
Variable Z180_INPUT_LINE_IRQ0 Z180_INPUT_LINE_IRQ1 Z180_INPUT_LINE_IRQ2 : Z.
Variable Z180_INPUT_LINE_DREQ0 Z180_INPUT_LINE_DREQ1 : Z.
Variable daisy_chain_present : bool.
Variable daisy_update_irq_state : z180_device -> Z.
Variable take_interrupt : Z -> z180_device -> Z * z180_device.

Local Abbreviation execute_set_input :=
  (execute_set_input INPUT_LINE_NMI Z180_INPUT_LINE_IRQ0 Z180_INPUT_LINE_IRQ1
     Z180_INPUT_LINE_IRQ2 Z180_INPUT_LINE_DREQ0 Z180_INPUT_LINE_DREQ1
     daisy_chain_present daisy_update_irq_state).
Local Abbreviation check_interrupts := (check_interrupts take_interrupt).

(** The DMA request lines, their numbers being distinct from those of the
    NMI and IRQ lines: [execute_set_input] sets the line's bit of [m_iol]
    when the new state is [ASSERT_LINE] and clears it for any other state,
    and changes nothing else. *)
Theorem execute_set_input_dreq (state : Z) (s : z180_device) :
  Z180_INPUT_LINE_DREQ0 <> INPUT_LINE_NMI ->
  Z180_INPUT_LINE_DREQ1 <> INPUT_LINE_NMI ->
  Z180_INPUT_LINE_DREQ1 <> Z180_INPUT_LINE_DREQ0 ->
  (forall l, In l [Z180_INPUT_LINE_DREQ0; Z180_INPUT_LINE_DREQ1] ->
     l <> Z180_INPUT_LINE_IRQ0 /\ l <> Z180_INPUT_LINE_IRQ1 /\ l <> Z180_INPUT_LINE_IRQ2) ->
  execute_set_input Z180_INPUT_LINE_DREQ0 state s
  = s <| m_iol := if state =? ASSERT_LINE then Z.lor (m_iol s) Z180_DREQ0
                  else Z.land (m_iol s) (Z.lnot Z180_DREQ0) |> /\
  execute_set_input Z180_INPUT_LINE_DREQ1 state s
  = s <| m_iol := if state =? ASSERT_LINE then Z.lor (m_iol s) Z180_DREQ1
                  else Z.land (m_iol s) (Z.lnot Z180_DREQ1) |>.
Proof.
  intros N0 N1 N10 Hirq.
  destruct (Hirq Z180_INPUT_LINE_DREQ0 ltac:(cbn; auto)) as (A0 & A1 & A2).
  destruct (Hirq Z180_INPUT_LINE_DREQ1 ltac:(cbn; auto)) as (B0 & B1 & B2).
  unfold Z180.execute_set_input. cbv zeta.
  rewrite !(proj2 (Z.eqb_neq _ _) N0), !(proj2 (Z.eqb_neq _ _) N1),
          !(proj2 (Z.eqb_neq _ _) N10),
          !(proj2 (Z.eqb_neq _ _) A0), !(proj2 (Z.eqb_neq _ _) A1),
          !(proj2 (Z.eqb_neq _ _) A2), !(proj2 (Z.eqb_neq _ _) B0),
          !(proj2 (Z.eqb_neq _ _) B1), !(proj2 (Z.eqb_neq _ _) B2), !Z.eqb_refl.
  cbn [orb].
  split.
  - rewrite write_iolines_merged. f_equal.
    rewrite <- (dreq_bit_set (m_iol s) Z180_DREQ0 11 (state =? ASSERT_LINE))
      by (try reflexivity; lia).
    destruct (state =? ASSERT_LINE); reflexivity.
  - rewrite write_iolines_merged. f_equal.
    rewrite <- (dreq_bit_set (m_iol s) Z180_DREQ1 12 (state =? ASSERT_LINE))
      by (try reflexivity; lia).
    destruct (state =? ASSERT_LINE); reflexivity.
Qed.

(** IRQ0 asserted through [execute_set_input] (line number 0, no daisy
    chain), with IFF1 set, no EI just executed, ITE0 enabled and neither
    TRAP nor NMI pending: the next [check_interrupts] takes the IRQ0
    interrupt, whatever internal interrupts are pending, and clears its
    flag. *)
Theorem asserted_irq0_is_taken_next (state : Z) (s : z180_device) :
  Z180_INPUT_LINE_IRQ0 = 0 ->
  INPUT_LINE_NMI <> 0 ->
  daisy_chain_present = false ->
  u8 state <> CLEAR_LINE ->
  nz (m_IFF1 s) = true -> m_after_EI s = 0 ->
  Z.land (m_itc s) Z180_ITC_ITE0 = Z180_ITC_ITE0 ->
  m_int_pending s Z180_INT_TRAP = 0 -> m_int_pending s Z180_INT_NMI = 0 ->
  let s1 := check_irqs (execute_set_input Z180_INPUT_LINE_IRQ0 state s) in
  m_irq_state s1 0 = u8 state /\
  m_int_pending s1 Z180_INT_IRQ0 = 1 /\
  check_interrupts (execute_set_input Z180_INPUT_LINE_IRQ0 state s)
  = (0 + fst (take_interrupt Z180_INT_IRQ0 s1),
     (snd (take_interrupt Z180_INT_IRQ0 s1))
       <| m_int_pending :=
            upd (m_int_pending (snd (take_interrupt Z180_INT_IRQ0 s1))) Z180_INT_IRQ0 0 |>).
Proof.
  intros L0 Ln Hd Hst Hi Hei Hite Ht Hnmi s1.
  assert (E : execute_set_input Z180_INPUT_LINE_IRQ0 state s
              = s <| m_irq_state := upd (m_irq_state s) 0 (u8 state) |>).
  { unfold Z180.execute_set_input. rewrite L0, Hd.
    rewrite (proj2 (Z.eqb_neq 0 INPUT_LINE_NMI)) by congruence.
    reflexivity. }
  assert (P : m_irq_state s1 0 = u8 state /\ m_int_pending s1 Z180_INT_IRQ0 = 1 /\
              m_int_pending s1 Z180_INT_TRAP = 0 /\ m_int_pending s1 Z180_INT_NMI = 0).
  { subst s1. rewrite E. unfold check_irqs, promote_irq. z180_cbn.
    rewrite Hi, Hei. cbn [nz Z.eqb negb andb]. cbv zeta. z180_cbn.
    rewrite upd_same, Hite, Z.eqb_refl.
    rewrite (proj2 (Z.eqb_neq (u8 state) CLEAR_LINE)) by exact Hst.
    cbn [negb andb]. z180_cbn.
    repeat match goal with
           | |- context [if ?c then _ else _] =>
               lazymatch c with true => fail | false => fail | _ => destruct c end
           end; z180_cbn; cbv [upd]; cbn; auto. }
  destruct P as (P1 & P2 & P3 & P4).
  split; [exact P1|]. split; [exact P2|].
  unfold Z180.check_interrupts. cbv zeta. fold s1.
  apply take_first_pending_some.
  - vm_compute. split; [discriminate | reflexivity].
  - rewrite P2. reflexivity.
  - intros j Hj. change Z180_INT_IRQ0 with 2 in Hj.
    assert (C : j = 0 \/ j = 1) by lia. destruct C as [-> | ->]; assumption.
Qed.
End SetInput.

Lemma execute_set_input_dreq_witness :
  execute_set_input 32 0 1 2 3 4 false no_daisy_irq_state 3 ASSERT_LINE z180_device_ctor
  = z180_device_ctor <| m_iol := if ASSERT_LINE =? ASSERT_LINE
                                 then Z.lor (m_iol z180_device_ctor) Z180_DREQ0
                                 else Z.land (m_iol z180_device_ctor) (Z.lnot Z180_DREQ0) |>.
Proof.
  refine (proj1 (execute_set_input_dreq 32 0 1 2 3 4 false no_daisy_irq_state
                   ASSERT_LINE z180_device_ctor _ _ _ _)); try lia.
  intros l [<- | [<- | []]]; repeat split; lia.
Defined.

Lemma asserted_irq0_is_taken_next_witness :
  m_int_pending
    (check_irqs (execute_set_input 32 0 1 2 3 4 false no_daisy_irq_state 0 ASSERT_LINE
                   irq0_line_and_prt0_pending)) Z180_INT_IRQ0 = 1.
Proof.
  refine (proj1 (proj2 (asserted_irq0_is_taken_next 32 0 1 2 3 4 false no_daisy_irq_state
                   take_interrupt_ack ASSERT_LINE irq0_line_and_prt0_pending
                   _ _ _ _ _ _ _ _ _))); try reflexivity; try lia.
  vm_compute. discriminate.
Defined.

Lemma land_lor_disjoint (a b m1 m2 : Z) :
  Z.land m1 m2 = 0 ->
  Z.land (Z.lor (Z.land a m1) (Z.land b m2)) m1 = Z.land a m1 /\
  Z.land (Z.lor (Z.land a m1) (Z.land b m2)) m2 = Z.land b m2.
Proof.
  intros H. split; apply Z.bits_inj'; intros n Hn.
  all: assert (B : Z.testbit (Z.land m1 m2) n = false) by (rewrite H; apply Z.testbit_0_l).
  all: rewrite Z.land_spec in B.
  all: rewrite !Z.land_spec, Z.lor_spec, !Z.land_spec.
  all: destruct (Z.testbit m1 n), (Z.testbit m2 n), (Z.testbit a n), (Z.testbit b n);
    try reflexivity; discriminate.
Qed.

(** Exporting the refresh register and importing it again keeps its low
    seven bits in [m_R] and bit 7 in [m_R2], and a second export yields the
    same exported byte; no step fails. *)
Theorem state_R_round_trip (s : z180_device) :
  exists s1 s2 s3,
    state_export Z180_R s = Some s1 /\
    state_import Z180_R s1 = Some s2 /\
    state_export Z180_R s2 = Some s3 /\
    m_rtemp s1 = Z.lor (Z.land (m_R s) 0x7f) (Z.land (m_R2 s) 0x80) /\
    m_R s2 = Z.land (m_R s) 0x7f /\
    m_R2 s2 = Z.land (m_R2 s) 0x80 /\
    m_rtemp s3 = m_rtemp s1.
Proof.
  eexists _, _, _. split; [reflexivity|]. split; [reflexivity|]. split; [reflexivity|].
  cbv zeta. z180_cbn.
  destruct (land_lor_disjoint (m_R s) (m_R2 s) 0x7f 0x80 eq_refl) as [E1 E2].
  rewrite E1, E2. repeat split.
  rewrite <- !Z.land_assoc. reflexivity.
Qed.

(** Exporting the I/O lines and importing them again leaves the state as
    exported; importing any value succeeds and changes input lines only. *)
Theorem state_iolines_round_trip (s : z180_device) :
  and_then (state_export Z180_IOLINES s) (state_import Z180_IOLINES)
  = Some (s <| m_ioltemp := m_iol s |>) /\
  exists s', state_import Z180_IOLINES s = Some s' /\
    Z.land (m_iol s') (Z.lnot Z180_INPUT_LINES) = Z.land (m_iol s) (Z.lnot Z180_INPUT_LINES) /\
    Z.land (m_iol s') Z180_INPUT_LINES = Z.land (m_ioltemp s) Z180_INPUT_LINES.
Proof.
  split.
  - cbn [state_export and_then state_import]. f_equal. z180_cbn.
    rewrite write_iolines_merged. z180_cbn.
    replace (Z.lor (Z.land (m_iol s) (Z.lnot Z180_INPUT_LINES))
                   (Z.land (m_iol s) Z180_INPUT_LINES)) with (m_iol s).
    + destruct s; reflexivity.
    + apply Z.bits_inj'; intros n Hn.
      rewrite Z.lor_spec, !Z.land_spec, Z.lnot_spec by assumption.
      destruct (Z.testbit Z180_INPUT_LINES n), (Z.testbit (m_iol s) n); reflexivity.
  - eexists. split; [reflexivity|].
    rewrite write_iolines_merged. z180_cbn.
    split; apply Z.bits_inj'; intros n Hn;
      rewrite !Z.land_spec, Z.lor_spec, !Z.land_spec, ?Z.lnot_spec by assumption;
      destruct (Z.testbit Z180_INPUT_LINES n), (Z.testbit (m_iol s) n),
               (Z.testbit (m_ioltemp s) n); reflexivity.
Qed.

(** * Internal registers: [z180_readcontrol], [z180_writecontrol] *)

Lemma readcontrol_base0 (s : z180_device) (port : Z) :
  Z.land (m_iocr s) 0xc0 = 0 ->
  z180_readcontrol port s
  = readcontrol_switch port (m_iospace s (Z.land port 0xffff))
      (s <| m_io_trace := IoRead port :: m_io_trace s |>).
Proof.
  intros H. unfold z180_readcontrol, io_read_byte.
  change (remap_port (s <| m_io_trace := IoRead port :: m_io_trace s |>) port)
    with (remap_port s port).
  rewrite remap_port_base0 by exact H. reflexivity.
Qed.

Lemma readcontrol_switch_frame (port data : Z) (s : z180_device) :
  let s' := snd (readcontrol_switch port data s) in
  s' = s <| m_tcr := m_tcr s' |> <| m_read_tcr_tmdr := m_read_tcr_tmdr s' |>
         <| m_tmdr_latch := m_tmdr_latch s' |> <| m_tmdrh := m_tmdrh s' |> /\
  exists c0 c1 : bool,
    m_tcr s'
    = (fun x => if c1 then Z.land x (Z.lnot Z180_TCR_TIF1) else x)
        (if c0 then Z.land (m_tcr s) (Z.lnot Z180_TCR_TIF0) else m_tcr s).
Proof.
  cbv zeta. port_cases port;
    cbv beta iota zeta delta [readcontrol_switch read_tcr_tmdr_toggle];
    z180_cbn; repeat (progress (case_ifs; cbv beta iota zeta; z180_cbn)).
  all: (split; [destruct s; reflexivity|]).
  all: first [ exists false, false; reflexivity | exists true, false; reflexivity
             | exists false, true; reflexivity | exists true, true; reflexivity ].
Qed.

Lemma readcontrol_keeps_iocr (port : Z) (s : z180_device) :
  m_iocr (snd (z180_readcontrol port s)) = m_iocr s.
Proof.
  unfold z180_readcontrol, io_read_byte.
  generalize (remap_port (s <| m_io_trace := IoRead port :: m_io_trace s |>) port).
  generalize (m_iospace s (Z.land port 0xffff)). intros data p.
  destruct (readcontrol_switch_frame p data
              (s <| m_io_trace := IoRead port :: m_io_trace s |>)) as [F _].
  cbv zeta in F. rewrite F. reflexivity.
Qed.

(** A read through [z180_readcontrol] changes no member but TCR, the two
    read toggles, the TMDR latch flag and latched high bytes, and the
    record of external accesses; of TCR it can only clear TIF0 and TIF1. *)
Theorem readcontrol_changes_timer_flags_only (port : Z) (s : z180_device) :
  let s' := snd (z180_readcontrol port s) in
  s' = s <| m_tcr := m_tcr s' |> <| m_read_tcr_tmdr := m_read_tcr_tmdr s' |>
         <| m_tmdr_latch := m_tmdr_latch s' |> <| m_tmdrh := m_tmdrh s' |>
         <| m_io_trace := IoRead port :: m_io_trace s |> /\
  exists c0 c1 : bool,
    m_tcr s'
    = (fun x => if c1 then Z.land x (Z.lnot Z180_TCR_TIF1) else x)
        (if c0 then Z.land (m_tcr s) (Z.lnot Z180_TCR_TIF0) else m_tcr s).
Proof.
  cbv zeta. unfold z180_readcontrol, io_read_byte.
  generalize (remap_port (s <| m_io_trace := IoRead port :: m_io_trace s |>) port).
  generalize (m_iospace s (Z.land port 0xffff)). intros data p.
  pose proof (readcontrol_switch_frame p data
                (s <| m_io_trace := IoRead port :: m_io_trace s |>)) as F.
  cbv zeta in F. destruct F as [F1 F2].
  destruct (readcontrol_switch p data (s <| m_io_trace := IoRead port :: m_io_trace s |>))
    as [v s']. cbn [snd] in *.
  split; [|exact F2].
  rewrite F1 at 1. destruct s; reflexivity.
Qed.

(** one case split, on a condition that contains no conditional itself *)
Ltac case_inner :=
  match goal with
  | |- context [if ?c then _ else _] =>
      lazymatch c with
      | true => fail
      | false => fail
      | context [if _ then _ else _] => fail
      | _ => destruct c
      end
  end.

(** With the bank at base 0 and the read toggle of timer 0 at rest, any two
    consecutive reads among TMDR0L, TMDR0H and TCR reset TIF0: the first
    read leaves the flag as it is, the second clears it and puts the toggle
    back at rest. *)
Theorem tif0_reset_by_second_read (p1 p2 : Z) (s : z180_device) :
  In p1 timer0_read_ports -> In p2 timer0_read_ports ->
  Z.land (m_iocr s) 0xc0 = 0 ->
  m_read_tcr_tmdr s 0 = 0 ->
  let s1 := snd (z180_readcontrol p1 s) in
  let s2 := snd (z180_readcontrol p2 s1) in
  Z.land (m_tcr s1) Z180_TCR_TIF0 = Z.land (m_tcr s) Z180_TCR_TIF0 /\
  m_read_tcr_tmdr s1 0 = 1 /\
  Z.land (m_tcr s2) Z180_TCR_TIF0 = 0 /\
  m_read_tcr_tmdr s2 0 = 0.
Proof.
  intros H1 H2 Hb Ht s1 s2.
  assert (Hb1 : Z.land (m_iocr s1) 0xc0 = 0).
  { subst s1. rewrite readcontrol_keeps_iocr. exact Hb. }
  assert (A : Z.land (m_tcr s1) Z180_TCR_TIF0 = Z.land (m_tcr s) Z180_TCR_TIF0 /\
              m_read_tcr_tmdr s1 0 = 1).
  { subst s1. rewrite readcontrol_base0 by exact Hb.
    cbn [In timer0_read_ports] in H1.
    destruct H1 as [<- | [<- | [<- | []]]];
      cbv beta iota zeta delta [readcontrol_switch read_tcr_tmdr_toggle];
      z180_cbn; rewrite ?Ht; cbn [nz Z.eqb negb];
      repeat (case_inner; cbv beta iota zeta; z180_cbn; rewrite ?Ht; cbn [nz Z.eqb negb]);
      cbn [snd]; z180_cbn;
      rewrite ?(land_keep_other_bit (m_tcr s) Z180_TCR_TIF1 Z180_TCR_TIF0) by reflexivity;
      split; reflexivity. }
  destruct A as [A1 A2]. split; [exact A1|]. split; [exact A2|].
  subst s2. rewrite readcontrol_base0 by exact Hb1.
  revert A2. generalize s1. clear - H2. intros s A2.
  cbn [In timer0_read_ports] in H2.
  destruct H2 as [<- | [<- | [<- | []]]];
    cbv beta iota zeta delta [readcontrol_switch read_tcr_tmdr_toggle];
    z180_cbn; rewrite ?A2; cbn [nz Z.eqb negb];
    repeat (case_inner; cbv beta iota zeta; z180_cbn; rewrite ?A2; cbn [nz Z.eqb negb]);
    cbn [snd]; z180_cbn;
    rewrite ?(land_keep_other_bit _ Z180_TCR_TIF1 Z180_TCR_TIF0) by reflexivity;
    rewrite ?land_clear_mask; split; reflexivity.
Qed.

Lemma tif0_reset_by_second_read_witness :
  Z.land (m_tcr (snd (z180_readcontrol 0x0c
                        (snd (z180_readcontrol 0x10
                                (z180_device_ctor <| m_tcr := 0x51 |>))))))
         Z180_TCR_TIF0 = 0.
Proof.
  pose proof (tif0_reset_by_second_read 0x10 0x0c (z180_device_ctor <| m_tcr := 0x51 |>)
                ltac:(cbn; auto) ltac:(cbn; auto) ltac:(reflexivity) ltac:(reflexivity))
    as H.
  cbv zeta in H. apply H.
Defined.

(** With the bank at base 0, a byte written to one of the plain registers is
    the byte read back from it; a port without a register reads 0xFF
    whatever was written. *)
Theorem register_write_read_round_trip (port d : Z) (s : z180_device) :
  0 <= d < 256 ->
  Z.land (m_iocr s) 0xc0 = 0 ->
  (In port plain_ports ->
   fst (z180_readcontrol port (z180_writecontrol port d s)) = d) /\
  (In port absent_ports ->
   fst (z180_readcontrol port (z180_writecontrol port d s)) = 0xff /\
   z180_writecontrol port d s = io_write_byte port d s).
Proof.
  intros Hd Hb.
  rewrite writecontrol_base0 by exact Hb.
  split; intros Hin.
  - cbn [In plain_ports] in Hin.
    repeat (destruct Hin as [<- | Hin]); [..|destruct Hin].
    all: rewrite readcontrol_base0 by exact Hb.
    all: cbv beta iota zeta delta [readcontrol_switch writecontrol_switch].
    all: cbn [fst]; z180_cbn; rewrite ?upd_same.
    all: first [ reflexivity
               | apply pair_b_l_set16; exact Hd | apply pair16_b_h_set; exact Hd
               | apply pair_b_l_set32; exact Hd | apply pair_b_h_set32; exact Hd ].
  - cbn [In absent_ports] in Hin.
    repeat (destruct Hin as [<- | Hin]); [..|destruct Hin].
    all: rewrite readcontrol_base0 by exact Hb.
    all: split; reflexivity.
Qed.

Lemma register_write_read_round_trip_witness :
  fst (z180_readcontrol 0x27 (z180_writecontrol 0x27 0x12 z180_device_ctor)) = 0x12.
Proof.
  refine (proj1 (register_write_read_round_trip 0x27 0x12 z180_device_ctor _ _) _).
  - lia.
  - reflexivity.
  - cbn. auto 40.
Defined.

Lemma land_c0_cases (x : Z) :
  Z.land x 0xc0 = 0 \/ Z.land x 0xc0 = 0x40 \/ Z.land x 0xc0 = 0x80 \/ Z.land x 0xc0 = 0xc0.
Proof.
  assert (E : Z.land x 0xc0 = Z.shiftl (Z.land (Z.shiftr x 6) 3) 6).
  { apply Z.bits_inj'; intros n Hn.
    change 0xc0 with (Z.shiftl 3 6).
    destruct (Z.ltb_spec n 6).
    - rewrite Z.land_spec, !Z.shiftl_spec_low by lia. apply andb_false_r.
    - rewrite Z.land_spec, !Z.shiftl_spec, Z.land_spec, Z.shiftr_spec by lia.
      replace (n - 6 + 6) with n by lia. reflexivity. }
  pose proof (land_3_range (Z.shiftr x 6)) as R.
  rewrite E.
  assert (C : Z.land (Z.shiftr x 6) 3 = 0 \/ Z.land (Z.shiftr x 6) 3 = 1 \/
              Z.land (Z.shiftr x 6) 3 = 2 \/ Z.land (Z.shiftr x 6) 3 = 3) by lia.
  destruct C as [-> | [-> | [-> | ->]]]; cbn; auto.
Qed.

Lemma window_alias_all :
  forallb (fun base => forallb (window_alias_ok base) (index_range 0 64))
    [0; 0x40; 0x80; 0xc0] = true.
Proof. vm_compute. reflexivity. Qed.

Lemma in_index_range (lo : Z) (n : nat) (i : Z) :
  lo <= i < lo + Z.of_nat n -> In i (index_range lo n).
Proof.
  intros H. unfold index_range.
  replace i with (lo + Z.of_nat (Z.to_nat (i - lo))) by lia.
  apply (in_map (fun k => lo + Z.of_nat k)), in_seq. lia.
Qed.

Lemma readcontrol_switch_any_trace (port d1 d2 : Z) (tr : list io_access)
    (s : z180_device) :
  0 <= port <= 0x3f ->
  fst (readcontrol_switch port d1 (s <| m_io_trace := tr |>))
  = fst (readcontrol_switch port d2 s).
Proof. intros H. port_cases port; switch_leaf. Qed.

(** Whatever the base field of IOCR, register [r] of the bank (0x00..0x3F)
    is reached both at port [r] itself and at port [base + r]: both are
    remapped to [r], and a read at either port returns the same value. *)
Theorem register_bank_aliases (r : Z) (s : z180_device) :
  0 <= r <= 0x3f ->
  let base := Z.land (m_iocr s) 0xc0 in
  remap_port s r = r /\
  remap_port s (base + r) = r /\
  fst (z180_readcontrol (base + r) s) = fst (z180_readcontrol r s).
Proof.
  intros Hr base.
  assert (A : remap_port s r = r /\ remap_port s (base + r) = r).
  { pose proof window_alias_all as W. rewrite forallb_forall in W.
    assert (Hin : In base [0; 0x40; 0x80; 0xc0]).
    { subst base. destruct (land_c0_cases (m_iocr s)) as [-> | [-> | [-> | ->]]];
        cbn; auto. }
    specialize (W base Hin). rewrite forallb_forall in W.
    specialize (W r (in_index_range 0 64 r ltac:(lia))).
    unfold window_alias_ok in W. apply andb_prop in W. destruct W as [W1 W2].
    apply Z.eqb_eq in W1, W2. split; assumption. }
  destruct A as [A1 A2]. split; [exact A1|]. split; [exact A2|].
  unfold z180_readcontrol, io_read_byte.
  change (remap_port (s <| m_io_trace := IoRead (base + r) :: m_io_trace s |>) (base + r))
    with (remap_port s (base + r)).
  change (remap_port (s <| m_io_trace := IoRead r :: m_io_trace s |>) r)
    with (remap_port s r).
  rewrite A1, A2.
  rewrite (readcontrol_switch_any_trace r _ 0 _ s) by exact Hr.
  rewrite (readcontrol_switch_any_trace r (m_iospace s (Z.land r 0xffff)) 0 _ s) by exact Hr.
  reflexivity.
Qed.

Lemma register_bank_aliases_witness :
  fst (z180_readcontrol (Z.land (m_iocr bank_at_0x40) 0xc0 + 0x3f) bank_at_0x40)
  = fst (z180_readcontrol 0x3f bank_at_0x40).
Proof.
  pose proof (register_bank_aliases 0x3f bank_at_0x40 ltac:(lia)) as H.
  cbv zeta in H. apply H.
Defined.

(** A write to TCR (remapped port 0x10) never changes the interrupt flags
    TIF0 and TIF1 (bits 6 and 7); bits 0 to 5 take the written value. *)
Theorem writecontrol_TCR_keeps_TIF (port d k : Z) (s : z180_device) :
  remap_port s port = 0x10 ->
  0 <= k < 8 ->
  Z.testbit (m_tcr (z180_writecontrol port d s)) k
  = if 6 <=? k then Z.testbit (m_tcr s) k else Z.testbit d k.
Proof.
  intros Hp Hk. unfold z180_writecontrol. cbv zeta.
  change (remap_port (io_write_byte port d s) port) with (remap_port s port).
  rewrite Hp. cbv beta iota zeta delta [writecontrol_switch].
  set (rhs := if 6 <=? k then Z.testbit (m_tcr s) k else Z.testbit d k).
  repeat (case_inner; cbv beta iota zeta; z180_cbn).
  all: z180_cbn; subst rhs.
  all: change (m_tcr (io_write_byte port d s)) with (m_tcr s).
  all: rewrite Z.lor_spec, !Z.land_spec, Z.lnot_spec by lia.
  all: change (Z.lor Z180_TCR_TIF1 Z180_TCR_TIF0) with (Z.shiftl 3 6).
  all: destruct (Z.leb_spec 6 k).
  all: try (rewrite Z.shiftl_spec_low by lia; rewrite andb_false_r, andb_true_r; reflexivity).
  all: assert (C : k = 6 \/ k = 7) by lia; destruct C as [-> | ->].
  all: change (Z.testbit (Z.shiftl 3 6) 6) with true;
       change (Z.testbit (Z.shiftl 3 6) 7) with true.
  all: rewrite andb_true_r, andb_false_r, orb_false_r; reflexivity.
Qed.

Lemma writecontrol_TCR_keeps_TIF_witness :
  Z.testbit (m_tcr (z180_writecontrol 0x10 0xff z180_device_ctor)) 6
  = if 6 <=? 6 then Z.testbit (m_tcr z180_device_ctor) 6 else Z.testbit 0xff 6.
Proof.
  apply (writecontrol_TCR_keeps_TIF 0x10 0xff 6 z180_device_ctor); [reflexivity | lia].
Defined.

(** * Timers: [clock_timers], [handle_io_timers] *)

(** as [frame_walk], remembering the outcome of each test *)
Ltac frame_walk_eq leaf :=
  lazymatch goal with
  | |- ?R ?s0 (let x := ?e in @?b x) =>
      lazymatch type of e with
      | z180_device =>
          let H := fresh "H" in
          let y := fresh "s" in
          assert (H : R s0 e);
          [ frame_walk_eq leaf
          | change (R s0 (b e)); revert H; generalize e; intros y H; cbv beta;
            frame_walk_eq leaf ]
      | _ => change (R s0 (b e)); cbv beta; frame_walk_eq leaf
      end
  | |- ?R ?s0 (if ?c then _ else _) =>
      let E := fresh "E" in destruct c eqn:E; frame_walk_eq leaf
  | |- _ => leaf
  end.

Lemma prt_only_refl (s : z180_device) : prt_only s s.
Proof. unfold prt_only. repeat split. Qed.

Lemma prt_only_trans (s1 s2 s3 : z180_device) :
  prt_only s1 s2 -> prt_only s2 s3 -> prt_only s1 s3.
Proof.
  unfold prt_only. intros (A1 & A2 & A3 & A4) (B1 & B2 & B3 & B4).
  split; [congruence|]. split; [congruence|]. split.
  - intros j H0 H1. rewrite B3, A3 by assumption. reflexivity.
  - intros G. rewrite B4, A4; [reflexivity | exact G |].
    rewrite A1, A2. exact G.
Qed.

Ltac prt_leaf :=
  first
    [ assumption
    | apply prt_only_refl
    | unfold prt_only in *;
      repeat match goal with H : _ /\ _ |- _ => destruct H end;
      z180_cbn;
      split; [congruence|]; split; [congruence|]; split;
      [ intros; rewrite ?upd_other by assumption; auto
      | intros G;
        first
          [ solve [auto]
          | exfalso;
            match goal with
            | A : m_IFF1 ?y = m_IFF1 ?s0, B : m_after_EI ?y = m_after_EI ?s0,
              E : nz (m_IFF1 ?y) && negb (nz (m_after_EI ?y)) = true |- _ =>
                rewrite A, B in E; congruence
            end ] ] ].

Lemma clock_timers_prt_only (s : z180_device) : prt_only s (clock_timers s).
Proof. cbv beta delta [clock_timers]. frame_walk_eq prt_leaf. Qed.

Lemma handle_io_timers_prt_only (cycles : Z) (s : z180_device) :
  prt_only s (handle_io_timers cycles s).
Proof.
  unfold handle_io_timers. induction (Z.to_nat cycles) as [|k IH]; cbn [Nat.iter].
  - apply prt_only_refl.
  - eapply prt_only_trans; [exact IH | apply clock_timers_prt_only].
Qed.

(** However many T-states the timers are clocked, the only pending flags
    that can change are those of the two timer interrupts, and none
    changes while IFF1 is clear or an EI has just been executed. *)
Theorem timers_queue_timer_interrupts_only (cycles : Z) (s : z180_device) :
  let s' := handle_io_timers cycles s in
  (forall j, j <> Z180_INT_PRT0 -> j <> Z180_INT_PRT1 ->
     m_int_pending s' j = m_int_pending s j) /\
  (nz (m_IFF1 s) && negb (nz (m_after_EI s)) = false ->
   m_int_pending s' = m_int_pending s).
Proof.
  intros s'. destruct (handle_io_timers_prt_only cycles s) as (_ & _ & A & B).
  split; assumption.
Qed.

Lemma clock_view_stopped0 (v0 v : timer_view) :
  stopped0 v0 v -> stopped0 v0 (clock_view v).
Proof.
  unfold stopped0. intros (A & B & C). unfold clock_view.
  destruct (tv_cnt v + 1 >=? 20); [|cbn; auto].
  rewrite (nz_bit (tv_tcr v) Z180_TCR_TDE0 0) by (reflexivity || lia).
  rewrite B.
  destruct (nz (Z.land (tv_tcr v) Z180_TCR_TDE1)); [destruct (tv_tmdr1 v =? 0)|];
    cbn [tv_tmdr0 tv_tcr]; rewrite ?testbit_lor_const, ?B, ?C;
    change (Z.testbit Z180_TCR_TIF1 0) with false;
    change (Z.testbit Z180_TCR_TIF1 6) with false;
    rewrite ?orb_false_r; auto.
Qed.

Lemma clock_view_stopped1 (v0 v : timer_view) :
  stopped1 v0 v -> stopped1 v0 (clock_view v).
Proof.
  unfold stopped1. intros (A & B & C). unfold clock_view.
  destruct (tv_cnt v + 1 >=? 20); [|cbn [tv_tmdr1 tv_tcr]; auto].
  destruct (nz (Z.land (tv_tcr v) Z180_TCR_TDE0)); [destruct (tv_tmdr0 v =? 0)|].
  all: cbv beta iota.
  all: rewrite (nz_bit _ Z180_TCR_TDE1 1) by (reflexivity || lia).
  all: rewrite ?testbit_lor_const, ?B.
  all: change (Z.testbit Z180_TCR_TIF0 1) with false.
  all: rewrite ?orb_false_r; cbv beta iota.
  all: cbn [tv_tmdr1 tv_tcr]; rewrite ?testbit_lor_const, ?B, ?C.
  all: change (Z.testbit Z180_TCR_TIF0 1) with false;
       change (Z.testbit Z180_TCR_TIF0 7) with false.
  all: rewrite ?orb_false_r; auto.
Qed.

(** A timer whose enable bit TDE is clear is frozen: however many T-states
    pass, its down counter keeps its value, its interrupt flag TIF keeps
    its state and the enable bit stays clear. *)
Theorem stopped_timer_is_frozen (cycles : Z) (s : z180_device) :
  let s' := handle_io_timers cycles s in
  (Z.testbit (m_tcr s) 0 = false ->
   m_tmdr_value s' 0 = m_tmdr_value s 0 /\
   Z.testbit (m_tcr s') 0 = false /\
   Z.testbit (m_tcr s') 6 = Z.testbit (m_tcr s) 6) /\
  (Z.testbit (m_tcr s) 1 = false ->
   m_tmdr_value s' 1 = m_tmdr_value s 1 /\
   Z.testbit (m_tcr s') 1 = false /\
   Z.testbit (m_tcr s') 7 = Z.testbit (m_tcr s) 7).
Proof.
  intros s'. subst s'. unfold handle_io_timers.
  split; intros H.
  - assert (S0 : stopped0 (view_of s) (view_of (Nat.iter (Z.to_nat cycles) clock_timers s))).
    { induction (Z.to_nat cycles) as [|k IH].
      - unfold stopped0. cbn. auto.
      - rewrite Nat.iter_succ, clock_timers_view. apply clock_view_stopped0. exact IH. }
    exact S0.
  - assert (S1 : stopped1 (view_of s) (view_of (Nat.iter (Z.to_nat cycles) clock_timers s))).
    { induction (Z.to_nat cycles) as [|k IH].
      - unfold stopped1. cbn. auto.
      - rewrite Nat.iter_succ, clock_timers_view. apply clock_view_stopped1. exact IH. }
    exact S1.
Qed.

Lemma stopped_timer_is_frozen_witness :
  m_tmdr_value (handle_io_timers 1000 (z180_device_ctor <| m_tcr := 0x02 |>)) 0
  = m_tmdr_value (z180_device_ctor <| m_tcr := 0x02 |>) 0.
Proof.
  pose proof (stopped_timer_is_frozen 1000 (z180_device_ctor <| m_tcr := 0x02 |>)) as H.
  cbv zeta in H. destruct H as [H _]. apply H. reflexivity.
Defined.

Lemma timers_queue_timer_interrupts_only_witness :
  m_int_pending (handle_io_timers 1000 (z180_device_ctor <| m_tcr := 0x11 |>))
  = m_int_pending (z180_device_ctor <| m_tcr := 0x11 |>).
Proof.
  pose proof (timers_queue_timer_interrupts_only 1000
                (z180_device_ctor <| m_tcr := 0x11 |>)) as H.
  cbv zeta in H. destruct H as [_ H]. apply H. reflexivity.
Defined.

(** [m] full periods of a running timer 0 *)
Lemma timer0_periods (R : Z) (m : nat) :
  forall v : timer_view,
  0 <= R < 65536 -> tv_cnt v = 0 -> tv_rldr0 v = R ->
  Z.testbit (tv_tcr v) 0 = true -> tv_tmdr0 v = 0 ->
  let vm := Nat.iter (m * S (Z.to_nat R)) (Nat.iter 20 clock_view) v in
  tv_cnt vm = 0 /\ tv_rldr0 vm = R /\ Z.testbit (tv_tcr vm) 0 = true /\ tv_tmdr0 vm = 0 /\
  ((0 < m)%nat -> Z.testbit (tv_tcr vm) 6 = true).
Proof.
  induction m as [|m IH]; intros v HR Hc Hr Hb Ht; cbv zeta.
  - rewrite Nat.mul_0_l. change (Nat.iter 0 (Nat.iter 20 clock_view) v) with v.
    repeat split; try assumption. lia.
  - replace (S m * S (Z.to_nat R))%nat with (m * S (Z.to_nat R) + S (Z.to_nat R))%nat by lia.
    rewrite Nat.iter_add.
    pose proof (timer0_run R v (Z.to_nat R) HR Hc Hr Hb Ht ltac:(lia)) as X.
    cbv zeta in X. revert X.
    generalize (Nat.iter (S (Z.to_nat R)) (Nat.iter 20 clock_view) v).
    intros w (A & B & C & D & E).
    rewrite Z2Nat.id in D by lia.
    assert (D0 : tv_tmdr0 w = 0) by (rewrite D; apply Z.sub_diag).
    destruct (IH w HR A B C D0) as (A' & B' & C' & D' & E').
    repeat split; try assumption.
    intros _. destruct m as [|m].
    + rewrite Nat.mul_0_l. exact E.
    + apply E'. lia.
Qed.

Lemma timer1_periods (R : Z) (m : nat) :
  forall v : timer_view,
  0 <= R < 65536 -> tv_cnt v = 0 -> tv_rldr1 v = R ->
  Z.testbit (tv_tcr v) 1 = true -> tv_tmdr1 v = 0 ->
  let vm := Nat.iter (m * S (Z.to_nat R)) (Nat.iter 20 clock_view) v in
  tv_cnt vm = 0 /\ tv_rldr1 vm = R /\ Z.testbit (tv_tcr vm) 1 = true /\ tv_tmdr1 vm = 0 /\
  ((0 < m)%nat -> Z.testbit (tv_tcr vm) 7 = true).
Proof.
  induction m as [|m IH]; intros v HR Hc Hr Hb Ht; cbv zeta.
  - rewrite Nat.mul_0_l. change (Nat.iter 0 (Nat.iter 20 clock_view) v) with v.
    repeat split; try assumption. lia.
  - replace (S m * S (Z.to_nat R))%nat with (m * S (Z.to_nat R) + S (Z.to_nat R))%nat by lia.
    rewrite Nat.iter_add.
    pose proof (timer1_run R v (Z.to_nat R) HR Hc Hr Hb Ht ltac:(lia)) as X.
    cbv zeta in X. revert X.
    generalize (Nat.iter (S (Z.to_nat R)) (Nat.iter 20 clock_view) v).
    intros w (A & B & C & D & E).
    rewrite Z2Nat.id in D by lia.
    assert (D0 : tv_tmdr1 w = 0) by (rewrite D; apply Z.sub_diag).
    destruct (IH w HR A B C D0) as (A' & B' & C' & D' & E').
    repeat split; try assumption.
    intros _. destruct m as [|m].
    + rewrite Nat.mul_0_l. exact E.
    + apply E'. lia.
Qed.

(** A running timer (TDE set, the divide-by-20 counter at zero) whose down
    counter is at zero, with reload value [R], has a period of [R + 1]
    timer clocks: after every whole number [m] of periods the counter is at
    zero again, and its interrupt flag TIF is up from the first period
    on. *)
Theorem running_timer_has_period_R_plus_1 (R m : Z) (s : z180_device) :
  0 <= R < 65536 -> 0 <= m -> m_timer_cnt s = 0 ->
  let s' := handle_io_timers (20 * (m * (R + 1))) s in
  (Z.testbit (m_tcr s) 0 = true -> m_rldr s 0 = R -> m_tmdr_value s 0 = 0 ->
   m_tmdr_value s' 0 = 0 /\ (0 < m -> Z.testbit (m_tcr s') 6 = true)) /\
  (Z.testbit (m_tcr s) 1 = true -> m_rldr s 1 = R -> m_tmdr_value s 1 = 0 ->
   m_tmdr_value s' 1 = 0 /\ (0 < m -> Z.testbit (m_tcr s') 7 = true)).
Proof.
  intros HR Hm Hc s'.
  assert (V : view_of s'
              = Nat.iter (Z.to_nat m * S (Z.to_nat R)) (Nat.iter 20 clock_view) (view_of s)).
  { subst s'. rewrite handle_io_timers_view by (apply Z.mul_nonneg_nonneg; lia).
    f_equal. rewrite Z2Nat.inj_mul by lia. f_equal.
    replace (R + 1) with (Z.succ R) by lia. apply Z2Nat.inj_succ. lia. }
  split; intros Hb Hr Ht.
  - destruct (timer0_periods R (Z.to_nat m) (view_of s) HR Hc Hr Hb Ht)
      as (_ & _ & _ & D & E).
    rewrite <- V in D, E. split; [exact D|]. intros H. apply E. lia.
  - destruct (timer1_periods R (Z.to_nat m) (view_of s) HR Hc Hr Hb Ht)
      as (_ & _ & _ & D & E).
    rewrite <- V in D, E. split; [exact D|]. intros H. apply E. lia.
Qed.

Lemma running_timer_has_period_R_plus_1_witness :
  m_tmdr_value (handle_io_timers (20 * (3 * (5 + 1))) timer0_running_5) 0 = 0.
Proof.
  pose proof (running_timer_has_period_R_plus_1 5 3 timer0_running_5
                ltac:(lia) ltac:(lia) ltac:(reflexivity)) as H.
  cbv zeta in H. destruct H as [H _].
  apply H; reflexivity.
Defined.

(** * Further properties of the DMA channels *)

Section DmaMore.
Variable memory_wait_states : z180_device -> Z.
Variable IN : Z -> z180_device -> Z * z180_device.
Variable OUT : Z -> Z -> z180_device -> z180_device.

Local Abbreviation dma0_switch := (dma0_switch memory_wait_states IN OUT).
Local Abbreviation dma0_body := (dma0_body memory_wait_states IN OUT).
Local Abbreviation dma0_loop := (dma0_loop memory_wait_states IN OUT).
Local Abbreviation z180_dma0 := (z180_dma0 memory_wait_states IN OUT).
Local Abbreviation z180_dma1 := (z180_dma1 memory_wait_states).

(** Channel 1 never reaches its terminal count: whatever the count register
    holds, a dispatch leaves the register as it is, leaves DSTAT (and so
    DE1) as it is and queues no interrupt; TEND1 is raised by a dispatch that
    finds the channel requested and enabled with a count of 1, and is never
    lowered.  With the request line low or the channel disabled nothing
    happens at all. *)
Theorem dma1_never_reaches_terminal_count (s : z180_device) :
  0 <= m_dma_bcr s 1 < 65536 ->
  let s' := snd (z180_dma1 s) in
  m_dstat s' = m_dstat s /\
  m_int_pending s' = m_int_pending s /\
  (forall j, m_dma_bcr s' j = m_dma_bcr s j) /\
  get_tend1 s' = get_tend1 s || (dma1_active s && (m_dma_bcr s 1 =? 1)) /\
  (dma1_active s = false -> z180_dma1 s = (0, s)).
Proof.
  intros Hr. cbv zeta. unfold dma1_active, get_tend1.
  pose proof (land_3_range (m_dcntl s)) as Hm.
  cbv beta delta [Z180.z180_dma1]. cbv zeta.
  replace (Z.land (m_iol s) Z180_DREQ1 =? 0)
    with (negb (nz (Z.land (m_iol s) Z180_DREQ1)))
    by (unfold nz; apply negb_involutive).
  destruct (nz (Z.land (m_iol s) Z180_DREQ1)) eqn:Eq; cbn [negb andb].
  2: { rewrite orb_false_r. repeat split. }
  destruct (nz (Z.land (m_dstat s) Z180_DSTAT_DE1)) eqn:Ee; cbn [negb andb].
  2: { rewrite orb_false_r. repeat split. }
  set (b := if m_dma_bcr s 1 =? 0 then 65536 else m_dma_bcr s 1).
  assert (Hb : 1 <= b <= 65536 /\ u16 b = m_dma_bcr s 1 /\
               (b =? 1) = (m_dma_bcr s 1 =? 1)).
  { subst b. destruct (Z.eqb_spec (m_dma_bcr s 1) 0) as [E0 | E0].
    - rewrite E0. cbn. lia.
    - rewrite u16_small by lia. repeat split; lia. }
  destruct Hb as (Hb1 & Hb2 & Hb3).
  replace (b =? 0) with false by (symmetry; apply Z.eqb_neq; lia).
  rewrite Hb3. z180_cbn.
  change (Z.lor Z180_DCNTL_DIM1 Z180_DCNTL_DIM0) with 3 in *.
  assert (C : Z.land (m_dcntl s) 3 = 0 \/ Z.land (m_dcntl s) 3 = 1 \/
              Z.land (m_dcntl s) 3 = 2 \/ Z.land (m_dcntl s) 3 = 3) by lia.
  destruct (m_dma_bcr s 1 =? 1); z180_cbn.
  all: destruct C as [C|[C|[C|C]]]; rewrite C; cbv iota beta;
    unfold io_write_byte, io_read_byte, program_write_byte, program_read_byte;
    z180_cbn; cbv iota beta; z180_cbn.
  all: destruct (nz (Z.land (m_dcntl s) Z180_DCNTL_DIM1)); cbn [snd]; z180_cbn.
  all: rewrite ?(land_keep_other_bit _ Z180_DREQ1 Z180_TEND1) by reflexivity.
  all: rewrite ?land_lor_mask, ?orb_true_r, ?orb_false_r.
  all: repeat split; try reflexivity; try discriminate.
  all: intros j; unfold upd; destruct (Z.eqb_spec j 1) as [-> | ?]; auto.
Qed.

(** The cycle budget of a burst is tested only after a transfer: with a
    budget below the six cycles of one transfer, a memory to memory burst
    with more than one byte to go still moves one byte, so that the
    dispatch returns more cycles than its budget, and stops there, the
    channel staying enabled with the count lowered by one.  (Wait states
    are not negative.) *)
Theorem dma0_burst_stops_at_budget (s : z180_device) (N ss ds max_cycles : Z) :
  (forall t, 0 <= memory_wait_states t) ->
  0 <= m_dma_bcr s 0 < 65536 ->
  N = (if m_dma_bcr s 0 =? 0 then 0x10000 else m_dma_bcr s 0) ->
  N <> 1 ->
  max_cycles < 6 ->
  nz (Z.land (m_dstat s) Z180_DSTAT_DE0) = true ->
  nz (Z.land (m_dmode s) Z180_DMODE_MMOD) = true ->
  mem_to_mem_steps (Z.land (m_dmode s) (Z.lor Z180_DMODE_SM Z180_DMODE_DM)) = Some (ss, ds) ->
  let s' := snd (z180_dma0 max_cycles s) in
  m_program s' = copy_bytes 1 (m_dma_sar0 s) (m_dma_dar0 s) ss ds (m_program s) /\
  m_dma_sar0 s' = step_addr 1 (m_dma_sar0 s) ss /\
  m_dma_dar0 s' = step_addr 1 (m_dma_dar0 s) ds /\
  m_dma_bcr s' 0 = N - 1 /\
  m_iol s' = m_iol s /\ m_dstat s' = m_dstat s /\ m_int_pending s' = m_int_pending s /\
  max_cycles < fst (z180_dma0 max_cycles s).
Proof.
  intros Hw Hr HN Hn1 Hmax Hde Hmm Hm. cbv zeta.
  assert (HNr : 2 <= N <= 65536) by (destruct (Z.eqb_spec (m_dma_bcr s 0) 0); lia).
  assert (El : dma0_entry s = mk_dma0 (m_dma_sar0 s) (m_dma_dar0 s) N N 0).
  { unfold dma0_entry. cbv zeta. rewrite Hmm, <- HN. reflexivity. }
  unfold Z180.z180_dma0. cbv zeta. rewrite Hde. cbn [negb]. rewrite El.
  cbn [count].
  destruct (Z.to_nat N) as [|n] eqn:En; [lia|].
  cbn [Z180.dma0_loop count].
  replace (N >? 0) with true by (symmetry; apply Z.gtb_lt; lia). cbv iota.
  pose proof (dma0_body_mem memory_wait_states IN OUT
                (mk_dma0 (m_dma_sar0 s) (m_dma_dar0 s) N N 0) s ss ds Hm) as B.
  cbv zeta in B. cbn [sar0 dar0 bcr0 count cycles] in B.
  destruct (Z180.dma0_body memory_wait_states IN OUT
              (mk_dma0 (m_dma_sar0 s) (m_dma_dar0 s) N N 0) s) as [l1 s1].
  cbn [fst snd] in B.
  destruct B as (B1 & B2 & B3 & B4 & B5 & B6 & B7 & B8).
  replace (N =? 1) with false in B7 by (symmetry; apply Z.eqb_neq; lia).
  destruct (dma_view_kept _ _ B8) as (K1 & K2 & K3 & K4 & K5 & _).
  pose proof (Hw s1) as Hw1.
  replace (cycles l1 >? max_cycles) with true by (symmetry; apply Z.gtb_lt; lia).
  cbv iota.
  rewrite dma0_exit_remaining by lia. cbn [fst snd]. z180_cbn.
  rewrite upd_same, B1, B2, B3, B6, B7, K2, K4, u16_small by lia.
  repeat split. lia.
Qed.



End DmaMore.

Lemma dma1_never_reaches_terminal_count_witness :
  get_tend1 (snd (z180_dma1 memory_wait_states_dcntl (dma1_setup 1)))
  = get_tend1 (dma1_setup 1) || (dma1_active (dma1_setup 1) && (m_dma_bcr (dma1_setup 1) 1 =? 1)).
Proof.
  pose proof (dma1_never_reaches_terminal_count memory_wait_states_dcntl (dma1_setup 1)
                ltac:(vm_compute; split; [discriminate | reflexivity])) as H.
  cbv zeta in H. apply H.
Defined.

Lemma dma0_burst_stops_at_budget_witness :
  m_dma_bcr (snd (z180_dma0 memory_wait_states_dcntl IN_external OUT_external 5
                    (dma0_burst_setup 4))) 0 = 4 - 1.
Proof.
  pose proof (dma0_burst_stops_at_budget memory_wait_states_dcntl IN_external OUT_external
                (dma0_burst_setup 4) 4 1 1 5) as H.
  cbv zeta in H.
  apply H; try reflexivity; try lia.
  - intros t. unfold memory_wait_states_dcntl.
    apply Z.shiftr_nonneg, Z.land_nonneg. right. lia.
  - vm_compute. split; [discriminate | reflexivity].
Defined.


(** * Execution: [execute_burn], [execute_run] *)

Lemma clock_timers_regs (s : z180_device) : keeps regs_view s (clock_timers s).
Proof. cbv beta delta [clock_timers]. frame_walk keeps_leaf. Qed.

Lemma handle_io_timers_regs (n : Z) (s : z180_device) :
  keeps regs_view s (handle_io_timers n s).
Proof.
  unfold handle_io_timers. induction (Z.to_nat n) as [|k IH]; cbn [Nat.iter].
  - apply keeps_refl.
  - eapply keeps_trans; [exact IH | apply clock_timers_regs].
Qed.

Lemma regs_view_kept (s s' : z180_device) :
  keeps regs_view s s' ->
  m_R s' = m_R s /\ m_R2 s' = m_R2 s /\ m_PREPC s' = m_PREPC s /\ m_frc s' = m_frc s.
Proof.
  intros F. unfold keeps, regs_view in F. injection F as F1 F2 F3 F4 _.
  repeat split; assumption.
Qed.

Lemma iter_shift {A : Type} (f : A -> A) (n : nat) (x : A) :
  Nat.iter n f (f x) = f (Nat.iter n f x).
Proof. rewrite <- Nat.iter_succ_r, Nat.iter_succ. reflexivity. Qed.

(** the loop of [execute_burn] makes [n] passes when [n] passes are what it
    takes to use up [cycles] *)
Lemma burn_loop_passes (w : Z) (n : nat) :
  forall (fuel : nat) (cycles : Z) (s : z180_device),
  0 < 3 + w -> (n <= fuel)%nat ->
  cycles <= Z.of_nat n * (3 + w) ->
  (n = 0%nat \/ (Z.of_nat n - 1) * (3 + w) < cycles) ->
  burn_loop fuel w cycles s = Nat.iter n (burn_pass w) s.
Proof.
  induction n as [|n IH]; intros fuel cycles s Hq Hf Hc Hlow.
  - change (Nat.iter 0 (burn_pass w) s) with s.
    destruct fuel as [|fuel]; [reflexivity|]. cbn [burn_loop].
    replace (cycles >? 0) with false by (symmetry; rewrite Z.gtb_ltb; apply Z.ltb_ge; lia).
    reflexivity.
  - destruct fuel as [|fuel]; [lia|]. cbn [burn_loop].
    assert (Hpos : 0 < cycles) by (destruct Hlow as [? | ?]; [lia | nia]).
    replace (cycles >? 0) with true by (symmetry; apply Z.gtb_lt; exact Hpos).
    cbv zeta. rewrite Nat.iter_succ, <- iter_shift.
    apply IH; [exact Hq | lia | nia |].
    destruct n as [|n]; [left; reflexivity | right; destruct Hlow as [? | ?]; [lia | nia]].
Qed.

Lemma burn_pass_view (w : Z) (s : z180_device) :
  m_icount (burn_pass w s) = m_icount s - (3 + w) /\
  m_R (burn_pass w s) = u8 (m_R s + 1) /\
  view_of (burn_pass w s) = Nat.iter (Z.to_nat (3 + w)) clock_view (view_of s).
Proof.
  unfold burn_pass. cbv zeta. z180_cbn.
  destruct (timers_view_kept _ _ (handle_io_timers_frame (3 + w) s))
    as (_ & _ & _ & _ & _ & _ & _ & _ & Hic & _).
  destruct (regs_view_kept _ _ (handle_io_timers_regs (3 + w) s)) as (HR & _).
  rewrite Hic, HR. repeat split.
  unfold view_of at 1. z180_cbn. fold (view_of (handle_io_timers (3 + w) s)).
  unfold handle_io_timers. apply iter_view.
Qed.

Lemma burn_passes_view (w : Z) (n : nat) (s : z180_device) :
  0 < 3 + w ->
  m_icount (Nat.iter (S n) (burn_pass w) s) = m_icount s - Z.of_nat (S n) * (3 + w) /\
  m_R (Nat.iter (S n) (burn_pass w) s) = u8 (m_R s + Z.of_nat (S n)) /\
  view_of (Nat.iter (S n) (burn_pass w) s)
  = Nat.iter (S n * Z.to_nat (3 + w)) clock_view (view_of s).
Proof.
  intros Hq. induction n as [|n IH].
  - change (Nat.iter 1 (burn_pass w) s) with (burn_pass w s).
    destruct (burn_pass_view w s) as (A & B & C). rewrite A, B, C.
    repeat split; first [lia | f_equal; lia].
  - rewrite (Nat.iter_succ (S n)).
    destruct (burn_pass_view w (Nat.iter (S n) (burn_pass w) s)) as (A & B & C).
    destruct IH as (I1 & I2 & I3).
    rewrite A, B, C, I1, I2, I3. repeat split.
    + lia.
    + unfold u8. rewrite Z.add_mod_idemp_l by lia. f_equal. lia.
    + rewrite <- Nat.iter_add. f_equal; lia.
Qed.

Section Burn.
Variable memory_wait_states : z180_device -> Z.

Local Abbreviation execute_burn := (execute_burn memory_wait_states).

(** [execute_burn] burns whole NOPs of [3 + w] T-states, [w] being the
    memory wait states on entry: for [cycles > 0] it makes
    [n = ceil (cycles / (3 + w))] passes, so it takes [n * (3 + w)] off
    [m_icount], which is at least [cycles] and less than a NOP more, adds
    [n] to R modulo 256, and clocks the timers for [n * (3 + w)] T-states;
    the loop has ended after [n] passes whatever fuel is left.  For
    [cycles <= 0] it does nothing. *)
Theorem execute_burn_whole_nops (fuel : nat) (cycles : Z) (s : z180_device) :
  let w := memory_wait_states s in
  let n := (cycles + (3 + w) - 1) / (3 + w) in
  0 <= w ->
  (cycles <= 0 -> execute_burn fuel cycles s = s) /\
  (0 < cycles -> (Z.to_nat n <= fuel)%nat ->
   let s' := execute_burn fuel cycles s in
   cycles <= n * (3 + w) < cycles + (3 + w) /\
   m_icount s' = m_icount s - n * (3 + w) /\
   m_R s' = u8 (m_R s + n) /\
   view_of s' = view_of (handle_io_timers (n * (3 + w)) s) /\
   execute_burn (S fuel) cycles s = s').
Proof.
  intros w n Hw. unfold Z180.execute_burn. cbv zeta. fold w.
  split.
  - intros Hc. destruct fuel as [|fuel]; [reflexivity|]. cbn [burn_loop].
    replace (cycles >? 0) with false by (symmetry; rewrite Z.gtb_ltb; apply Z.ltb_ge; lia).
    reflexivity.
  - intros Hc Hf.
    assert (Hq : 0 < 3 + w) by lia.
    assert (Hn : cycles <= n * (3 + w) < cycles + (3 + w)).
    { subst n. pose proof (Z.mul_div_le (cycles + (3 + w) - 1) (3 + w) Hq).
      pose proof (Z.mul_succ_div_gt (cycles + (3 + w) - 1) (3 + w) Hq).
      lia. }
    assert (Hn1 : 1 <= n) by nia.
    split; [exact Hn|].
    assert (E : forall f, (Z.to_nat n <= f)%nat ->
                burn_loop f w cycles s = Nat.iter (Z.to_nat n) (burn_pass w) s).
    { intros f Hle. apply burn_loop_passes; try assumption.
      - rewrite Z2Nat.id by lia. lia.
      - right. rewrite Z2Nat.id by lia. lia. }
    rewrite (E fuel Hf), (E (S fuel)) by lia.
    destruct (Z.to_nat n) as [|m] eqn:Em; [lia|].
    destruct (burn_passes_view w m s Hq) as (A & B & C).
    rewrite A, B, C. rewrite <- Em, Z2Nat.id by lia.
    repeat split.
    unfold handle_io_timers. rewrite iter_view. f_equal. lia.
Qed.
End Burn.

Lemma execute_burn_whole_nops_witness :
  m_icount (execute_burn memory_wait_states_dcntl 10 10 z180_device_ctor)
  = m_icount z180_device_ctor
    - (10 + (3 + memory_wait_states_dcntl z180_device_ctor) - 1)
      / (3 + memory_wait_states_dcntl z180_device_ctor)
      * (3 + memory_wait_states_dcntl z180_device_ctor).
Proof.
  pose proof (execute_burn_whole_nops memory_wait_states_dcntl 10 10 z180_device_ctor) as H.
  cbv zeta in H. specialize (H ltac:(vm_compute; discriminate)).
  destruct H as [_ H].
  specialize (H ltac:(lia) ltac:(vm_compute; lia)).
  apply H.
Defined.

Lemma account_view (c : Z) (s : z180_device) :
  keeps timers_view (s <| m_icount := m_icount s - c |>) (account c s) /\
  keeps regs_view s (account c s) /\
  prt_only s (account c s) /\
  view_of (account c s) = view_of (handle_io_timers c s).
Proof.
  unfold account. split; [apply handle_io_timers_frame|]. split; [|split].
  - pose proof (handle_io_timers_regs c (s <| m_icount := m_icount s - c |>)) as H.
    unfold keeps in *. rewrite H. reflexivity.
  - pose proof (handle_io_timers_prt_only c (s <| m_icount := m_icount s - c |>)) as H.
    unfold prt_only in *. z180_cbn_in H. exact H.
  - unfold handle_io_timers. rewrite !iter_view. reflexivity.
Qed.

Section Halted.
Variable memory_wait_states : z180_device -> Z.
Variable IN : Z -> z180_device -> Z * z180_device.
Variable OUT : Z -> Z -> z180_device -> z180_device.
Variable take_interrupt : Z -> z180_device -> Z * z180_device.
Variable exec_op : z180_device -> Z * z180_device.

Local Abbreviation execute_run := (execute_run memory_wait_states IN OUT take_interrupt exec_op).
Local Abbreviation run_from := (run_from memory_wait_states IN OUT take_interrupt exec_op).
Local Abbreviation run_step := (run_step memory_wait_states IN OUT take_interrupt exec_op).
Local Abbreviation run_instruction := (run_instruction take_interrupt exec_op).
Local Abbreviation check_interrupts := (check_interrupts take_interrupt).

(** Entered with no NMI pending, no DMA running and no T-states left,
    [execute_run] returns at once: no interrupt is checked, no instruction
    is run and the state is as it was. *)
Theorem execute_run_without_budget (fuel : nat) (s : z180_device) :
  nz (m_nmi_pending s) = false ->
  (Z.land (m_dstat s) Z180_DSTAT_DME =? Z180_DSTAT_DME) = false ->
  m_icount s <= 0 ->
  execute_run (2 + fuel) s = (Run_done, s).
Proof.
  intros Hn Hd Hi. unfold Z180.execute_run. rewrite Hn.
  cbn [Nat.add Z180.run_from Z180.run_step]. rewrite Hd.
  cbn [Z180.run_from Z180.run_step].
  replace (m_icount s >? 0) with false
    by (symmetry; rewrite Z.gtb_ltb; apply Z.ltb_ge; lia).
  destruct fuel; reflexivity.
Qed.

Lemma check_interrupts_halted_idle (s : z180_device) :
  halted_idle s -> check_interrupts s = (0, s).
Proof.
  intros (_ & Hi & _ & Hp). unfold Z180.check_interrupts. cbv zeta.
  rewrite check_irqs_idle by (rewrite Hi; reflexivity).
  apply take_first_pending_none.
  intros j Hj. apply Hp. unfold Z180_INT_MAX, Z180_INT_ASCI1.
  change (Z.of_nat (Z.to_nat (Z180_INT_MAX + 1))) with 12 in Hj. lia.
Qed.

Lemma halt_pass_view (s : z180_device) :
  halted_idle s ->
  let s' := halt_pass s in
  halted_idle s' /\
  m_icount s' = m_icount s - 3 /\
  m_PC s' = m_PC s /\ m_PREPC s' = m_PC s /\ m_after_EI s' = 0 /\
  m_R s' = m_R s /\ m_program s' = m_program s /\ m_SP s' = m_SP s /\
  m_int_pending s' = m_int_pending s /\
  view_of s' = Nat.iter 3 clock_view (view_of s).
Proof.
  intros (Hh & Hi & Hd & Hp). cbv zeta. unfold halt_pass. cbv zeta.
  destruct (account_view 0 s) as (A1 & A2 & A3 & A4).
  revert A1 A2 A3 A4. generalize (account 0 s). intros s1 A1 A2 A3 A4.
  destruct (timers_view_kept _ _ A1)
    as (T1 & T2 & T3 & T4 & T5 & T6 & T7 & T8 & T9 & T10 & T11 & T12 & T13 & T14).
  z180_cbn_in T1; z180_cbn_in T2; z180_cbn_in T3; z180_cbn_in T5; z180_cbn_in T6;
    z180_cbn_in T7; z180_cbn_in T9.
  destruct (regs_view_kept _ _ A2) as (R1 & _).
  destruct A3 as (_ & _ & _ & P1).
  specialize (P1 ltac:(rewrite Hi; reflexivity)).
  match goal with |- context [account 3 ?x] => set (s2 := x) end.
  destruct (account_view 3 s2) as (B1 & B2 & B3 & B4).
  revert B1 B2 B3 B4. generalize (account 3 s2). intros s3 B1 B2 B3 B4.
  destruct (timers_view_kept _ _ B1)
    as (U1 & U2 & U3 & U4 & U5 & U6 & U7 & U8 & U9 & U10 & U11 & U12 & U13 & U14).
  subst s2.
  z180_cbn_in U1; z180_cbn_in U2; z180_cbn_in U3; z180_cbn_in U5; z180_cbn_in U6;
    z180_cbn_in U7; z180_cbn_in U9; z180_cbn_in U12.
  destruct (regs_view_kept _ _ B2) as (Q1 & _ & Q3 & _).
  z180_cbn_in Q1; z180_cbn_in Q3.
  destruct B3 as (_ & _ & _ & P2). z180_cbn_in P2.
  specialize (P2 ltac:(rewrite T3, Hi; reflexivity)).
  assert (V : view_of s3 = Nat.iter 3 clock_view (view_of s)).
  { rewrite B4. unfold handle_io_timers. rewrite iter_view.
    change (Z.to_nat 3) with 3%nat. f_equal.
    transitivity (view_of s1); [reflexivity|].
    rewrite A4. reflexivity. }
  unfold halted_idle.
  rewrite U1, U2, U3, U5, U6, U7, U9, U12, Q1, Q3, P2, T1, T2, T3, T5, T6, T7, T9, R1, P1.
  repeat split; try assumption; try lia.
Qed.

Lemma run_instruction_halted_idle (s : z180_device) :
  halted_idle s -> run_instruction s = halt_pass s.
Proof.
  intros H. unfold Z180.run_instruction, halt_pass.
  rewrite check_interrupts_halted_idle by exact H. cbv zeta.
  destruct H as (Hh & _).
  destruct (account_view 0 s) as (A1 & _).
  destruct (timers_view_kept _ _ A1) as (T1 & _). z180_cbn_in T1.
  z180_cbn. rewrite T1, Hh. reflexivity.
Qed.

Lemma halt_passes_view (n : nat) (s : z180_device) :
  halted_idle s ->
  let s' := Nat.iter n halt_pass s in
  halted_idle s' /\
  m_icount s' = m_icount s - 3 * Z.of_nat n /\
  m_PC s' = m_PC s /\ m_R s' = m_R s /\ m_program s' = m_program s /\
  m_SP s' = m_SP s /\ m_int_pending s' = m_int_pending s /\
  view_of s' = Nat.iter (3 * n) clock_view (view_of s).
Proof.
  intros H. cbv zeta. induction n as [|n IH].
  - change (Nat.iter 0 halt_pass s) with s. repeat split; try apply H; lia.
  - rewrite Nat.iter_succ.
    destruct IH as (I0 & I1 & I2 & I3 & I4 & I5 & I6 & I7).
    destruct (halt_pass_view _ I0) as (J0 & J1 & J2 & _ & _ & J5 & J6 & J7 & J8 & J9).
    rewrite J1, J2, J5, J6, J7, J8, J9, I1, I2, I3, I4, I5, I6, I7.
    repeat split; try apply J0; try lia.
    rewrite <- Nat.iter_add. f_equal; lia.
Qed.

(** the instruction loop from a halted idle state with [k] passes to go *)
Lemma run_from_halted (k : nat) :
  forall (fuel : nat) (s : z180_device),
  halted_idle s ->
  3 * (Z.of_nat k - 1) < m_icount s <= 3 * Z.of_nat k ->
  (k < fuel)%nat ->
  run_from fuel (if m_icount s >? 0 then In_op_loop else Run_done) s
  = (Run_done, Nat.iter k halt_pass s).
Proof.
  induction k as [|k IH]; intros fuel s H Hc Hf.
  - replace (m_icount s >? 0) with false
      by (symmetry; rewrite Z.gtb_ltb; apply Z.ltb_ge; lia).
    destruct fuel; [lia|]. reflexivity.
  - replace (m_icount s >? 0) with true by (symmetry; apply Z.gtb_lt; lia).
    destruct fuel as [|fuel]; [lia|].
    cbn [Z180.run_from Z180.run_step].
    destruct H as (Hh & Hi & Hd & Hp) eqn:EH. rewrite Hd.
    rewrite run_instruction_halted_idle by exact H.
    destruct (halt_pass_view s H) as (J0 & J1 & _).
    rewrite Nat.iter_succ_r.
    rewrite <- (IH fuel (halt_pass s) J0) by lia.
    destruct (m_icount (halt_pass s) >? 0); reflexivity.
Qed.

(** A halted processor with interrupts disabled, no DMA running and nothing
    pending spends its time slice in passes of 3 T-states:
    [n = ceil (m_icount / 3)] passes, after which [execute_run] has
    returned with [m_icount] lowered by [3 * n]; PC, the refresh register,
    the stack and the memory are as before, nothing has become pending, the
    processor is still halted, and the timers have been clocked [3 * n]
    times. *)
Theorem halted_cpu_burns_its_slice (fuel : nat) (s : z180_device) :
  let n := (m_icount s + 2) / 3 in
  nz (m_nmi_pending s) = false ->
  halted_idle s ->
  0 < m_icount s ->
  (Z.to_nat n + 2 < fuel)%nat ->
  exists s',
    execute_run fuel s = (Run_done, s') /\
    halted_idle s' /\
    m_icount s' = m_icount s - 3 * n /\ -3 < m_icount s' <= 0 /\
    m_PC s' = m_PC s /\ m_R s' = m_R s /\ m_program s' = m_program s /\
    m_SP s' = m_SP s /\ m_int_pending s' = m_int_pending s /\
    view_of s' = view_of (handle_io_timers (3 * n) s).
Proof.
  intros n Hn H Hc Hf.
  assert (Hn3 : m_icount s <= 3 * n < m_icount s + 3).
  { subst n. pose proof (Z.mul_div_le (m_icount s + 2) 3 ltac:(lia)).
    pose proof (Z.mul_succ_div_gt (m_icount s + 2) 3 ltac:(lia)). lia. }
  exists (Nat.iter (Z.to_nat n) halt_pass s).
  destruct (halt_passes_view (Z.to_nat n) s H) as (I0 & I1 & I2 & I3 & I4 & I5 & I6 & I7).
  rewrite Z2Nat.id in I1 by lia.
  split.
  - unfold Z180.execute_run. rewrite Hn.
    destruct fuel as [|[|fuel]]; [lia | lia |].
    cbn [Z180.run_from Z180.run_step].
    destruct H as (Hh & Hi & Hd & Hp) eqn:EH. rewrite Hd.
    cbn [Z180.run_step].
    transitivity (run_from fuel (if m_icount s >? 0 then In_op_loop else Run_done) s);
      [destruct (m_icount s >? 0); reflexivity|].
    apply run_from_halted; [exact H | rewrite Z2Nat.id by lia; lia | lia].
  - rewrite I1, I2, I3, I4, I5, I6, I7.
    repeat split; try apply I0; try lia.
    unfold handle_io_timers. rewrite iter_view. f_equal. lia.
Qed.
End Halted.

Lemma execute_run_without_budget_witness :
  execute_run memory_wait_states_dcntl IN_external OUT_external take_interrupt_ack exec_nop
    (2 + 0) z180_device_ctor
  = (Run_done, z180_device_ctor).
Proof.
  apply (execute_run_without_budget memory_wait_states_dcntl IN_external OUT_external
           take_interrupt_ack exec_nop 0 z180_device_ctor);
    [reflexivity | reflexivity | vm_compute; discriminate].
Defined.

Lemma halted_idle_at_0x100 : halted_idle halted_at_0x100.
Proof.
  unfold halted_idle. repeat split; try reflexivity.
Qed.

Lemma halted_cpu_burns_its_slice_witness :
  exists s',
    execute_run memory_wait_states_dcntl IN_external OUT_external take_interrupt_ack exec_nop
      10 halted_at_0x100 = (Run_done, s') /\
    m_icount s' = m_icount halted_at_0x100 - 3 * ((m_icount halted_at_0x100 + 2) / 3) /\
    m_PC s' = m_PC halted_at_0x100.
Proof.
  destruct (halted_cpu_burns_its_slice memory_wait_states_dcntl IN_external OUT_external
              take_interrupt_ack exec_nop 10 halted_at_0x100
              ltac:(reflexivity) halted_idle_at_0x100 ltac:(vm_compute; reflexivity)
              ltac:(vm_compute; lia))
    as (s' & H1 & _ & H3 & _ & H5 & _).
  exists s'. repeat split; assumption.
Defined.

(** * What register writes and reset leave alone *)

Lemma writecontrol_switch_cpu (port data : Z) (s : z180_device) :
  cpu_view (writecontrol_switch port data s) = cpu_view s.
Proof.
  unfold cpu_view. port_cases port;
    cbv beta iota zeta delta [writecontrol_switch z180_mmu];
    z180_cbn; repeat (case_inner; cbv beta iota zeta; z180_cbn); reflexivity.
Qed.

(** A register write through [z180_writecontrol], whatever the port and
    the data, leaves the processor registers and flags, the program
    memory, the pending interrupt flags, the NMI latch, the IRQ states, the
    I/O lines, the cycle count and the timers' divider alone. *)
Theorem writecontrol_leaves_cpu_alone (port data : Z) (s : z180_device) :
  keeps cpu_view s (z180_writecontrol port data s).
Proof.
  unfold keeps, z180_writecontrol. cbv zeta.
  rewrite writecontrol_switch_cpu. reflexivity.
Qed.

Lemma pair_w_l_set_b_h2 (x : Z) : pair_w_l (pair_set_b_h2 0 x) = pair_w_l x.
Proof.
  unfold pair_w_l, pair_set_b_h2, u8.
  change (Z.shiftl (0 mod 256) 16) with 0. rewrite Z.lor_0_r.
  rewrite <- Z.land_assoc. reflexivity.
Qed.

Lemma pair_b_h2_set_b_h2 (x : Z) : pair_b_h2 (pair_set_b_h2 0 x) = 0.
Proof.
  unfold pair_b_h2, pair_set_b_h2, u8.
  change (Z.shiftl (0 mod 256) 16) with 0. rewrite Z.lor_0_r.
  rewrite Z.shiftr_land. rewrite <- Z.land_assoc.
  change (Z.land (Z.shiftr (Z.lnot 0xff0000) 16) 0xff) with 0. apply Z.land_0_r.
Qed.

Section ResetFrame.
Variable cc_default : Z -> array.

(** [device_reset] leaves the program memory and the I/O space, the two
    address registers of DMA channel 0, the memory address register of
    channel 1 and both count registers, the timers' reload registers, the
    ASCI data and time constant registers, the CSIO data register, the FRC
    and the cycle count as they are.  Of the I/O address register of
    channel 1 it keeps the low 16 bits and clears the bank byte.  Of the
    timers it keeps the bytes last written to the data registers, but not
    the counters: both are set to 0xFFFF. *)
Theorem device_reset_leaves_dma_and_reload_registers (s : z180_device) :
  let s' := device_reset cc_default s in
  keeps reset_kept_view s s' /\
  pair_w_l (m_dma_iar1 s') = pair_w_l (m_dma_iar1 s) /\
  pair_b_h2 (m_dma_iar1 s') = 0 /\
  m_tmdr_value s' 0 = 0xffff /\ m_tmdr_value s' 1 = 0xffff.
Proof.
  cbv zeta.
  assert (E : m_dma_iar1 (device_reset cc_default s) = pair_set_b_h2 0x00 (m_dma_iar1 s))
    by (vm_compute; reflexivity).
  rewrite E.
  split; [unfold keeps, reset_kept_view; vm_compute; reflexivity|].
  split; [apply pair_w_l_set_b_h2|].
  split; [apply pair_b_h2_set_b_h2|].
  split; vm_compute; reflexivity.
Qed.
End ResetFrame.
